(** * money-saarthi: the analytics, insight and purchase-planner services

    A shallow embedding of [src/services/analytics.ts], of the insight engine
    of [src/services/insights.ts] and of the purchase planner that follows it
    in the same file, with the properties the specification states about
    them.

    Numbers.  A JavaScript [number] is modelled as an exact rational ([Q]):
    the model has no rounding error, no [NaN] and no infinity, and equality
    of numbers is [Qeq] (written [==]).  The divisions of the analytics and
    insight functions either sit behind a guard of the source, which the
    model has too, or are modelled with their infinite result
    ([js_div_pos]); [calculateEMI] divides without a guard and is stated
    for divisors that are not zero.

    Clock.  Each function that calls [new Date()] takes the instant it
    reads as its first argument [now].

    Runtime.  [Math.sqrt], [Math.pow], the number-to-text conversions
    ([toLocaleString], [toFixed], template interpolation) and the calendar
    arithmetic behind the projected purchase date are built-ins of the
    JavaScript runtime; they are the methods of the class [Runtime] and
    every theorem holds for every instance of it. *)

From Stdlib Require Import ZArith QArith Qround Qabs Qminmax Lqa Lia PrimFloat.
From Stdlib Require Import Bool DecimalString String List Permutation Sorted.
Import ListNotations.

Local Open Scope Q_scope.

(** ** JavaScript numbers *)

(** [x < y], [x > y], [x >= y], [x <= y] and [x === y] on numbers. *)
Definition Qltb (x y : Q) : bool := negb (Qle_bool y x).
Definition Qgtb (x y : Q) : bool := Qltb y x.
Definition Qleb (x y : Q) : bool := Qle_bool x y.
Definition Qgeb (x y : Q) : bool := Qle_bool y x.
Definition Qeqb (x y : Q) : bool := Qeq_bool x y.

(** [Math.round]: the nearest integer, halves towards plus infinity. *)
Definition Math_round (x : Q) : Z := Qfloor (x + (1 # 2)).

(** [Math.ceil], [Math.min], [Math.max], [Math.abs]. *)
Definition Math_ceil (x : Q) : Z := Qceiling x.
Definition Math_min (x y : Q) : Q := Qmin x y.
Definition Math_max (x y : Q) : Q := Qmax x y.
Definition Math_abs (x : Q) : Q := Qabs x.

(** [x || d] for a number [x]: zero is falsy. *)
Definition num_or (x d : Q) : Q := if Qeqb x 0 then d else x.

(** [x || d] for an optional numeric field: [undefined] and zero are falsy. *)
Definition opt_or (x : option Q) (d : Q) : Q :=
  match x with
  | Some v => num_or v d
  | None => d
  end.

(** [s || d] for a string: the empty string is falsy. *)
Definition str_or (s d : string) : string :=
  match s with
  | EmptyString => d
  | _ => s
  end.

(** [n / d] where the source does not guard [d] and the numerator is
    positive whenever [d] is zero: [None] stands for [Infinity]. *)
Definition js_div_pos (n d : Q) : option Q :=
  if Qeqb d 0 then None else Some (n / d).

(** Sum of a list of numbers, as [reduce((s, x) => s + x, 0)]. *)
Definition Qsum (l : list Q) : Q := fold_left Qplus l 0.

(** ** The runtime's built-ins *)

Class Runtime := {
  (** [Math.sqrt(x)] *)
  Math_sqrt : Q -> Q;
  (** [Math.pow(x, y)] *)
  Math_pow : Q -> Q -> Q;
  (** [n.toLocaleString()] *)
  toLocaleString : Q -> string;
  (** [n.toFixed(digits)] *)
  toFixed : Q -> nat -> string;
  (** the text of a number interpolated in a template literal *)
  toString : Q -> string;
  (** [startDate] (the wall clock when absent) moved forward by a number of
      months with [setMonth], as [toISOString().split("T")[0]] *)
  projectISODate : option string -> Z -> string
}.

(** ** Dates *)

(** The local-time fields of a JavaScript [Date]. *)
Record Date := {
  getFullYear : Z;
  getMonth : Z;
  getDate : Z;
  msOfDay : Z
}.

(** [new Date(year, month, 1)]: a month outside [0..11] carries into the
    year, and a year argument in [0..99] means [1900 + year]. *)
Definition Date_ym (year month : Z) : Date :=
  let y := if ((0 <=? year) && (year <=? 99))%Z then (1900 + year)%Z
           else year in
  {| getFullYear := (y + month / 12)%Z;
     getMonth := (month mod 12)%Z;
     getDate := 1%Z;
     msOfDay := 0%Z |}.

(** The text [`${d.getFullYear()}-${d.getMonth()}`] determines the pair
    (year, month) and is determined by it; a key is that pair.  [None] is
    the key ["NaN-NaN"] of a date string that does not parse. *)
Definition MonthKey : Type := option (Z * Z).

Definition MonthKey_eqb (a b : MonthKey) : bool :=
  match a, b with
  | Some (y1, m1), Some (y2, m2) => ((y1 =? y2) && (m1 =? m2))%Z
  | None, None => true
  | _, _ => false
  end.

Definition Date_key (d : Date) : MonthKey := Some (getFullYear d, getMonth d).

(** ** Insertion-ordered maps ([Map], and objects used as records) *)

Section JsMap.
Variables (K V : Type) (eqb : K -> K -> bool).

Definition JsMap : Type := list (K * V).

Fixpoint map_get (k : K) (m : JsMap) : option V :=
  match m with
  | [] => None
  | (k', v) :: m' => if eqb k k' then Some v else map_get k m'
  end.

Definition map_has (k : K) (m : JsMap) : bool :=
  match map_get k m with
  | Some _ => true
  | None => false
  end.

(** [m.set(k, v)]: an existing key keeps its place. *)
Fixpoint map_set (k : K) (v : V) (m : JsMap) : JsMap :=
  match m with
  | [] => [(k, v)]
  | (k', v') :: m' =>
      if eqb k k' then (k, v) :: m' else (k', v') :: map_set k v m'
  end.

(** [const o = m.get(k); if (o) { mutate o }]: the object stored under [k]
    is updated in place. *)
Fixpoint map_modify (k : K) (f : V -> V) (m : JsMap) : JsMap :=
  match m with
  | [] => []
  | (k', v) :: m' =>
      if eqb k k' then (k', f v) :: m' else (k', v) :: map_modify k f m'
  end.

(** [Array.from(m.values())] *)
Definition map_values (m : JsMap) : list V := map snd m.

End JsMap.

Arguments map_get {K V} eqb k m.
Arguments map_has {K V} eqb k m.
Arguments map_set {K V} eqb k v m.
Arguments map_modify {K V} eqb k f m.
Arguments map_values {K V} m.

(** [Array.prototype.sort(cmp)] is stable; [before a b] is [cmp(a, b) <= 0]. *)
Section Sort.
Variables (A : Type) (before : A -> A -> bool).

Fixpoint sort_insert (x : A) (l : list A) : list A :=
  match l with
  | [] => [x]
  | y :: l' => if before x y then x :: l else y :: sort_insert x l'
  end.

Definition stable_sort (l : list A) : list A := fold_right sort_insert [] l.

End Sort.

Arguments sort_insert {A} before x l.
Arguments stable_sort {A} before l.

(** ** Records of the ledger ([services/api]) *)

(** The [date] text of an entry is represented by the [Date] that
    [new Date(date)] yields in the user's time zone; [None] is an invalid
    date, whose getters return [NaN]. *)
Record Income := {
  i_id : string;
  i_userId : string;
  i_amount : Q;
  i_source : string;
  i_date : option Date
}.

Record Expense := {
  e_id : string;
  e_userId : string;
  e_amount : Q;
  e_category : string;
  e_description : string;
  e_date : option Date
}.

(** ** Analytics and aggregation layer *)

Module Analytics.

Record MonthlyAggregate := {
  month : string;
  monthIndex : Z;
  year : Z;
  income : Q;
  expenses : Q;
  savings : Q;
  savingsRate : Q
}.

Record CategorySummary := {
  category : string;
  total : Q;
  percentage : Q;
  monthlyBreakdown : JsMap string Q;
  growth : Q
}.

Record YearlySummary := {
  totalIncome : Q;
  totalExpenses : Q;
  totalSavings : Q;
  ys_savingsRate : Q;
  highestSpendingCategory : string;
  highestSpendingAmount : Q;
  bestMonth : string;
  worstMonth : string;
  averageMonthlyExpense : Q;
  averageMonthlyIncome : Q;
  monthsTracked : nat
}.

Record ProjectionEntry := {
  pr_month : string;
  pr_income : Q;
  pr_expenses : Q;
  pr_savings : Q
}.

Inductive Trend := improving | declining | stable.

Record Prediction := {
  nextMonthIncome : Q;
  nextMonthExpense : Q;
  nextMonthSavingsRate : Q;
  threeMonthProjection : list ProjectionEntry;
  trend : Trend
}.

Inductive Grade := A | B | C | D | F.

Record Factor := {
  label : string;
  score : Q;
  weight : Q
}.

Record FinancialHealthScore := {
  hs_score : Q;
  grade : Grade;
  factors : list Factor
}.

Definition MONTH_NAMES : list string :=
  ["Jan"; "Feb"; "Mar"; "Apr"; "May"; "Jun";
   "Jul"; "Aug"; "Sep"; "Oct"; "Nov"; "Dec"]%string.

(** [MONTH_NAMES[i]]; out of range it is [undefined], which the source only
    ever uses as a property key or in a template, where it reads
    ["undefined"]. *)
Definition month_name (i : Z) : string :=
  if (i <? 0)%Z then "undefined"%string
  else nth (Z.to_nat i) MONTH_NAMES "undefined"%string.

Definition getMonthKey (date : option Date) : MonthKey :=
  match date with
  | Some d => Date_key d
  | None => None
  end.

Definition getMonthLabel (date : option Date) : string :=
  match date with
  | Some d => month_name (getMonth d)
  | None => "undefined"%string
  end.

(** *** Monthly aggregation *)

Definition add_income (x : Q) (a : MonthlyAggregate) : MonthlyAggregate :=
  {| month := month a; monthIndex := monthIndex a; year := year a;
     income := income a + x; expenses := expenses a;
     savings := savings a; savingsRate := savingsRate a |}.

Definition add_expenses (x : Q) (a : MonthlyAggregate) : MonthlyAggregate :=
  {| month := month a; monthIndex := monthIndex a; year := year a;
     income := income a; expenses := expenses a + x;
     savings := savings a; savingsRate := savingsRate a |}.

Definition calc_savings (a : MonthlyAggregate) : MonthlyAggregate :=
  let s := income a - expenses a in
  {| month := month a; monthIndex := monthIndex a; year := year a;
     income := income a; expenses := expenses a;
     savings := s;
     savingsRate := if Qgtb (income a) 0 then (s / income a) * 100 else 0 |}.

(** The values of [i] in [for (let i = 11; i >= 0; i--)]. *)
Definition last12 : list Z := [11; 10; 9; 8; 7; 6; 5; 4; 3; 2; 1; 0]%Z.

(** The aggregate the map is initialised with for the month of [d]. *)
Definition empty_month (d : Date) : MonthlyAggregate :=
  {| month := month_name (getMonth d);
     monthIndex := getMonth d;
     year := getFullYear d;
     income := 0; expenses := 0; savings := 0; savingsRate := 0 |}.

Definition init_months (now : Date) : JsMap MonthKey MonthlyAggregate :=
  fold_left
    (fun map i =>
       let d := Date_ym (getFullYear now) (getMonth now - i) in
       map_set MonthKey_eqb (Date_key d) (empty_month d) map)
    last12 [].

Definition getMonthlyAggregates (now : Date) (incomes : list Income)
    (expenses_ : list Expense) : list MonthlyAggregate :=
  let map0 := init_months now in
  let map1 :=
    fold_left
      (fun map i =>
         map_modify MonthKey_eqb (getMonthKey (i_date i))
           (add_income (i_amount i)) map)
      incomes map0 in
  let map2 :=
    fold_left
      (fun map e =>
         map_modify MonthKey_eqb (getMonthKey (e_date e))
           (add_expenses (e_amount e)) map)
      expenses_ map1 in
  let map3 := map (fun kv => (fst kv, calc_savings (snd kv))) map2 in
  map_values map3.

(** *** Current month *)

Record MonthStats := {
  ms_income : Q;
  ms_expenses : Q;
  ms_savings : Q;
  ms_savingsRate : Q
}.

Definition in_month (cm cy : Z) (date : option Date) : bool :=
  match date with
  | Some d => ((getMonth d =? cm) && (getFullYear d =? cy))%Z
  | None => false
  end.

Definition getCurrentMonthStats (now : Date) (incomes : list Income)
    (expenses_ : list Expense) : MonthStats :=
  let cm := getMonth now in
  let cy := getFullYear now in
  let monthIncome :=
    fold_left (fun s i => s + i_amount i)
      (filter (fun i => in_month cm cy (i_date i)) incomes) 0 in
  let monthExpenses :=
    fold_left (fun s e => s + e_amount e)
      (filter (fun e => in_month cm cy (e_date e)) expenses_) 0 in
  {| ms_income := monthIncome;
     ms_expenses := monthExpenses;
     ms_savings := monthIncome - monthExpenses;
     ms_savingsRate :=
       if Qgtb monthIncome 0
       then ((monthIncome - monthExpenses) / monthIncome) * 100 else 0 |}.

(** *** Category analysis *)

(** [o[k] || 0] on a record of numbers. *)
Definition breakdown_get (k : string) (o : JsMap string Q) : Q :=
  match map_get String.eqb k o with
  | Some v => num_or v 0
  | None => 0
  end.

Definition add_to_category (x : Q) (ml : string) (c : CategorySummary)
  : CategorySummary :=
  {| category := category c;
     total := total c + x;
     percentage := percentage c;
     monthlyBreakdown :=
       map_set String.eqb ml (breakdown_get ml (monthlyBreakdown c) + x)
         (monthlyBreakdown c);
     growth := growth c |}.

Definition group_by_category (expenses_ : list Expense)
  : JsMap string CategorySummary :=
  fold_left
    (fun catMap e =>
       let catMap1 :=
         if negb (map_has String.eqb (e_category e) catMap)
         then map_set String.eqb (e_category e)
                {| category := e_category e; total := 0; percentage := 0;
                   monthlyBreakdown := []; growth := 0 |} catMap
         else catMap in
       map_modify String.eqb (e_category e)
         (add_to_category (e_amount e) (getMonthLabel (e_date e))) catMap1)
    expenses_ [].

Definition calc_percentage (totalAll : Q) (thisMonth lastMonth : Z)
    (c : CategorySummary) : CategorySummary :=
  let thisM := month_name thisMonth in
  let lastM := month_name lastMonth in
  let thisVal := breakdown_get thisM (monthlyBreakdown c) in
  let lastVal := breakdown_get lastM (monthlyBreakdown c) in
  {| category := category c;
     total := total c;
     percentage := if Qgtb totalAll 0 then (total c / totalAll) * 100 else 0;
     monthlyBreakdown := monthlyBreakdown c;
     growth :=
       if Qgtb lastVal 0 then ((thisVal - lastVal) / lastVal) * 100 else 0 |}.

(** The comparator [(a, b) => b.total - a.total] is non-positive exactly
    when [b.total <= a.total]. *)
Definition by_total_desc (a b : CategorySummary) : bool :=
  Qleb (total b) (total a).

Definition getCategorySummaries (now : Date) (expenses_ : list Expense)
  : list CategorySummary :=
  let totalAll := fold_left (fun s e => s + e_amount e) expenses_ 0 in
  let catMap := group_by_category expenses_ in
  let thisMonth := getMonth now in
  let lastMonth := if (thisMonth =? 0)%Z then 11%Z else (thisMonth - 1)%Z in
  let catMap1 :=
    map (fun kv => (fst kv, calc_percentage totalAll thisMonth lastMonth
                              (snd kv)))
        catMap in
  stable_sort by_total_desc (map_values catMap1).

(** *** Yearly summary *)

(** [m.income > 0 || m.expenses > 0] *)
Definition is_active (m : MonthlyAggregate) : bool :=
  Qgtb (income m) 0 || Qgtb (expenses m) 0.

(** The body of [activeMonths.forEach] on the pair (bestMonth, worstMonth).
    Both start as [monthly[0]], which is [undefined] only when [monthly] is
    empty, and then there is no active month to visit. *)
Definition best_worst_step
    (bw : option MonthlyAggregate * option MonthlyAggregate)
    (m : MonthlyAggregate)
  : option MonthlyAggregate * option MonthlyAggregate :=
  let best :=
    match fst bw with
    | Some b => if Qgtb (savingsRate m) (savingsRate b) then Some m
                else Some b
    | None => None
    end in
  let worst :=
    match snd bw with
    | Some w => if Qgtb (expenses m) (expenses w) then Some m else Some w
    | None => None
    end in
  (best, worst).

(** [x?.month || "N/A"] *)
Definition month_or_na (x : option MonthlyAggregate) : string :=
  match x with
  | Some m => str_or (month m) "N/A"
  | None => "N/A"%string
  end.

Definition getYearlySummary (now : Date) (incomes : list Income)
    (expenses_ : list Expense) : YearlySummary :=
  let totalIncome := fold_left (fun s i => s + i_amount i) incomes 0 in
  let totalExpenses := fold_left (fun s e => s + e_amount e) expenses_ 0 in
  let totalSavings := totalIncome - totalExpenses in
  let savingsRate :=
    if Qgtb totalIncome 0 then (totalSavings / totalIncome) * 100 else 0 in
  let categories := getCategorySummaries now expenses_ in
  let highestCat := hd_error categories in
  let monthly := getMonthlyAggregates now incomes expenses_ in
  let activeMonths := filter is_active monthly in
  let bw :=
    fold_left best_worst_step activeMonths
      (hd_error monthly, hd_error monthly) in
  let n := inject_Z (Z.of_nat (length activeMonths)) in
  {| totalIncome := totalIncome;
     totalExpenses := totalExpenses;
     totalSavings := totalSavings;
     ys_savingsRate := savingsRate;
     highestSpendingCategory :=
       match highestCat with
       | Some c => str_or (category c) "N/A"
       | None => "N/A"%string
       end;
     highestSpendingAmount :=
       match highestCat with
       | Some c => num_or (total c) 0
       | None => 0
       end;
     bestMonth := month_or_na (fst bw);
     worstMonth := month_or_na (snd bw);
     averageMonthlyExpense :=
       if (0 <? length activeMonths)%nat then totalExpenses / n else 0;
     averageMonthlyIncome :=
       if (0 <? length activeMonths)%nat then totalIncome / n else 0;
     monthsTracked := length activeMonths |}.

(** *** Financial health score *)

(** An aggregate with every number zero, the default of [nth] where the
    source indexes an array inside its bounds. *)
Definition zero_aggregate : MonthlyAggregate :=
  {| month := ""; monthIndex := 0; year := 0;
     income := 0; expenses := 0; savings := 0; savingsRate := 0 |}.

Definition grade_of (score : Q) : Grade :=
  if Qgeb score 85 then A
  else if Qgeb score 70 then B
  else if Qgeb score 55 then C
  else if Qgeb score 40 then D
  else F.

(** [factors.reduce((s, f) => s + f.score * f.weight, 0)] *)
Definition weighted_sum (fs : list Factor) : Q :=
  fold_left (fun s f => s + score f * weight f) fs 0.

Section WithRuntime.
Context {rt : Runtime}.

Definition getFinancialHealthScore (now : Date) (incomes : list Income)
    (expenses_ : list Expense) : FinancialHealthScore :=
  let yearly := getYearlySummary now incomes expenses_ in
  let categories := getCategorySummaries now expenses_ in
  let monthly := getMonthlyAggregates now incomes expenses_ in
  (* Factor 1: savings rate *)
  let savingsScore :=
    Math_min 100 (Math_max 0 (ys_savingsRate yearly * (333 # 100))) in
  (* Factor 2: expense diversity *)
  let maxCatPct :=
    match hd_error categories with
    | Some c => num_or (percentage c) 0
    | None => 0
    end in
  let diversityScore := Math_max 0 (100 - maxCatPct) in
  (* Factor 3: spending consistency *)
  let activeMonths := filter (fun m => Qgtb (expenses m) 0) monthly in
  let len := inject_Z (Z.of_nat (length activeMonths)) in
  let consistencyScore :=
    if (1 <? length activeMonths)%nat then
      let avg := fold_left (fun s m => s + expenses m) activeMonths 0 / len in
      let variance :=
        fold_left (fun s m => s + Math_pow (expenses m - avg) 2)
          activeMonths 0 / len in
      let cv := if Qgtb avg 0 then Math_sqrt variance / avg else 0 in
      Math_max 0 (Math_min 100 (100 - cv * 100))
    else 80 in
  (* Factor 4: income stability *)
  let incomeMonths := filter (fun m => Qgtb (income m) 0) monthly in
  let incomeStability :=
    if (3 <=? length incomeMonths)%nat then 80
    else inject_Z (Z.of_nat (length incomeMonths)) * 25 in
  (* Factor 5: positive trend *)
  let trendScore :=
    if (2 <=? length activeMonths)%nat then
      let last := nth (length activeMonths - 1) activeMonths zero_aggregate in
      let prev := nth (length activeMonths - 2) activeMonths zero_aggregate in
      if Qgtb (savingsRate last) (savingsRate prev) then 90
      else if Qltb (savingsRate last) (savingsRate prev) then 20
      else 50
    else 50 in
  let factors :=
    [ {| label := "Savings Rate"; score := savingsScore;
         weight := 35 # 100 |};
      {| label := "Expense Diversity"; score := diversityScore;
         weight := 2 # 10 |};
      {| label := "Spending Consistency"; score := consistencyScore;
         weight := 2 # 10 |};
      {| label := "Income Stability"; score := incomeStability;
         weight := 15 # 100 |};
      {| label := "Financial Trend"; score := trendScore;
         weight := 1 # 10 |} ] in
  let score := inject_Z (Math_round (weighted_sum factors)) in
  {| hs_score := score; grade := grade_of score; factors := factors |}.

End WithRuntime.

(** *** Predictions *)

(** [active.map((_, i) => i + 1)] *)
Definition recency_weights (n : nat) : list Q :=
  map (fun i => inject_Z (Z.of_nat i) + 1) (seq 0 n).

(** [active.reduce((s, m, i) => s + value(m) * weights[i], 0)] *)
Definition weighted_total (value : MonthlyAggregate -> Q)
    (active : list MonthlyAggregate) (weights : list Q) : Q :=
  fold_left (fun s mw => s + value (fst mw) * snd mw)
    (combine active weights) 0.

(** [active.slice(-3)] *)
Definition slice_last3 {X : Type} (l : list X) : list X :=
  skipn (length l - 3) l.

(** The trend label of a change in savings rate. *)
Definition classify (savingsTrend : Q) : Trend :=
  if Qgtb savingsTrend 3 then improving
  else if Qltb savingsTrend (-3) then declining
  else stable.

Definition getPredictions (now : Date) (incomes : list Income)
    (expenses_ : list Expense) : Prediction :=
  let monthly := getMonthlyAggregates now incomes expenses_ in
  let active := filter is_active monthly in
  if (length active <? 2)%nat then
    {| nextMonthIncome := 0;
       nextMonthExpense := 0;
       nextMonthSavingsRate := 0;
       threeMonthProjection := [];
       trend := stable |}
  else
    let weights := recency_weights (length active) in
    let totalWeight := fold_left (fun s w => s + w) weights 0 in
    let avgIncome := weighted_total income active weights / totalWeight in
    let avgExpense := weighted_total expenses active weights / totalWeight in
    let last3 := slice_last3 active in
    let n3 := inject_Z (Z.of_nat (length last3)) in
    let first3 := nth 0 last3 zero_aggregate in
    let final3 := nth (length last3 - 1) last3 zero_aggregate in
    let incomeGrowth :=
      if (2 <=? length last3)%nat
      then (income final3 - income first3) / Math_max (income first3) 1 / n3
      else 0 in
    let expenseGrowth :=
      if (2 <=? length last3)%nat
      then (expenses final3 - expenses first3)
           / Math_max (expenses first3) 1 / n3
      else 0 in
    let projection :=
      map (fun i : Z =>
             let d := Date_ym (getFullYear now) (getMonth now + i) in
             let inc :=
               inject_Z (Math_round
                           (avgIncome * (1 + incomeGrowth * inject_Z i))) in
             let exp :=
               inject_Z (Math_round
                           (avgExpense * (1 + expenseGrowth * inject_Z i))) in
             {| pr_month := month_name (getMonth d);
                pr_income := inc;
                pr_expenses := exp;
                pr_savings := inc - exp |})
          [1; 2; 3]%Z in
    let nextIncome :=
      match hd_error projection with
      | Some p => num_or (pr_income p) 0
      | None => 0
      end in
    let nextExpense :=
      match hd_error projection with
      | Some p => num_or (pr_expenses p) 0
      | None => 0
      end in
    let nextSavingsRate :=
      if Qgtb nextIncome 0
      then ((nextIncome - nextExpense) / nextIncome) * 100 else 0 in
    let savingsTrend :=
      if (2 <=? length last3)%nat
      then savingsRate final3 - savingsRate first3 else 0 in
    {| nextMonthIncome := nextIncome;
       nextMonthExpense := nextExpense;
       nextMonthSavingsRate := nextSavingsRate;
       threeMonthProjection := projection;
       trend := classify savingsTrend |}.

(** *** Peak months *)

Record PeakMonthInfo := {
  pk_month : string;
  pk_value : Q;
  percentAboveAvg : Q
}.

Record PeakAnalysis := {
  peakIncome : PeakMonthInfo;
  peakExpense : PeakMonthInfo;
  peakSavings : PeakMonthInfo
}.

(** [l.reduce((a, b) => keep(a, b) ? a : b)] without an initial value; the
    source only calls it on a non-empty array. *)
Definition reduce_keep {X : Type} (keep : X -> X -> bool) (l : list X)
    (dflt : X) : X :=
  match l with
  | [] => dflt
  | a :: rest => fold_left (fun a b => if keep a b then a else b) rest a
  end.

(** One of the three peaks: the month picked by the reduction, its value,
    and how far the value lies above the average. *)
Definition peak_of (value : MonthlyAggregate -> Q)
    (active : list MonthlyAggregate) : PeakMonthInfo :=
  let n := inject_Z (Z.of_nat (length active)) in
  let avg := fold_left (fun s m => s + value m) active 0 / n in
  let peak :=
    reduce_keep (fun a b => Qgtb (value a) (value b)) active zero_aggregate in
  {| pk_month := month peak;
     pk_value := value peak;
     percentAboveAvg :=
       if Qgtb avg 0 then ((value peak - avg) / avg) * 100 else 0 |}.

Definition getPeakAnalysis (now : Date) (incomes : list Income)
    (expenses_ : list Expense) : PeakAnalysis :=
  let monthly := getMonthlyAggregates now incomes expenses_ in
  let active := filter is_active monthly in
  let defaultPeak :=
    {| pk_month := "N/A"; pk_value := 0; percentAboveAvg := 0 |} in
  if (length active =? 0)%nat then
    {| peakIncome := defaultPeak; peakExpense := defaultPeak;
       peakSavings := defaultPeak |}
  else
    {| peakIncome := peak_of income active;
       peakExpense := peak_of expenses active;
       peakSavings := peak_of savings active |}.

(** *** Quarters *)

Record QuarterData := {
  quarter : string;
  q_income : Q;
  q_expenses : Q;
  q_savings : Q;
  q_savingsRate : Q
}.

(** [quarters[qi].field += x]: an index outside the array reads
    [undefined], and updating a field of it throws a [TypeError], here
    [None]. *)
Fixpoint update_at {X : Type} (f : X -> X) (qi : nat) (l : list X)
  : option (list X) :=
  match l, qi with
  | [], _ => None
  | x :: l', O => Some (f x :: l')
  | x :: l', S qi' =>
      match update_at f qi' l' with
      | Some l'' => Some (x :: l'')
      | None => None
      end
  end.

(** [Math.floor(d.getMonth() / 3)] as an index: a negative one reads
    [undefined] like any index past the end. *)
Definition quarter_index (d : Date) : nat :=
  if (getMonth d <? 0)%Z then 4%nat else Z.to_nat (getMonth d / 3).

Definition add_q_income (x : Q) (q : QuarterData) : QuarterData :=
  {| quarter := quarter q; q_income := q_income q + x;
     q_expenses := q_expenses q; q_savings := q_savings q;
     q_savingsRate := q_savingsRate q |}.

Definition add_q_expenses (x : Q) (q : QuarterData) : QuarterData :=
  {| quarter := quarter q; q_income := q_income q;
     q_expenses := q_expenses q + x; q_savings := q_savings q;
     q_savingsRate := q_savingsRate q |}.

Definition calc_quarter (q : QuarterData) : QuarterData :=
  let s := q_income q - q_expenses q in
  {| quarter := quarter q; q_income := q_income q;
     q_expenses := q_expenses q; q_savings := s;
     q_savingsRate :=
       if Qgtb (q_income q) 0 then (s / q_income q) * 100 else 0 |}.

(** One step of a [forEach] over the entries: an entry dated in the year
    [year] is added to its quarter; an entry of another year, or with an
    invalid date, is skipped. *)
Definition quarter_step (year : Z) (add : Q -> QuarterData -> QuarterData)
    (date : option Date) (amount : Q) (quarters : option (list QuarterData))
  : option (list QuarterData) :=
  match quarters with
  | None => None
  | Some qs =>
      match date with
      | Some d =>
          if (getFullYear d =? year)%Z
          then update_at (add amount) (quarter_index d) qs
          else Some qs
      | None => Some qs
      end
  end.

Definition empty_quarter (name : string) : QuarterData :=
  {| quarter := name; q_income := 0; q_expenses := 0; q_savings := 0;
     q_savingsRate := 0 |}.

Definition getQuarterData (now : Date) (incomes : list Income)
    (expenses_ : list Expense) : option (list QuarterData) :=
  let quarters :=
    [empty_quarter "Q1"; empty_quarter "Q2"; empty_quarter "Q3";
     empty_quarter "Q4"] in
  let year := getFullYear now in
  let quarters1 :=
    fold_left
      (fun qs i => quarter_step year add_q_income (i_date i) (i_amount i) qs)
      incomes (Some quarters) in
  let quarters2 :=
    fold_left
      (fun qs e =>
         quarter_step year add_q_expenses (e_date e) (e_amount e) qs)
      expenses_ quarters1 in
  option_map (map calc_quarter) quarters2.

(** *** Stacked category data

    A row of the chart is [{ month, ...cats }]: the name of the month and,
    under each category that was spent on, the amount.  The categories
    are those of [ExpenseCategory], none of which is [month] or a property
    of [Object.prototype]; the row is kept as the name with the record
    [cats]. *)

Record StackedRow := {
  sr_month : string;
  sr_cats : JsMap string Q
}.

Record StackedCategoryData := {
  sc_data : list StackedRow;
  sc_categories : list string
}.

(** [s.add(x)] on a [Set], in insertion order. *)
Definition set_add (x : string) (s : list string) : list string :=
  if existsb (String.eqb x) s then s else s ++ [x].

(** [m[c] = (m[c] || 0) + x] *)
Definition add_to_row (x : Q) (c : string) (m : JsMap string Q)
  : JsMap string Q :=
  map_set String.eqb c (breakdown_get c m + x) m.

Definition init_stacked (now : Date) : JsMap string (JsMap string Q) :=
  fold_left
    (fun months i =>
       let d := Date_ym (getFullYear now) (getMonth now - i) in
       map_set String.eqb (month_name (getMonth d)) [] months)
    last12 [].

Definition stacked_step
    (st : JsMap string (JsMap string Q) * list string) (e : Expense)
  : JsMap string (JsMap string Q) * list string :=
  let '(months, allCategories) := st in
  let ml := getMonthLabel (e_date e) in
  if map_has String.eqb ml months
  then (map_modify String.eqb ml (add_to_row (e_amount e) (e_category e))
          months,
        set_add (e_category e) allCategories)
  else (months, allCategories).

Definition getStackedCategoryData (now : Date) (expenses_ : list Expense)
  : StackedCategoryData :=
  let '(months, allCategories) :=
    fold_left stacked_step expenses_ (init_stacked now, []) in
  {| sc_data :=
       map (fun '(month, cats) => {| sr_month := month; sr_cats := cats |})
         months;
     sc_categories := allCategories |}.

End Analytics.

(** ** Insight engine *)

Module Insights.
Import Analytics.

Local Open Scope string_scope.

Inductive Severity := info | success | warning | danger.

Record AIInsight := {
  type : Severity;
  message : string
}.

(** Pushes in sequence. *)
Local Notation "a ;; b" := (@app _ a b)
  (at level 62, right associativity, only parsing).

(** [insights.push({ type, message })], as the list of what is pushed. *)
Definition push (t : Severity) (m : string) : list AIInsight :=
  [ {| type := t; message := m |} ].

(** [if (c) { ... }] around pushes. *)
Definition when (c : bool) (l : list AIInsight) : list AIInsight :=
  if c then l else [].

(** [l.reduce(f)] without an initial value, on a non-empty array. *)
Definition reduce1 {X : Type} (f : X -> X -> X) (l : list X) (dflt : X) : X :=
  match l with
  | [] => dflt
  | a :: rest => fold_left f rest a
  end.

Definition grade_letter (g : Grade) : string :=
  match g with
  | A => "A" | B => "B" | C => "C" | D => "D" | F => "F"
  end.

(** [categories.find((c) => c.category === name)] *)
Definition find_category (name : string) (cats : list CategorySummary)
  : option CategorySummary :=
  find (fun c => String.eqb (category c) name) cats.

(** [c && c.percentage > limit] *)
Definition over_pct (c : option CategorySummary) (limit : Q) : bool :=
  match c with
  | Some c => Qgtb (percentage c) limit
  | None => false
  end.

Definition pct_of (c : option CategorySummary) : Q :=
  match c with
  | Some c => percentage c
  | None => 0
  end.

Section WithRuntime.
Context {rt : Runtime}.

(** [const fmt = (n) => `₹${Math.abs(Math.round(n)).toLocaleString()}`] *)
Definition fmt (n : Q) : string :=
  "₹" ++ toLocaleString (Math_abs (inject_Z (Math_round n))).

(** [const pct = (n) => `${n.toFixed(1)}%`] *)
Definition pct (n : Q) : string := toFixed n 1 ++ "%".

(** [pct] of a ratio that is [Infinity] when its divisor is zero. *)
Definition pct_inf (x : option Q) : string :=
  match x with
  | Some q => pct q
  | None => "Infinity%"
  end.

(** [x > limit] for such a ratio. *)
Definition gt_inf (x : option Q) (limit : Q) : bool :=
  match x with
  | Some q => Qgtb q limit
  | None => true
  end.

(** [array.length] interpolated in a template. *)
Definition len_text {X : Type} (l : list X) : string :=
  toString (inject_Z (Z.of_nat (length l))).

Definition savings_performance (savingsRate balance : Q)
    (yearly : YearlySummary) : list AIInsight :=
  when (Qltb savingsRate 0)
    (push danger ("⚠️ You're overspending by " ++ fmt (Math_abs balance)
                  ++ "! Your expenses exceed income. Immediate action needed.")
     ;; push danger "Running a negative savings rate means you're depleting reserves. Cut non-essential spending today.")
  ;; when (Qgeb savingsRate 0 && Qltb savingsRate 5)
    (push danger ("Your savings rate is critically low at " ++ pct savingsRate
                  ++ ". You're saving almost nothing.")
     ;; push warning "With less than 5% savings, you have no emergency buffer. Aim for at least 20%.")
  ;; when (Qgeb savingsRate 5 && Qltb savingsRate 10)
    (push warning ("Savings rate of " ++ pct savingsRate
                   ++ " is below recommended. Try reducing discretionary spending."))
  ;; when (Qgeb savingsRate 10 && Qltb savingsRate 20)
    (push warning ("You're saving " ++ pct savingsRate
                   ++ " — good progress, but the 20% target is the sweet spot.")
     ;; push info "At your current rate, consider automating a small portion into a savings account.")
  ;; when (Qgeb savingsRate 20 && Qltb savingsRate 35)
    (push success ("Excellent! " ++ pct savingsRate
                   ++ " savings rate beats the recommended 20%. You're building wealth.")
     ;; push success "Your savings discipline is strong. Consider diversifying into mutual funds or SIPs.")
  ;; when (Qgeb savingsRate 35 && Qltb savingsRate 50)
    (push success ("Outstanding " ++ pct savingsRate
                   ++ " savings rate! You're in the top tier of financial discipline.")
     ;; push info "With 35%+ savings, explore tax-saving instruments like PPF, ELSS, or NPS.")
  ;; when (Qgeb savingsRate 50)
    (push success ("Incredible " ++ pct savingsRate
                   ++ " savings rate! You could achieve FIRE (Financial Independence) at this pace.")
     ;; push info "Consider investing aggressively — index funds, real estate, or starting a side business.")
  ;; when (Qgtb balance 0)
    (push success ("You've accumulated " ++ fmt balance
                   ++ " in net savings. Keep this momentum going!"))
  (* year-to-date savings milestones *)
  ;; when (Qgeb (totalSavings yearly) 100000)
    (push success "🏆 Milestone! You've saved over ₹1 lakh this year. Financial freedom is within reach!")
  ;; when (Qgeb (totalSavings yearly) 50000
           && Qltb (totalSavings yearly) 100000)
    (push success ("You've saved " ++ fmt (totalSavings yearly)
                   ++ " this year. Halfway to the ₹1 lakh milestone!"))
  ;; when (Qgeb (totalSavings yearly) 10000
           && Qltb (totalSavings yearly) 50000)
    (push info (fmt (totalSavings yearly)
                ++ " saved so far this year. Consistency will get you to bigger milestones.")).

Definition overspending_warnings (totalIncome totalExpenses : Q)
    (categories : list CategorySummary) : list AIInsight :=
  flat_map
    (fun cat =>
       when (Qgtb (percentage cat) 50)
         (push danger ("🚨 " ++ category cat ++ " alone accounts for "
                       ++ pct (percentage cat)
                       ++ " of all expenses — that's dangerously high."))
       ;; when (Qgtb (percentage cat) 30 && Qleb (percentage cat) 50)
         (push warning (category cat ++ " spending is " ++ pct (percentage cat)
                        ++ " of total — above the 30% recommended limit."))
       ;; when (Qgtb (percentage cat) 20 && Qleb (percentage cat) 30)
         (push info (category cat ++ " at " ++ pct (percentage cat)
                     ++ " of expenses is manageable but worth monitoring.")))
    categories
  ;; match categories with
     | c0 :: _ =>
         push info ("Your top spending category is " ++ category c0 ++ " at "
                    ++ fmt (total c0) ++ ".")
     | [] => []
     end
  ;; match categories with
     | c0 :: c1 :: _ =>
         push info (category c0 ++ " and " ++ category c1
                    ++ " together make up "
                    ++ pct (percentage c0 + percentage c1) ++ " of spending.")
     | _ => []
     end
  ;; when (Qgtb totalExpenses (totalIncome * (9 # 10)))
    (push danger "You're spending over 90% of your income. One unexpected expense could put you in debt.").

Definition category_spikes (categories : list CategorySummary)
  : list AIInsight :=
  flat_map
    (fun cat =>
       if Qgtb (growth cat) 50 then
         push danger ("📈 " ++ category cat ++ " spending spiked "
                      ++ pct (growth cat)
                      ++ " this month compared to last — investigate!")
       else if Qgtb (growth cat) 20 then
         push warning (category cat ++ " costs rose " ++ pct (growth cat)
                       ++ " month-over-month. Is this a one-time event?")
       else if Qltb (growth cat) (-20) then
         push success ("You reduced " ++ category cat ++ " spending by "
                       ++ pct (Math_abs (growth cat))
                       ++ " — great cost control!")
       else [])
    categories.

Definition month_over_month (active : list MonthlyAggregate)
  : list AIInsight :=
  when (2 <=? length active)%nat
    (let last := nth (length active - 1) active zero_aggregate in
     let prev := nth (length active - 2) active zero_aggregate in
     (if Qgtb (expenses last) (expenses prev) then
        let inc :=
          option_map (fun q => q * 100)
            (js_div_pos (expenses last - expenses prev) (expenses prev)) in
        push warning ("Expenses increased " ++ pct_inf inc ++ " from "
                      ++ month prev ++ " to " ++ month last
                      ++ ". Review recent transactions.")
        ;; when (gt_inf inc 30)
          (push danger ("A " ++ pct_inf inc
                        ++ " expense jump is alarming. Check for unusual or unplanned purchases."))
      else if Qltb (expenses last) (expenses prev) then
        let dec :=
          option_map (fun q => q * 100)
            (js_div_pos (expenses prev - expenses last) (expenses prev)) in
        push success ("Spending dropped " ++ pct_inf dec ++ " from "
                      ++ month prev ++ " to " ++ month last
                      ++ " — excellent discipline!")
      else [])
     ;; (if Qgtb (income last) (income prev) then
           push success ("Income grew from " ++ month prev ++ " to "
                         ++ month last
                         ++ " — capitalize on this by saving the difference.")
         else if Qltb (income last) (income prev) && Qgtb (income last) 0 then
           push warning ("Income decreased from " ++ month prev
                         ++ ". Diversify income sources to reduce risk.")
         else [])
     ;; when (Qgtb (savingsRate last) (savingsRate prev + 5))
       (push success ("Your savings rate improved by "
                      ++ pct (savingsRate last - savingsRate prev)
                      ++ " — strong financial progress."))
     ;; when (Qltb (savingsRate last) (savingsRate prev - 5))
       (push warning ("Savings rate dropped "
                      ++ pct (savingsRate prev - savingsRate last)
                      ++ " — recalibrate your budget."))).

Definition best_worst_month (active : list MonthlyAggregate)
  : list AIInsight :=
  when (3 <=? length active)%nat
    (let best :=
       reduce1 (fun a b => if Qgtb (savingsRate a) (savingsRate b) then a
                           else b) active zero_aggregate in
     let worst :=
       reduce1 (fun a b => if Qgtb (expenses a) (expenses b) then a else b)
         active zero_aggregate in
     let lowestExpense :=
       reduce1 (fun a b => if Qltb (expenses a) (expenses b)
                              && Qgtb (expenses a) 0 then a else b)
         active zero_aggregate in
     push success ("🏆 " ++ month best ++ " was your best month with "
                   ++ pct (savingsRate best) ++ " savings rate.")
     ;; push warning (month worst ++ " had the highest spending at "
                      ++ fmt (expenses worst) ++ ". Learn from that pattern.")
     ;; when (Qgtb (expenses lowestExpense) 0)
       (push success (month lowestExpense ++ " had the lowest expenses at "
                      ++ fmt (expenses lowestExpense)
                      ++ " — can you replicate that?"))
     ;; (let avgExpense :=
           fold_left (fun s m => s + expenses m) active 0
           / inject_Z (Z.of_nat (length active)) in
         let aboveAvg :=
           filter (fun m => Qgtb (expenses m) (avgExpense * (12 # 10)))
             active in
         when (0 <? length aboveAvg)%nat
           (push info (len_text aboveAvg
                       ++ " month(s) exceeded your average spending by 20%+. Look for seasonal patterns.")))).

Definition spending_consistency (active : list MonthlyAggregate)
  : list AIInsight :=
  when (3 <=? length active)%nat
    (let expValues := filter (fun v => Qgtb v 0) (map expenses active) in
     let n := inject_Z (Z.of_nat (length expValues)) in
     let avg := fold_left (fun s v => s + v) expValues 0 / n in
     let variance :=
       fold_left (fun s v => s + Math_pow (v - avg) 2) expValues 0 / n in
     let cv := if Qgtb avg 0 then Math_sqrt variance / avg else 0 in
     if Qltb cv (15 # 100) then
       push success "Your spending is very consistent month-to-month — a sign of strong budgeting."
     else if Qltb cv (3 # 10) then
       push info "Moderate spending variation detected. Consider setting monthly budget targets."
     else
       push warning "High spending variance across months. Volatile expenses make planning difficult."
       ;; push info "Try creating a fixed monthly budget to reduce spending swings.").

Definition risk_alerts (incomes : list Income) (expenses_ : list Expense)
    (balance : Q) (yearly : YearlySummary)
    (categories : list CategorySummary) (active : list MonthlyAggregate)
  : list AIInsight :=
  when (Qgtb (averageMonthlyExpense yearly)
             (averageMonthlyIncome yearly * (95 # 100)))
    (push danger "Your average monthly expenses nearly match income — zero margin for emergencies.")
  ;; when (length categories =? 1)%nat
    (push warning "All expenses in one category — diversify tracking for better insights.")
  ;; when ((length incomes <? 3)%nat && (10 <? length expenses_)%nat)
    (push warning "You've logged many expenses but few income entries. Are you tracking all income sources?")
  ;; when (monthsTracked yearly <? 3)%nat
    (push info "Track at least 3 months of data for meaningful trend analysis and predictions.")
  ;; (let noIncomeMonths :=
        filter (fun m => Qeqb (income m) 0 && Qgtb (expenses m) 0) active in
      when (0 <? length noIncomeMonths)%nat
        (push warning (len_text noIncomeMonths
                       ++ " month(s) show expenses but no income. Ensure all income is recorded.")))
  (* emergency fund check *)
  ;; when (Qgtb balance 0 && Qltb balance (averageMonthlyExpense yearly * 3))
    (push warning ("Your savings cover less than 3 months of expenses. Build a 6-month emergency fund ("
                   ++ fmt (averageMonthlyExpense yearly * 6) ++ ")."))
  ;; when (Qgeb balance (averageMonthlyExpense yearly * 6)
           && Qgtb (averageMonthlyExpense yearly) 0)
    (push success "You have 6+ months of expenses saved — your emergency fund is solid!").

Definition positive_reinforcement (savingsRate : Q)
    (health : FinancialHealthScore) (currentMonth : MonthStats)
    (active : list MonthlyAggregate) : list AIInsight :=
  (if Qgeb (hs_score health) 80 then
     push success ("Your Financial Health Score is "
                   ++ toString (hs_score health) ++ "/100 (Grade "
                   ++ grade_letter (grade health) ++ ") — outstanding!")
   else if Qgeb (hs_score health) 60 then
     push info ("Financial Health Score: " ++ toString (hs_score health)
                ++ "/100 (Grade " ++ grade_letter (grade health)
                ++ "). Room for improvement.")
   else
     push warning ("Financial Health Score: " ++ toString (hs_score health)
                   ++ "/100 (Grade " ++ grade_letter (grade health)
                   ++ "). Focus on savings and expense control."))
  ;; when (Qgtb (ms_savingsRate currentMonth) savingsRate)
    (push success ("This month's savings rate ("
                   ++ pct (ms_savingsRate currentMonth)
                   ++ ") beats your overall average — trending up!"))
  ;; (let saving := filter (fun m => Qgtb (savings m) 0) active in
      if (6 <=? length saving)%nat then
        push success (len_text saving
                      ++ " months of positive savings — remarkable consistency!")
      else if (3 <=? length saving)%nat then
        push success (len_text saving
                      ++ " months of positive savings in a row. Keep the streak alive!")
      else []).

Definition investment_suggestions (savingsRate balance : Q)
  : list AIInsight :=
  when (Qgeb savingsRate 20 && Qgeb balance 10000)
    (push info "With strong savings, consider starting a SIP in index funds for long-term growth."
     ;; push info "PPF and ELSS offer tax benefits under Section 80C — maximize your deductions.")
  ;; when (Qgeb savingsRate 30)
    (push info "At 30%+ savings rate, explore fixed deposits for guaranteed returns on idle cash.")
  ;; when (Qgeb balance 50000)
    (* a plain string in the source: the placeholder is not interpolated *)
    (push info "With ${fmt(balance)} saved, diversify: 50% equity, 30% debt, 20% gold/alternatives.").

Definition prediction_insights (predictions : Prediction) : list AIInsight :=
  when (Qgtb (nextMonthIncome predictions) 0)
    (push info ("📊 Predicted next month: Income "
                ++ fmt (nextMonthIncome predictions) ++ ", Expenses "
                ++ fmt (nextMonthExpense predictions) ++ ".")
     ;; when (Qgtb (nextMonthSavingsRate predictions) 0)
       (push info ("Projected savings rate next month: "
                   ++ pct (nextMonthSavingsRate predictions) ++ ".")))
  ;; match trend predictions with
     | improving =>
         push success "📈 Your financial trend is improving — savings rate is climbing over recent months."
     | declining =>
         push warning "📉 Declining financial trend detected — expenses are growing faster than income."
     | stable => []
     end.

Definition expense_patterns (categories : list CategorySummary)
  : list AIInsight :=
  let foodCat := find_category "Food" categories in
  let transportCat := find_category "Transport" categories in
  let entertainmentCat := find_category "Entertainment" categories in
  let billsCat := find_category "Bills" categories in
  let shoppingCat := find_category "Shopping" categories in
  when (over_pct foodCat 35)
    (push warning ("Food spending at " ++ pct (pct_of foodCat)
                   ++ " is high. Try meal prepping to save 20-30%."))
  ;; when (over_pct transportCat 15)
    (push info ("Transport costs at " ++ pct (pct_of transportCat)
                ++ " — consider carpooling or public transit."))
  ;; when (over_pct entertainmentCat 15)
    (push info ("Entertainment spending at " ++ pct (pct_of entertainmentCat)
                ++ ". Balance enjoyment with savings goals."))
  ;; when (over_pct billsCat 40)
    (push warning ("Bills account for " ++ pct (pct_of billsCat)
                   ++ " — review subscriptions and negotiate rates."))
  ;; when (over_pct shoppingCat 20)
    (push warning ("Shopping at " ++ pct (pct_of shoppingCat)
                   ++ " of expenses. Apply the 24-hour rule before purchases.")).

Definition anomaly_detection (yearly : YearlySummary)
    (categories : list CategorySummary) (active : list MonthlyAggregate)
  : list AIInsight :=
  when (3 <=? length active)%nat
    (let avgExp :=
       fold_left (fun s m => s + expenses m) active 0
       / inject_Z (Z.of_nat (length active)) in
     let last := nth (length active - 1) active zero_aggregate in
     when (Qgtb (expenses last) (avgExp * (15 # 10)))
       (push danger ("⚠️ Anomaly: " ++ month last
                     ++ " expenses are 50%+ above your average — investigate large transactions."))
     ;; when (Qgtb (income last) 0
              && Qgtb (income last) (averageMonthlyIncome yearly * (15 # 10)))
       (push success ("Income anomaly: " ++ month last
                      ++ " income was 50%+ above average — save the windfall!"))
     ;; when (4 <? length categories)%nat
       (push info ("You're spending across " ++ len_text categories
                   ++ " categories. Good tracking — detailed data = better insights."))).

Definition budget_breach (totalIncome : Q) (thisMonthName : string)
    (yearly : YearlySummary) (currentMonth : MonthStats)
    (categories : list CategorySummary) : list AIInsight :=
  (let monthlyBudget50 :=
     num_or (averageMonthlyIncome yearly) (ms_income currentMonth)
     * (1 # 2) in
   when (Qgtb (ms_expenses currentMonth) monthlyBudget50
         && Qgtb monthlyBudget50 0)
     (push warning ("This month's expenses ("
                    ++ fmt (ms_expenses currentMonth)
                    ++ ") exceed 50% of income. You're past the needs threshold.")))
  ;; when (Qgtb (ms_expenses currentMonth) (ms_income currentMonth)
           && Qgtb (ms_income currentMonth) 0)
    (push danger ("🔴 Budget breach! " ++ thisMonthName ++ " expenses ("
                  ++ fmt (ms_expenses currentMonth) ++ ") exceed income ("
                  ++ fmt (ms_income currentMonth) ++ ")."))
  (* 50/30/20 rule check *)
  ;; when (Qgtb totalIncome 0)
    (let needsCats :=
       filter (fun c => existsb (String.eqb (category c))
                          ["Food"; "Bills"; "Transport"])
         categories in
     let needsTotal := fold_left (fun s c => s + total c) needsCats 0 in
     let needsPct := (needsTotal / totalIncome) * 100 in
     if Qgtb needsPct 50 then
       push warning ("Needs (Food, Bills, Transport) consume " ++ pct needsPct
                     ++ " of income — the 50/30/20 rule suggests max 50%.")
     else
       push success ("Essential spending at " ++ pct needsPct
                     ++ " of income — within the 50% guideline. Well managed!")).

Definition category_growth_trends (categories : list CategorySummary)
  : list AIInsight :=
  let growingCats := filter (fun c => Qgtb (growth c) 10) categories in
  let shrinkingCats := filter (fun c => Qltb (growth c) (-10)) categories in
  when (0 <? length growingCats)%nat
    (push warning ("Growing expenses: "
                   ++ String.concat ", " (map category growingCats)
                   ++ " — monitor these categories."))
  ;; when (0 <? length shrinkingCats)%nat
    (push success ("Declining expenses: "
                   ++ String.concat ", " (map category shrinkingCats)
                   ++ " — great cost optimization!")).

Definition general_tips : list AIInsight :=
  push info "💡 Tip: Track every expense, no matter how small. ₹50 daily = ₹18,000 yearly."
  ;; push info "💡 Tip: Review your subscriptions quarterly — cancel what you don't actively use."
  ;; push info "💡 Tip: Set up automatic transfers to savings on payday to pay yourself first.".

Definition generateInsights (now : Date) (incomes : list Income)
    (expenses_ : list Expense) : list AIInsight :=
  let totalIncome := fold_left (fun s i => s + i_amount i) incomes 0 in
  let totalExpenses := fold_left (fun s e => s + e_amount e) expenses_ 0 in
  if Qeqb totalIncome 0 && Qeqb totalExpenses 0 then
    push info "Welcome! Start by adding your income and expenses to unlock 100+ personalized financial insights."
  else
    let balance := totalIncome - totalExpenses in
    let savingsRate :=
      if Qgtb totalIncome 0 then (balance / totalIncome) * 100 else 0 in
    let yearly := getYearlySummary now incomes expenses_ in
    let monthly := getMonthlyAggregates now incomes expenses_ in
    let categories := getCategorySummaries now expenses_ in
    let health := getFinancialHealthScore now incomes expenses_ in
    let currentMonth := getCurrentMonthStats now incomes expenses_ in
    let predictions := getPredictions now incomes expenses_ in
    let active := filter is_active monthly in
    let thisMonthName := month_name (getMonth now) in
    savings_performance savingsRate balance yearly
    ;; overspending_warnings totalIncome totalExpenses categories
    ;; category_spikes categories
    ;; month_over_month active
    ;; best_worst_month active
    ;; spending_consistency active
    ;; risk_alerts incomes expenses_ balance yearly categories active
    ;; positive_reinforcement savingsRate health currentMonth active
    ;; investment_suggestions savingsRate balance
    ;; prediction_insights predictions
    ;; expense_patterns categories
    ;; anomaly_detection yearly categories active
    ;; budget_breach totalIncome thisMonthName yearly currentMonth categories
    ;; category_growth_trends categories
    ;; general_tips.

End WithRuntime.

End Insights.

(** ** Purchase planner *)

Module Planner.

Inductive PurchaseMode := emi | savings | save_extra.

Record FinancialProfile := {
  monthlyIncome : Q;
  monthlyExpenses : Q;
  monthlyRoutineBills : Q;
  existingSavings : Q;
  extraSavingPerMonth : Q
}.

Record PurchaseDetails := {
  itemName : string;
  actualPrice : Q;
  mode : PurchaseMode;
  downPayment : option Q;
  emiTenureMonths : option Q;
  interestRate : option Q;
  startDate : option string;
  monthlySavingForPurchase : option Q
}.

Record EMIAnalysis := {
  emiAmount : Q;
  totalAmountWithInterest : Q;
  totalInterestPaid : Q;
  emiBurdenPercent : Q;
  newSavingsRate : Q;
  isAffordable : bool;
  impactOnYearlySavings : Q;
  disposableIncome : Q;
  emiToDisposableRatio : Q
}.

Record TimelineEntry := {
  tl_month : Z;
  accumulated : Q;
  remaining : Q
}.

Record SavingsAnalysis := {
  monthsRequired : Z;
  projectedPurchaseDate : string;
  yearsRequired : Q;
  isFeasibleWithinYear : bool;
  savingsGrowthTimeline : list TimelineEntry;
  delayBenefitAmount : Q
}.

(** [const fmt = (n: number) => Math.round(n)] *)
Definition fmt (n : Q) : Q := inject_Z (Math_round n).

(** The iterations [i = 0, 1, ..., bound] of
    [for (let i = 0; i <= bound; i++)]: none when [bound] is negative. *)
Definition loop_upto (bound : Z) : list Z :=
  map Z.of_nat (seq 0 (Z.to_nat (bound + 1))).

Section WithRuntime.
Context {rt : Runtime}.

Definition calculateEMI (principal annualRate tenureMonths : Q) : Q :=
  if Qeqb annualRate 0 then principal / tenureMonths
  else
    let r := annualRate / 12 / 100 in
    (principal * r * Math_pow (1 + r) tenureMonths)
    / (Math_pow (1 + r) tenureMonths - 1).

Definition analyzeEMI (profile : FinancialProfile) (details : PurchaseDetails)
  : EMIAnalysis :=
  let principal := actualPrice details - opt_or (downPayment details) 0 in
  let tenure := opt_or (emiTenureMonths details) 12 in
  let rate := opt_or (interestRate details) 0 in
  let emi := calculateEMI principal rate tenure in
  let totalWithInterest := emi * tenure + opt_or (downPayment details) 0 in
  let totalInterest := totalWithInterest - actualPrice details in
  let disposable :=
    monthlyIncome profile - monthlyExpenses profile
    - monthlyRoutineBills profile in
  let emiBurden :=
    if Qgtb disposable 0 then (emi / disposable) * 100 else 100 in
  let newMonthlySavings := disposable - emi in
  let newSavingsRate :=
    if Qgtb (monthlyIncome profile) 0
    then (newMonthlySavings / monthlyIncome profile) * 100 else 0 in
  let currentSavings := disposable in
  let yearlyImpact := (currentSavings - newMonthlySavings) * 12 in
  {| emiAmount := fmt emi;
     totalAmountWithInterest := fmt totalWithInterest;
     totalInterestPaid := fmt totalInterest;
     emiBurdenPercent := inject_Z (Math_round (emiBurden * 10)) / 10;
     newSavingsRate := inject_Z (Math_round (newSavingsRate * 10)) / 10;
     isAffordable := Qltb emiBurden 40;
     impactOnYearlySavings := fmt yearlyImpact;
     disposableIncome := fmt disposable;
     emiToDisposableRatio :=
       inject_Z (Math_round ((emi / Math_max disposable 1) * 100)) / 100 |}.

Definition analyzeSavings (profile : FinancialProfile)
    (details : PurchaseDetails) : SavingsAnalysis :=
  let monthlySaving :=
    opt_or (monthlySavingForPurchase details)
           (num_or (extraSavingPerMonth profile) 1) in
  let target := actualPrice details in
  let existing := existingSavings profile in
  let remaining0 := Math_max 0 (target - existing) in
  let monthsReq :=
    if Qgtb remaining0 0 then Math_ceil (remaining0 / monthlySaving)
    else 0%Z in
  let timeline :=
    map (fun i : Z =>
           let acc := existing + monthlySaving * inject_Z i in
           {| tl_month := i;
              accumulated := Math_min acc target;
              remaining := Math_max 0 (target - acc) |})
        (loop_upto (Z.min monthsReq 60)) in
  let hypotheticalInterest :=
    target * (12 # 100) * (inject_Z monthsReq / 12) in
  {| monthsRequired := monthsReq;
     projectedPurchaseDate := projectISODate (startDate details) monthsReq;
     yearsRequired :=
       inject_Z (Math_round ((inject_Z monthsReq / 12) * 10)) / 10;
     isFeasibleWithinYear := (monthsReq <=? 12)%Z;
     savingsGrowthTimeline := timeline;
     delayBenefitAmount := fmt hypotheticalInterest |}.

End WithRuntime.

(** *** Comparison *)

Record ComparisonData := {
  totalCostEMI : Q;
  totalCostSavings : Q;
  timeDifferenceMonths : Q;
  monthlyBurdenEMI : Q;
  monthlyBurdenSavings : Q;
  interestSaved : Q;
  breakEvenMonth : Z
}.

(** The variables the break-even loop updates. *)
Record BreakEvenState := {
  breakEven : Z;
  cumulEMI : Q;
  cumulSave : Q
}.

(** The body of the loop, for the month [m]. *)
Definition break_even_step (emiAmount_ monthlySaving : Q)
    (st : BreakEvenState) (m : Z) : BreakEvenState :=
  let cumulEMI1 := cumulEMI st + emiAmount_ in
  let cumulSave1 := cumulSave st + monthlySaving in
  {| breakEven :=
       if Qgeb cumulSave1 cumulEMI1 && (breakEven st =? 0)%Z then m
       else breakEven st;
     cumulEMI := cumulEMI1;
     cumulSave := cumulSave1 |}.

(** The values of [m] in [for (let m = 1; m <= bound; m++)]. *)
Definition loop_from_1 (bound : Q) : list Z :=
  map Z.of_nat (seq 1 (Z.to_nat (Qfloor bound))).

Definition generateComparison (emi : EMIAnalysis) (savings_ : SavingsAnalysis)
    (details : PurchaseDetails) : ComparisonData :=
  let emiTenure := opt_or (emiTenureMonths details) 12 in
  let savingsMonths := monthsRequired savings_ in
  let monthlySaving := opt_or (monthlySavingForPurchase details) 0 in
  let final :=
    fold_left (break_even_step (emiAmount emi) monthlySaving)
      (loop_from_1
         (Math_max (Math_max emiTenure (inject_Z savingsMonths)) 60))
      {| breakEven := 0; cumulEMI := 0; cumulSave := 0 |} in
  {| totalCostEMI := totalAmountWithInterest emi;
     totalCostSavings := actualPrice details;
     timeDifferenceMonths := Math_abs (inject_Z savingsMonths - emiTenure);
     monthlyBurdenEMI := emiAmount emi;
     monthlyBurdenSavings := fmt monthlySaving;
     interestSaved := totalInterestPaid emi;
     breakEvenMonth :=
       if (breakEven final =? 0)%Z then savingsMonths else breakEven final |}.

(** *** Purchase score *)

Inductive FeasibilityLevel := safe | moderate | risky.

(** The factors have the shape of those of the health score. *)
Record PurchaseScore := {
  ps_score : Q;
  feasibility : FeasibilityLevel;
  ps_factors : list Analytics.Factor
}.

Definition feasibility_of (score : Q) : FeasibilityLevel :=
  if Qgeb score 65 then safe
  else if Qgeb score 40 then moderate
  else risky.

Definition calculatePurchaseScore (profile : FinancialProfile)
    (emiAnalysis : option EMIAnalysis)
    (savingsAnalysis : option SavingsAnalysis) : PurchaseScore :=
  let disposable :=
    monthlyIncome profile - monthlyExpenses profile
    - monthlyRoutineBills profile in
  (* Factor 1: affordability *)
  let affordScore :=
    match emiAnalysis, savingsAnalysis with
    | Some e, _ =>
        if Qltb (emiBurdenPercent e) 20 then 95
        else if Qltb (emiBurdenPercent e) 30 then 75
        else if Qltb (emiBurdenPercent e) 40 then 55
        else if Qltb (emiBurdenPercent e) 60 then 30
        else 10
    | None, Some s =>
        if (monthsRequired s <=? 3)%Z then 95
        else if (monthsRequired s <=? 6)%Z then 80
        else if (monthsRequired s <=? 12)%Z then 60
        else if (monthsRequired s <=? 24)%Z then 35
        else 15
    | None, None => 50
    end in
  (* Factor 2: savings impact *)
  let currentSavingsRate :=
    if Qgtb (monthlyIncome profile) 0
    then (disposable / monthlyIncome profile) * 100 else 0 in
  let newRate :=
    match emiAnalysis with
    | Some e => newSavingsRate e
    | None => currentSavingsRate
    end in
  let savingsImpact :=
    if Qgeb newRate 20 then 90
    else if Qgeb newRate 10 then 65
    else if Qgeb newRate 0 then 35
    else 10 in
  (* Factor 3: financial cushion *)
  let cushionMonths :=
    if Qgtb disposable 0 then existingSavings profile / disposable else 0 in
  let cushionScore :=
    if Qgeb cushionMonths 6 then 95
    else if Qgeb cushionMonths 3 then 70
    else if Qgeb cushionMonths 1 then 40
    else 15 in
  (* Factor 4: time efficiency *)
  let timeScore :=
    match savingsAnalysis with
    | Some s =>
        if (monthsRequired s <=? 6)%Z then 90
        else if (monthsRequired s <=? 12)%Z then 70
        else if (monthsRequired s <=? 24)%Z then 45
        else 20
    | None => 60
    end in
  (* Factor 5: debt risk *)
  let debtRisk :=
    match emiAnalysis with
    | Some e =>
        if isAffordable e then 85
        else if Qltb (emiBurdenPercent e) 60 then 40
        else 10
    | None => 90
    end in
  let factors :=
    [ {| Analytics.label := "Affordability";
         Analytics.score := affordScore; Analytics.weight := 3 # 10 |};
      {| Analytics.label := "Savings Impact";
         Analytics.score := savingsImpact; Analytics.weight := 25 # 100 |};
      {| Analytics.label := "Financial Cushion";
         Analytics.score := cushionScore; Analytics.weight := 2 # 10 |};
      {| Analytics.label := "Time Efficiency";
         Analytics.score := timeScore; Analytics.weight := 15 # 100 |};
      {| Analytics.label := "Debt Risk";
         Analytics.score := debtRisk; Analytics.weight := 1 # 10 |} ] in
  let score := inject_Z (Math_round (Analytics.weighted_sum factors)) in
  {| ps_score := score; feasibility := feasibility_of score;
     ps_factors := factors |}.

(** *** Simulation history

    The history of a user is the JSON text that [localStorage] holds under
    the key of that user; a text is represented by the array it parses
    to, and an absent key by no entry. *)

Definition HISTORY_KEY : string := "cfo_planner_history".

Definition history_key (userId : string) : string :=
  (HISTORY_KEY ++ "_" ++ userId)%string.

(** [localStorage.removeItem(key)] *)
Fixpoint storage_remove {V : Type} (key : string) (st : JsMap string V)
  : JsMap string V :=
  match st with
  | [] => []
  | (k, v) :: st' =>
      if String.eqb key k then storage_remove key st'
      else (k, v) :: storage_remove key st'
  end.

(** [JSON.parse(localStorage.getItem(key) || "[]")] *)
Definition getSimulationHistory {R : Type} (st : JsMap string (list R))
    (userId : string) : list R :=
  match map_get String.eqb (history_key userId) st with
  | Some history => history
  | None => []
  end.

(** [history.unshift(result); if (history.length > 20) history.pop()] and
    the write back. *)
Definition saveSimulation {R : Type} (st : JsMap string (list R))
    (userId : string) (result : R) : JsMap string (list R) :=
  let history := getSimulationHistory st userId in
  let history1 := result :: history in
  let history2 :=
    if (20 <? length history1)%nat then removelast history1 else history1 in
  map_set String.eqb (history_key userId) history2 st.

Definition clearSimulationHistory {R : Type} (st : JsMap string (list R))
    (userId : string) : JsMap string (list R) :=
  storage_remove (history_key userId) st.

End Planner.

(** ** Purchase planner page: the previews shown while the form is filled *)

Module PlannerPage.
Import Planner.

Record EmiPreview := {
  emi : Q;
  ep_total : Q
}.

Record SavingsPreview := {
  months : Z;
  years : Q
}.

Section WithRuntime.
Context {rt : Runtime}.

(** [null] is [None]; [!purchase.actualPrice] holds for a price of zero. *)
Definition emiPreview (purchase : PurchaseDetails) : option EmiPreview :=
  match mode purchase with
  | Planner.emi =>
      if Qeqb (actualPrice purchase) 0 then None
      else
        let principal :=
          actualPrice purchase - opt_or (downPayment purchase) 0 in
        if Qleb principal 0 then None
        else
          let r := opt_or (interestRate purchase) 0 / 12 / 100 in
          let n := opt_or (emiTenureMonths purchase) 12 in
          let emi :=
            if Qeqb r 0 then principal / n
            else (principal * r * Math_pow (1 + r) n)
                 / (Math_pow (1 + r) n - 1) in
          Some {| emi := inject_Z (Math_round emi);
                  ep_total :=
                    inject_Z (Math_round
                                (emi * n + opt_or (downPayment purchase) 0))
               |}
  | _ => None
  end.

End WithRuntime.

Definition savingsPreview (profile : FinancialProfile)
    (purchase : PurchaseDetails) : option SavingsPreview :=
  match mode purchase with
  | Planner.emi => None
  | _ =>
      if Qeqb (actualPrice purchase) 0 then None
      else
        let saving :=
          opt_or (monthlySavingForPurchase purchase)
                 (num_or (extraSavingPerMonth profile) 1) in
        let remaining :=
          Math_max 0 (actualPrice purchase - existingSavings profile) in
        let months := Math_ceil (remaining / saving) in
        Some {| months := months;
                years :=
                  inject_Z (Math_round ((inject_Z months / 12) * 10)) / 10 |}
  end.

End PlannerPage.

(** ** The affordability test in binary64

    The zero-interest path of [analyzeEMI] up to its [isAffordable] flag,
    on IEEE 754 double-precision numbers, to run the scenario of the
    specification with the rounding of the JavaScript runtime. *)

Module Binary64.

Definition isAffordable (monthlyIncome monthlyExpenses monthlyRoutineBills
    actualPrice downPayment tenure : float) : bool :=
  let principal := PrimFloat.sub actualPrice downPayment in
  let emi := PrimFloat.div principal tenure in
  let disposable :=
    PrimFloat.sub (PrimFloat.sub monthlyIncome monthlyExpenses)
      monthlyRoutineBills in
  let emiBurden :=
    if PrimFloat.ltb 0%float disposable
    then PrimFloat.mul (PrimFloat.div emi disposable) 100%float
    else 100%float in
  PrimFloat.ltb emiBurden 40%float.

End Binary64.

(** ** The trend rule in the words of the specification *)

Module Spec.
Import Analytics.

(** "Compare savings rate at the most recent active month vs. the active
    month 3 positions back (or the oldest available if fewer than 3
    apart)": the subtraction on [nat] stops at the oldest month. *)
Definition trend_three_back (active : list MonthlyAggregate) : Trend :=
  let n := length active in
  let recent := nth (n - 1) active zero_aggregate in
  let reference := nth (n - 1 - 3) active zero_aggregate in
  classify (savingsRate recent - savingsRate reference).

End Spec.

(** ** A runtime and inputs to run the model on *)

Module Sample.

Local Open Scope string_scope.

(** The decimal text of an integer. *)
Definition Z_text (z : Z) : string := NilZero.string_of_int (Z.to_int z).

(** [n] decimal digits of [z], zero-padded on the left. *)
Fixpoint digits (n : nat) (z : Z) : string :=
  match n with
  | O => ""
  | S n' => digits n' (z / 10) ++ Z_text (z mod 10)
  end.

Definition fixed_text (q : Q) (d : nat) : string :=
  let scale := (10 ^ Z.of_nat d)%Z in
  let scaled := Math_round (q * inject_Z scale) in
  let a := Z.abs scaled in
  (if (scaled <? 0)%Z then "-" else "")
  ++ Z_text (a / scale)
  ++ match d with
     | O => ""
     | _ => "." ++ digits d (a mod scale)
     end.

(** Exact on whole numbers and on integral exponents; the square root is
    rounded down to six decimals; numbers print without digit grouping and
    the projected date is left as the start date. *)
Definition runtime : Runtime := {|
  Math_sqrt := fun x =>
    inject_Z (Z.sqrt (Qfloor (x * 1000000000000))) / 1000000;
  Math_pow := fun x y => Qpower x (Qfloor y);
  toLocaleString := fun x => fixed_text x 0;
  toFixed := fixed_text;
  toString := fun x => fixed_text x 0;
  projectISODate := fun start _ =>
    match start with
    | Some s => s
    | None => ""
    end
|}.

(** The scenario of the specification: income 60000, expenses 30000, bills
    5000, no savings; a 120000 purchase over 12 months at no interest. *)
Definition profile : Planner.FinancialProfile :=
  {| Planner.monthlyIncome := 60000;
     Planner.monthlyExpenses := 30000;
     Planner.monthlyRoutineBills := 5000;
     Planner.existingSavings := 0;
     Planner.extraSavingPerMonth := 0 |}.

Definition purchase : Planner.PurchaseDetails :=
  {| Planner.itemName := "Laptop";
     Planner.actualPrice := 120000;
     Planner.mode := Planner.emi;
     Planner.downPayment := Some 0;
     Planner.emiTenureMonths := Some 12;
     Planner.interestRate := Some 0;
     Planner.startDate := None;
     Planner.monthlySavingForPurchase := None |}.

(** A purchase of 100 with a monthly saving entered as -10. *)
Definition withdrawing : Planner.PurchaseDetails :=
  {| Planner.itemName := "Chair";
     Planner.actualPrice := 100;
     Planner.mode := Planner.savings;
     Planner.downPayment := None;
     Planner.emiTenureMonths := None;
     Planner.interestRate := None;
     Planner.startDate := None;
     Planner.monthlySavingForPurchase := Some (-10) |}.

(** A purchase of 1000 saved for at 300 a month. *)
Definition saving : Planner.PurchaseDetails :=
  {| Planner.itemName := "Desk";
     Planner.actualPrice := 1000;
     Planner.mode := Planner.savings;
     Planner.downPayment := None;
     Planner.emiTenureMonths := None;
     Planner.interestRate := None;
     Planner.startDate := None;
     Planner.monthlySavingForPurchase := Some 300 |}.

(** The wall clock: 15 June 2024, half past nine. *)
Definition now : Date :=
  {| getFullYear := 2024; getMonth := 5; getDate := 15;
     msOfDay := 34200000 |}.

(** The same month, two weeks and some hours later. *)
Definition later : Date :=
  {| getFullYear := 2024; getMonth := 5; getDate := 29;
     msOfDay := 72000000 |}.

(** The first day of a month of 2024 ([m] counts from zero). *)
Definition day1 (m : Z) : option Date :=
  Some {| getFullYear := 2024; getMonth := m; getDate := 1; msOfDay := 0 |}.

Definition salary (m : Z) (amount : Q) : Income :=
  {| i_id := "i" ++ Z_text m; i_userId := "u1"; i_amount := amount;
     i_source := "Salary"; i_date := day1 m |}.

Definition spend (m : Z) (cat : string) (amount : Q) : Expense :=
  {| e_id := "e" ++ Z_text m; e_userId := "u1"; e_amount := amount;
     e_category := cat; e_description := ""; e_date := day1 m |}.

(** Four months of an income of 100, March to June; all of it is spent in
    March and half of it in each month after. *)
Definition incomes : list Income :=
  [salary 2 100; salary 3 100; salary 4 100; salary 5 100].

Definition expenses : list Expense :=
  [spend 2 "Food" 60; spend 2 "Bills" 40; spend 3 "Food" 50;
   spend 4 "Bills" 50; spend 5 "Shopping" 50].

(** Two months, May and June, of an income of 100 and expenses of 40. *)
Definition flat_incomes : list Income := [salary 4 100; salary 5 100].

Definition flat_expenses : list Expense :=
  [spend 4 "Food" 40; spend 5 "Food" 40].

(** A profile whose savings cover the purchase of 1000. *)
Definition saver : Planner.FinancialProfile :=
  {| Planner.monthlyIncome := 60000;
     Planner.monthlyExpenses := 30000;
     Planner.monthlyRoutineBills := 5000;
     Planner.existingSavings := 5000;
     Planner.extraSavingPerMonth := 0 |}.

End Sample.

(** ** Relations used to state what a map accumulates *)

(** The entry [kv'] has the key of [kv], and its number [g] is that of
    [kv] raised by what [added] gives for the key. *)
Definition raised {K V : Type} (g : V -> Q) (added : K -> Q)
    (kv kv' : K * V) : Prop :=
  fst kv' = fst kv /\ g (snd kv') == g (snd kv) + added (fst kv).

(** The map [m] groups the expenses [es] by category: under each category
    of [es], and under no other key, it holds a summary of that category
    whose total is the sum of the amounts of its expenses. *)
Definition grouped (m : JsMap string Analytics.CategorySummary)
    (es : list Expense) : Prop :=
  NoDup (map fst m)
  /\ forall k,
       match map_get String.eqb k m with
       | Some c =>
           Analytics.category c = k
           /\ Analytics.total c
              == fold_right Qplus 0
                   (map e_amount
                      (filter (fun e => String.eqb (e_category e) k) es))
           /\ In k (map e_category es)
       | None => ~ In k (map e_category es)
       end.

(** A date as the runtime yields it: invalid, or with a month from 0 to
    11. *)
Definition valid_date (date : option Date) : Prop :=
  match date with
  | Some d => (0 <= getMonth d < 12)%Z
  | None => True
  end.

(** The date lies in the quarter numbered [j] (from 0) of the year. *)
Definition in_quarter (year : Z) (j : nat) (date : option Date) : bool :=
  match date with
  | Some d =>
      ((getFullYear d =? year)%Z && (Z.to_nat (getMonth d / 3) =? j)%nat)%bool
  | None => false
  end.

(** * Properties *)

(** ** Comparisons of numbers *)

Lemma Qltb_lt x y : Qltb x y = true <-> x < y.
Proof.
  unfold Qltb. rewrite negb_true_iff, <- not_true_iff_false, Qle_bool_iff.
  split; [apply Qnot_le_lt | apply Qlt_not_le].
Qed.

Lemma Qltb_ge x y : Qltb x y = false <-> y <= x.
Proof.
  unfold Qltb. rewrite negb_false_iff. apply Qle_bool_iff.
Qed.

Lemma Qgtb_gt x y : Qgtb x y = true <-> y < x.
Proof. apply Qltb_lt. Qed.

Lemma Qgtb_le x y : Qgtb x y = false <-> x <= y.
Proof. apply Qltb_ge. Qed.

Lemma Qleb_le x y : Qleb x y = true <-> x <= y.
Proof. apply Qle_bool_iff. Qed.

Lemma Qleb_gt x y : Qleb x y = false <-> y < x.
Proof.
  unfold Qleb. rewrite <- not_true_iff_false, Qle_bool_iff.
  split; [apply Qnot_le_lt | apply Qlt_not_le].
Qed.

Lemma Qgeb_ge x y : Qgeb x y = true <-> y <= x.
Proof. apply Qle_bool_iff. Qed.

Lemma Qgeb_lt x y : Qgeb x y = false <-> x < y.
Proof. apply Qleb_gt. Qed.

Lemma Qeqb_eq x y : Qeqb x y = true <-> x == y.
Proof. apply Qeq_bool_iff. Qed.

Lemma Qeqb_neq x y : Qeqb x y = false <-> ~ x == y.
Proof.
  unfold Qeqb. rewrite <- not_true_iff_false, Qeq_bool_iff. tauto.
Qed.

(** Case analysis on a comparison, leaving the order fact in the context. *)
Ltac case_cmp :=
  match goal with
  | |- context [Qgtb ?x ?y] =>
      let E := fresh "E" in
      destruct (Qgtb x y) eqn:E;
      [apply Qgtb_gt in E | apply Qgtb_le in E]
  | |- context [Qltb ?x ?y] =>
      let E := fresh "E" in
      destruct (Qltb x y) eqn:E;
      [apply Qltb_lt in E | apply Qltb_ge in E]
  | |- context [Qgeb ?x ?y] =>
      let E := fresh "E" in
      destruct (Qgeb x y) eqn:E;
      [apply Qgeb_ge in E | apply Qgeb_lt in E]
  | |- context [Qleb ?x ?y] =>
      let E := fresh "E" in
      destruct (Qleb x y) eqn:E;
      [apply Qleb_le in E | apply Qleb_gt in E]
  | |- context [Qeqb ?x ?y] =>
      let E := fresh "E" in
      destruct (Qeqb x y) eqn:E;
      [apply Qeqb_eq in E | apply Qeqb_neq in E]
  end.

Lemma Math_min_spec x y :
  Math_min x y <= x /\ Math_min x y <= y
  /\ (Math_min x y == x \/ Math_min x y == y).
Proof.
  unfold Math_min. repeat split;
    [apply Q.le_min_l | apply Q.le_min_r |].
  destruct (Q.min_spec x y) as [[_ E] | [_ E]]; rewrite E; auto with qarith.
Qed.

Lemma Math_max_spec x y :
  x <= Math_max x y /\ y <= Math_max x y
  /\ (Math_max x y == x \/ Math_max x y == y).
Proof.
  unfold Math_max. repeat split;
    [apply Q.le_max_l | apply Q.le_max_r |].
  destruct (Q.max_spec x y) as [[_ E] | [_ E]]; rewrite E; auto with qarith.
Qed.

(** Replaces every [Math_min] and [Math_max] by a variable with its
    defining inequalities, and splits the cases of which argument it is. *)
Ltac name_minmax :=
  repeat match goal with
  | |- context [Math_min ?x ?y] =>
      let m := fresh "m" in
      let H1 := fresh in let H2 := fresh in let H3 := fresh in
      destruct (Math_min_spec x y) as (H1 & H2 & H3);
      set (m := Math_min x y) in *; clearbody m
  | |- context [Math_max ?x ?y] =>
      let m := fresh "m" in
      let H1 := fresh in let H2 := fresh in let H3 := fresh in
      destruct (Math_max_spec x y) as (H1 & H2 & H3);
      set (m := Math_max x y) in *; clearbody m
  | _ : context [Math_min ?x ?y] |- _ =>
      let m := fresh "m" in
      let H1 := fresh in let H2 := fresh in let H3 := fresh in
      destruct (Math_min_spec x y) as (H1 & H2 & H3);
      set (m := Math_min x y) in *; clearbody m
  | _ : context [Math_max ?x ?y] |- _ =>
      let m := fresh "m" in
      let H1 := fresh in let H2 := fresh in let H3 := fresh in
      destruct (Math_max_spec x y) as (H1 & H2 & H3);
      set (m := Math_max x y) in *; clearbody m
  end.

Ltac minmax :=
  name_minmax;
  repeat match goal with
         | D : _ \/ _ |- _ => destruct D
         end.

Lemma Math_round_between (lo hi : Z) (x : Q) :
  inject_Z lo <= x -> x <= inject_Z hi ->
  inject_Z lo <= inject_Z (Math_round x)
  /\ inject_Z (Math_round x) <= inject_Z hi.
Proof.
  intros Hlo Hhi. unfold Math_round. rewrite <- !Zle_Qle. split.
  - rewrite <- (Qfloor_Z lo). apply Qfloor_resp_le. lra.
  - apply Z.lt_succ_r. rewrite Zlt_Qlt.
    apply Qle_lt_trans with (x + (1 # 2)); [apply Qfloor_le |].
    unfold Z.succ. rewrite inject_Z_plus. change (inject_Z 1) with 1. lra.
Qed.

(** ** Purchase planner *)

Section PlannerProperties.
Context {rt : Runtime}.
Import Planner.

(** C8. At zero interest the instalment is the principal divided by the
    tenure, and the instalments over the tenure repay the principal
    exactly. *)
Theorem calculateEMI_zero_interest (P n : Q) :
  0 < n ->
  calculateEMI P 0 n = P / n /\ calculateEMI P 0 n * n == P.
Proof.
  intros Hn. unfold calculateEMI.
  change (Qeqb 0 0) with true. cbv iota. split; [reflexivity |].
  field. lra.
Qed.

(** C1, as the code has it.  In the scenario of the specification the
    disposable income is 25000, the instalment is 10000 and the burden is
    exactly 40 percent; the purchase is affordable only below 40, so the
    flag is off. *)
Theorem analyzeEMI_scenario :
  emiAmount (analyzeEMI Sample.profile Sample.purchase) == 10000
  /\ disposableIncome (analyzeEMI Sample.profile Sample.purchase) == 25000
  /\ emiBurdenPercent (analyzeEMI Sample.profile Sample.purchase) == 40
  /\ isAffordable (analyzeEMI Sample.profile Sample.purchase) = false.
Proof.
  vm_compute. repeat split; discriminate.
Qed.

(** The flag of [analyzeEMI] is on exactly when the instalment is below
    40 percent of a positive disposable income. *)
Lemma analyzeEMI_affordable_iff (p : FinancialProfile) (d : PurchaseDetails) :
  let disposable :=
    monthlyIncome p - monthlyExpenses p - monthlyRoutineBills p in
  let emi :=
    calculateEMI (actualPrice d - opt_or (downPayment d) 0)
      (opt_or (interestRate d) 0) (opt_or (emiTenureMonths d) 12) in
  isAffordable (analyzeEMI p d) = true
  <-> 0 < disposable /\ emi / disposable * 100 < 40.
Proof.
  intros disposable emi. unfold analyzeEMI. cbn [isAffordable].
  fold disposable. fold emi. rewrite Qltb_lt.
  case_cmp; split; intros; try lra; tauto.
Qed.

(** The loop of the timeline runs [max 0 (bound + 1)] times. *)
Lemma loop_upto_length (bound : Z) :
  Z.of_nat (length (loop_upto bound)) = Z.max 0 (bound + 1).
Proof.
  unfold loop_upto. rewrite length_map, length_seq. lia.
Qed.

(** With a positive monthly saving the number of months is not negative. *)
Lemma analyzeSavings_months_nonneg (p : FinancialProfile)
    (d : PurchaseDetails) :
  0 < opt_or (monthlySavingForPurchase d) (num_or (extraSavingPerMonth p) 1) ->
  (0 <= monthsRequired (analyzeSavings p d))%Z.
Proof.
  intros Hpos. unfold analyzeSavings. cbn [monthsRequired].
  case_cmp; [| lia].
  unfold Math_ceil. rewrite Zle_Qle.
  eapply Qle_trans; [| apply Qle_ceiling].
  apply Qle_shift_div_l; [exact Hpos |].
  change (inject_Z 0) with 0. lra.
Qed.

(** C10, as the code has it.  Every entry of the timeline splits the price
    into what is accumulated and what remains, and the timeline has
    [max 0 (min monthsRequired 60 + 1)] entries. *)
Theorem analyzeSavings_timeline (p : FinancialProfile) (d : PurchaseDetails) :
  Forall (fun e =>
            accumulated e + remaining e == actualPrice d
            /\ accumulated e <= actualPrice d
            /\ 0 <= remaining e)
         (savingsGrowthTimeline (analyzeSavings p d))
  /\ Z.of_nat (length (savingsGrowthTimeline (analyzeSavings p d)))
     = Z.max 0 (Z.min (monthsRequired (analyzeSavings p d)) 60 + 1).
Proof.
  unfold analyzeSavings. cbn [savingsGrowthTimeline monthsRequired]. split.
  - apply Forall_map, Forall_forall. intros i _.
    cbn [accumulated remaining].
    minmax; lra.
  - rewrite length_map. apply loop_upto_length.
Qed.

End PlannerProperties.

(** With the rounding of binary64 the burden of the scenario is 40 as
    well, and the flag is off. *)
Lemma analyzeEMI_scenario_binary64 :
  Binary64.isAffordable 60000 30000 5000 120000 0 12 = false.
Proof.
  vm_compute. reflexivity.
Qed.

(** C1 with the flag on, as the specification expects it, does not hold:
    the scenario does not come out affordable. *)
Lemma analyzeEMI_scenario_not_affordable :
  ~ (Planner.emiAmount
       (Planner.analyzeEMI (rt := Sample.runtime)
          Sample.profile Sample.purchase) == 10000
     /\ Planner.isAffordable
          (Planner.analyzeEMI (rt := Sample.runtime)
             Sample.profile Sample.purchase) = true).
Proof.
  intros [_ Hflag]. vm_compute in Hflag. discriminate.
Qed.

Lemma calculateEMI_zero_interest_witness :
  0 < 12
  /\ Planner.calculateEMI (rt := Sample.runtime) 120000 0 12 = 120000 / 12
  /\ Planner.calculateEMI (rt := Sample.runtime) 120000 0 12 * 12 == 120000.
Proof.
  split; [reflexivity |].
  apply (calculateEMI_zero_interest (rt := Sample.runtime) 120000 12).
  reflexivity.
Defined.

(** C10 with the bound [min monthsRequired 60 + 1] does not hold: with a
    monthly saving of -10 the months required are -10, the timeline is
    empty and the bound is -9. *)
Lemma analyzeSavings_timeline_over_bound :
  ~ (Z.of_nat
       (length
          (Planner.savingsGrowthTimeline
             (Planner.analyzeSavings (rt := Sample.runtime)
                Sample.profile Sample.withdrawing)))
     <= Z.min
          (Planner.monthsRequired
             (Planner.analyzeSavings (rt := Sample.runtime)
                Sample.profile Sample.withdrawing)) 60 + 1)%Z.
Proof.
  vm_compute. intros Hle. apply Hle. reflexivity.
Qed.

(** ** Sums *)

(** The sum of [f] over a list, by structural recursion. *)
Fixpoint total_of {X : Type} (f : X -> Q) (l : list X) : Q :=
  match l with
  | [] => 0
  | x :: l' => f x + total_of f l'
  end.

(** A [reduce] with [+] is the start value plus the sum. *)
Lemma reduce_total {X : Type} (f : X -> Q) (l : list X) (a : Q) :
  fold_left (fun s x => s + f x) l a == a + total_of f l.
Proof.
  revert a. induction l as [| x l IH]; intros a; simpl.
  - lra.
  - rewrite IH. lra.
Qed.

Lemma Qsum_total (l : list Q) : Qsum l == total_of (fun x => x) l.
Proof.
  unfold Qsum. rewrite (reduce_total (fun x => x)). lra.
Qed.

Lemma total_of_map {X Y : Type} (g : X -> Y) (f : Y -> Q) (l : list X) :
  total_of f (map g l) = total_of (fun x => f (g x)) l.
Proof.
  induction l as [| x l IH]; simpl; congruence.
Qed.

Lemma total_of_app {X : Type} (f : X -> Q) (l1 l2 : list X) :
  total_of f (l1 ++ l2) == total_of f l1 + total_of f l2.
Proof.
  induction l1 as [| x l1 IH]; simpl; lra.
Qed.

Lemma total_of_ext {X : Type} (f g : X -> Q) (l : list X) :
  Forall (fun x => f x == g x) l -> total_of f l == total_of g l.
Proof.
  induction 1 as [| x l Hx _ IH]; simpl; lra.
Qed.

Lemma total_of_scale {X : Type} (f : X -> Q) (c : Q) (l : list X) :
  total_of (fun x => f x * c) l == total_of f l * c.
Proof.
  induction l as [| x l IH]; simpl; lra.
Qed.

Lemma total_of_minus {X : Type} (f g : X -> Q) (l : list X) :
  total_of (fun x => f x - g x) l == total_of f l - total_of g l.
Proof.
  induction l as [| x l IH]; simpl; lra.
Qed.

(** ** Insertion-ordered maps *)

Section JsMapFacts.
Context {K V : Type} (eqb : K -> K -> bool).

Lemma map_modify_fst (k : K) (f : V -> V) (m : JsMap K V) :
  map fst (map_modify eqb k f m) = map fst m.
Proof.
  induction m as [| [k' v] m IH]; simpl; [reflexivity |].
  destruct (eqb k k'); simpl; congruence.
Qed.

(** A mutation that keeps a projection of the stored object keeps that
    projection of every entry. *)
Lemma map_modify_keeps {W : Type} (g : V -> W) (k : K) (f : V -> V)
    (m : JsMap K V) :
  (forall v, g (f v) = g v) ->
  map (fun kv => g (snd kv)) (map_modify eqb k f m)
  = map (fun kv => g (snd kv)) m.
Proof.
  intros Hg. induction m as [| [k' v] m IH]; simpl; [reflexivity |].
  destruct (eqb k k'); simpl; rewrite ?Hg; congruence.
Qed.

Lemma fold_modify_keeps {W X : Type} (g : V -> W) (key : X -> K)
    (f : X -> V -> V) (l : list X) (m : JsMap K V) :
  (forall x v, g (f x v) = g v) ->
  map (fun kv => g (snd kv))
      (fold_left (fun m x => map_modify eqb (key x) (f x) m) l m)
  = map (fun kv => g (snd kv)) m.
Proof.
  intros Hg. revert m. induction l as [| x l IH]; intros m; simpl.
  - reflexivity.
  - rewrite IH. apply map_modify_keeps. apply Hg.
Qed.

(** Setting a key that is absent appends an entry. *)
Lemma map_set_fresh (k : K) (v : V) (m : JsMap K V) :
  map_get eqb k m = None -> map_set eqb k v m = m ++ [(k, v)].
Proof.
  induction m as [| [k' v'] m IH]; simpl; [reflexivity |].
  destruct (eqb k k'); [discriminate |].
  intros Hnone. rewrite IH by assumption. reflexivity.
Qed.

Lemma map_get_app_fresh (k k' : K) (v : V) (m : JsMap K V) :
  map_get eqb k m = None -> eqb k k' = false ->
  map_get eqb k (m ++ [(k', v)]) = None.
Proof.
  induction m as [| [k0 v0] m IH]; simpl; intros Hnone Hneq.
  - rewrite Hneq. reflexivity.
  - destruct (eqb k k0); [discriminate |]. auto.
Qed.

(** Setting the keys of a list of distinct indices, in order, yields one
    entry per index, in that order. *)
Lemma fold_set_distinct {X : Type} (key : X -> K) (val : X -> V)
    (l : list X) :
  (forall x y, eqb (key x) (key y) = true -> x = y) ->
  NoDup l ->
  fold_left (fun m x => map_set eqb (key x) (val x) m) l []
  = map (fun x => (key x, val x)) l.
Proof.
  intros Hinj Hnd.
  enough (Hgen : forall done todo,
             NoDup (done ++ todo) ->
             fold_left (fun m x => map_set eqb (key x) (val x) m) todo
               (map (fun x => (key x, val x)) done)
             = map (fun x => (key x, val x)) (done ++ todo))
    by exact (Hgen [] l Hnd).
  intros done todo. revert done.
  induction todo as [| x todo IH]; intros done Hdt; simpl.
  - rewrite app_nil_r. reflexivity.
  - assert (Hfresh : map_get eqb (key x)
                       (map (fun x => (key x, val x)) done) = None).
    { apply NoDup_remove_2 in Hdt.
      assert (Hx : ~ In x done) by (intros Hin; apply Hdt, in_or_app; auto).
      clear -Hinj Hx. induction done as [| y done IH]; simpl; [reflexivity |].
      destruct (eqb (key x) (key y)) eqn:E.
      - exfalso. apply Hx. left. symmetry. apply Hinj. exact E.
      - apply IH. intros Hin. apply Hx. right. exact Hin. }
    rewrite map_set_fresh by exact Hfresh.
    change [(key x, val x)] with (map (fun x => (key x, val x)) [x]).
    rewrite <- map_app. rewrite IH.
    + rewrite <- app_assoc. reflexivity.
    + rewrite <- app_assoc. exact Hdt.
Qed.

End JsMapFacts.

(** ** Monthly aggregation *)

Section MonthlyAggregates.
Import Analytics.

(** Two first-of-month dates built from the same year argument have the
    same key only when built from the same month argument. *)
Lemma Date_ym_key_inj (y i j : Z) :
  MonthKey_eqb (Date_key (Date_ym y i)) (Date_key (Date_ym y j)) = true ->
  i = j.
Proof.
  unfold Date_key, Date_ym, MonthKey_eqb. cbn [getFullYear getMonth].
  rewrite andb_true_iff, !Z.eqb_eq. intros [Hy Hm].
  rewrite (Z.div_mod i 12), (Z.div_mod j 12) by lia.
  rewrite Hm. f_equal. f_equal. lia.
Qed.

(** From the year 100 on, the date built from year and month arguments is
    the month numbered [year * 12 + month]. *)
Lemma Date_ym_linear (y m : Z) :
  (100 <= y)%Z ->
  (getFullYear (Date_ym y m) * 12 + getMonth (Date_ym y m) = y * 12 + m)%Z.
Proof.
  intros Hy. unfold Date_ym. cbn [getFullYear getMonth].
  replace ((0 <=? y) && (y <=? 99))%Z with false
    by (symmetry; apply andb_false_iff; right; apply Z.leb_gt; lia).
  pose proof (Z.div_mod m 12). lia.
Qed.

Lemma last12_NoDup : NoDup last12.
Proof.
  unfold last12.
  repeat (constructor; [cbn [In]; intuition discriminate |]).
  constructor.
Qed.

Lemma init_months_eq (now : Date) :
  init_months now
  = map (fun i =>
           let d := Date_ym (getFullYear now) (getMonth now - i) in
           (Date_key d, empty_month d))
        last12.
Proof.
  unfold init_months.
  apply (fold_set_distinct MonthKey_eqb
           (fun i => Date_key (Date_ym (getFullYear now) (getMonth now - i)))
           (fun i => empty_month
                       (Date_ym (getFullYear now) (getMonth now - i)))).
  - intros i j Hij. apply Date_ym_key_inj in Hij. lia.
  - apply last12_NoDup.
Qed.

Variables (now : Date) (incomes : list Income) (expenses_ : list Expense).

Local Abbreviation monthly := (getMonthlyAggregates now incomes expenses_).

(** The labels of the aggregates are those of the twelve months the map
    was initialised with, whatever the entries. *)
Lemma getMonthlyAggregates_labels :
  map (fun a => (month a, monthIndex a, year a)) monthly
  = map (fun i =>
           let d := Date_ym (getFullYear now) (getMonth now - i) in
           (month_name (getMonth d), getMonth d, getFullYear d))
        last12.
Proof.
  unfold getMonthlyAggregates, map_values. rewrite !map_map.
  cbn [fst snd].
  change (fun x : MonthKey * MonthlyAggregate =>
            (month (calc_savings (snd x)), monthIndex (calc_savings (snd x)),
             year (calc_savings (snd x))))
    with (fun x : MonthKey * MonthlyAggregate =>
            (fun a => (month a, monthIndex a, year a)) (snd x)).
  rewrite (fold_modify_keeps MonthKey_eqb
             (fun a => (month a, monthIndex a, year a))
             (fun e => getMonthKey (e_date e))
             (fun e => add_expenses (e_amount e))) by reflexivity.
  rewrite (fold_modify_keeps MonthKey_eqb
             (fun a => (month a, monthIndex a, year a))
             (fun i => getMonthKey (i_date i))
             (fun i => add_income (i_amount i))) by reflexivity.
  rewrite init_months_eq, map_map. reflexivity.
Qed.

Lemma getMonthlyAggregates_length : length monthly = 12%nat.
Proof.
  rewrite <- (length_map (fun a => (month a, monthIndex a, year a))).
  rewrite getMonthlyAggregates_labels, length_map. reflexivity.
Qed.

(** Every aggregate went through the last pass, which derives the savings
    and the savings rate. *)
Lemma getMonthlyAggregates_calc :
  exists raw, monthly = map calc_savings raw.
Proof.
  unfold getMonthlyAggregates, map_values. rewrite map_map. cbn [snd].
  eexists. rewrite <- (map_map snd calc_savings). reflexivity.
Qed.

Lemma getMonthlyAggregates_each :
  Forall (fun a =>
            savings a == income a - expenses a
            /\ (0 < income a -> savingsRate a == savings a / income a * 100)
            /\ (income a <= 0 -> savingsRate a == 0))
         monthly.
Proof.
  destruct getMonthlyAggregates_calc as [raw ->].
  apply Forall_map, Forall_forall. intros a _.
  unfold calc_savings. cbn [savings income expenses savingsRate].
  repeat split; try reflexivity; intros Hinc; case_cmp;
    solve [reflexivity | lra].
Qed.

(** C4. There are twelve aggregates, for the twelve months that end with
    the current one, oldest first; each has savings = income - expenses and
    the savings rate derived from them (zero without income); so the
    savings add up to the incomes minus the expenses. *)
Theorem getMonthlyAggregates_spec :
  (100 <= getFullYear now)%Z ->
  length monthly = 12%nat
  /\ map (fun a => (year a * 12 + monthIndex a)%Z) monthly
     = map (fun k => (getFullYear now * 12 + getMonth now - 11
                      + Z.of_nat k)%Z)
           (seq 0 12)
  /\ Forall (fun a => (0 <= monthIndex a < 12)%Z
                      /\ month a = month_name (monthIndex a)) monthly
  /\ Forall (fun a =>
               savings a == income a - expenses a
               /\ (0 < income a
                   -> savingsRate a == savings a / income a * 100)
               /\ (income a == 0 -> savingsRate a == 0))
            monthly
  /\ Qsum (map savings monthly)
     == Qsum (map income monthly) - Qsum (map expenses monthly).
Proof.
  intros Hyear. pose proof getMonthlyAggregates_labels as Hlab.
  split; [apply getMonthlyAggregates_length |]. split; [| split; [| split]].
  - apply (f_equal (map (fun t : string * Z * Z =>
                           (snd t * 12 + snd (fst t))%Z))) in Hlab.
    rewrite !map_map in Hlab. cbn [fst snd] in Hlab. rewrite Hlab.
    unfold last12. cbn [map seq].
    rewrite !Date_ym_linear by exact Hyear.
    repeat (apply f_equal2; [cbn [Z.of_nat]; lia |]). reflexivity.
  - apply (f_equal (map (fun t : string * Z * Z =>
                           (snd (fst t), fst (fst t))))) in Hlab.
    rewrite !map_map in Hlab. cbn [fst snd] in Hlab.
    apply Forall_forall. intros a Ha.
    apply (in_map (fun a => (monthIndex a, month a))) in Ha.
    rewrite Hlab in Ha. apply in_map_iff in Ha.
    destruct Ha as (i & Hi & _). inversion Hi as [[Hidx Hname]].
    split; [| reflexivity].
    unfold Date_ym. cbn [getMonth]. apply Z.mod_pos_bound. lia.
  - eapply Forall_impl; [| apply getMonthlyAggregates_each].
    intros a (Hs & Hpos & Hzero). repeat split; auto.
    intros Hinc. apply Hzero. lra.
  - rewrite !Qsum_total, !total_of_map.
    rewrite <- total_of_minus. apply total_of_ext.
    eapply Forall_impl; [| apply getMonthlyAggregates_each].
    intros a (Hs & _). exact Hs.
Qed.

End MonthlyAggregates.

Lemma getMonthlyAggregates_spec_witness :
  (100 <= getFullYear Sample.now)%Z
  /\ length (Analytics.getMonthlyAggregates Sample.now Sample.incomes
               Sample.expenses) = 12%nat
  /\ Qsum (map Analytics.savings
             (Analytics.getMonthlyAggregates Sample.now Sample.incomes
                Sample.expenses))
     == Qsum (map Analytics.income
                (Analytics.getMonthlyAggregates Sample.now Sample.incomes
                   Sample.expenses))
        - Qsum (map Analytics.expenses
                  (Analytics.getMonthlyAggregates Sample.now Sample.incomes
                     Sample.expenses)).
Proof.
  assert (Hyear : (100 <= getFullYear Sample.now)%Z)
    by (vm_compute; discriminate).
  split; [exact Hyear |].
  destruct (getMonthlyAggregates_spec Sample.now Sample.incomes
              Sample.expenses Hyear) as (Hlen & _ & _ & _ & Hsum).
  split; [exact Hlen | exact Hsum].
Defined.

(** ** Predictions *)

(** The ends of [l.slice(-3)] for an array of two elements or more: it has
    two elements or more, starts two places before the last element of [l]
    (at its first element when there are only two) and ends with it. *)
Lemma slice_last3_ends {X : Type} (l : list X) (d : X) :
  (2 <= length l)%nat ->
  (2 <=? length (Analytics.slice_last3 l))%nat = true
  /\ nth 0 (Analytics.slice_last3 l) d = nth (length l - 3) l d
  /\ nth (length (Analytics.slice_last3 l) - 1) (Analytics.slice_last3 l) d
     = nth (length l - 1) l d.
Proof.
  intros Hmany. unfold Analytics.slice_last3.
  rewrite length_skipn, !nth_skipn, Nat.add_0_r.
  split; [apply Nat.leb_le; lia |]. split; [reflexivity |].
  f_equal. lia.
Qed.

Section Predictions.
Import Analytics.
Variables (now : Date) (incomes : list Income) (expenses_ : list Expense).

Local Abbreviation active :=
  (filter is_active (getMonthlyAggregates now incomes expenses_)).

(** C6. With fewer than two active months the prediction is the zeroed
    one: no income, no expense, no savings rate, no projection, a stable
    trend. *)
Theorem getPredictions_degenerate :
  (length active < 2)%nat ->
  getPredictions now incomes expenses_
  = {| nextMonthIncome := 0;
       nextMonthExpense := 0;
       nextMonthSavingsRate := 0;
       threeMonthProjection := [];
       trend := stable |}.
Proof.
  intros Hfew. unfold getPredictions.
  destruct (Nat.ltb_spec (length active) 2) as [_ | Hmany].
  - reflexivity.
  - lia.
Qed.

(** C2, as the code has it.  With two active months or more, the trend
    compares the savings rate of the most recent active month with that of
    the first of the last three active months: two positions back, or the
    older one when there are only two. *)
Theorem getPredictions_trend :
  (2 <= length active)%nat ->
  trend (getPredictions now incomes expenses_)
  = classify
      (savingsRate (nth (length active - 1) active zero_aggregate)
       - savingsRate (nth (length active - 3) active zero_aggregate)).
Proof.
  intros Hmany. unfold getPredictions.
  destruct (Nat.ltb_spec (length active) 2) as [Hfew | _]; [lia |].
  cbv zeta. cbn [trend].
  destruct (slice_last3_ends active zero_aggregate Hmany)
    as (-> & -> & ->).
  reflexivity.
Qed.

(** Up to three active months the first of the last three is the oldest,
    and the wording of the specification gives the same trend. *)
Lemma getPredictions_trend_short :
  (2 <= length active <= 3)%nat ->
  trend (getPredictions now incomes expenses_) = Spec.trend_three_back active.
Proof.
  intros [Hmany Hshort]. unfold getPredictions, Spec.trend_three_back.
  destruct (Nat.ltb_spec (length active) 2) as [Hfew | _]; [lia |].
  cbv zeta. cbn [trend].
  destruct (slice_last3_ends active zero_aggregate Hmany)
    as (-> & -> & ->).
  replace (length active - 3)%nat with 0%nat by lia.
  replace (length active - 1 - 3)%nat with 0%nat by lia.
  reflexivity.
Qed.

End Predictions.

Lemma getPredictions_degenerate_witness :
  (length (filter Analytics.is_active
             (Analytics.getMonthlyAggregates Sample.now
                [Sample.salary 5 100] [])) < 2)%nat
  /\ Analytics.getPredictions Sample.now [Sample.salary 5 100] []
     = {| Analytics.nextMonthIncome := 0;
          Analytics.nextMonthExpense := 0;
          Analytics.nextMonthSavingsRate := 0;
          Analytics.threeMonthProjection := [];
          Analytics.trend := Analytics.stable |}.
Proof.
  assert (Hfew : (length (filter Analytics.is_active
                            (Analytics.getMonthlyAggregates Sample.now
                               [Sample.salary 5 100] [])) < 2)%nat)
    by (vm_compute; lia).
  split; [exact Hfew |].
  exact (getPredictions_degenerate Sample.now [Sample.salary 5 100] [] Hfew).
Defined.

(** ** Insights *)

Section InsightProperties.
Context {rt : Runtime}.
Import Insights.

(** The short-circuit: when the incomes and the expenses both add up to
    zero, the only insight is the welcome message. *)
Lemma generateInsights_short_circuit (now : Date) (incomes : list Income)
    (expenses_ : list Expense) :
  fold_left (fun s i => s + i_amount i) incomes 0 == 0 ->
  fold_left (fun s e => s + e_amount e) expenses_ 0 == 0 ->
  generateInsights now incomes expenses_
  = push info "Welcome! Start by adding your income and expenses to unlock 100+ personalized financial insights.".
Proof.
  intros Hinc Hexp. unfold generateInsights. cbv zeta.
  apply Qeqb_eq in Hinc, Hexp. rewrite Hinc, Hexp. reflexivity.
Qed.

(** Otherwise the three general tips close the list. *)
Lemma generateInsights_tips (now : Date) (incomes : list Income)
    (expenses_ : list Expense) :
  ~ (fold_left (fun s i => s + i_amount i) incomes 0 == 0
     /\ fold_left (fun s e => s + e_amount e) expenses_ 0 == 0) ->
  exists rules, generateInsights now incomes expenses_ = rules ++ general_tips.
Proof.
  intros Hsome. unfold generateInsights. cbv zeta.
  destruct (Qeqb _ 0 && Qeqb _ 0) eqn:Hzero.
  - exfalso. apply Hsome. apply andb_true_iff in Hzero.
    destruct Hzero as [Hinc Hexp]. split; apply Qeqb_eq; assumption.
  - rewrite !app_assoc. eexists. reflexivity.
Qed.

(** C7. Without records the engine returns the welcome message, of
    severity info, and nothing else. *)
Theorem generateInsights_no_records (now : Date) :
  generateInsights now [] []
  = [ {| type := info;
         message := "Welcome! Start by adding your income and expenses to unlock 100+ personalized financial insights." |} ].
Proof.
  reflexivity.
Qed.

End InsightProperties.

(** ** Sorting *)

Lemma total_of_perm {X : Type} (f : X -> Q) (l1 l2 : list X) :
  Permutation l1 l2 -> total_of f l1 == total_of f l2.
Proof.
  induction 1 as [| x l1 l2 _ IH | x y l | l1 l2 l3 _ IH12 _ IH23]; simpl;
    lra.
Qed.

Section SortFacts.
Context {X : Type} (before : X -> X -> bool) (R : X -> X -> Prop).
Hypothesis before_true : forall x y, before x y = true -> R x y.
Hypothesis before_false : forall x y, before x y = false -> R y x.
Hypothesis R_trans : forall x y z, R x y -> R y z -> R x z.

Lemma sort_insert_perm (x : X) (l : list X) :
  Permutation (x :: l) (sort_insert before x l).
Proof.
  induction l as [| y l IH]; simpl.
  - apply Permutation_refl.
  - destruct (before x y).
    + apply Permutation_refl.
    + eapply perm_trans; [apply perm_swap |]. apply perm_skip, IH.
Qed.

Lemma stable_sort_perm (l : list X) : Permutation l (stable_sort before l).
Proof.
  induction l as [| x l IH]; simpl.
  - apply perm_nil.
  - eapply perm_trans; [apply perm_skip, IH |]. apply sort_insert_perm.
Qed.

Lemma sort_insert_sorted (x : X) (l : list X) :
  StronglySorted R l -> StronglySorted R (sort_insert before x l).
Proof.
  induction l as [| y l IH]; simpl; intros Hs.
  - repeat constructor.
  - inversion Hs as [| ? ? Hl Hy]; subst.
    destruct (before x y) eqn:E.
    + constructor; [exact Hs |]. constructor.
      * apply before_true, E.
      * eapply Forall_impl; [| exact Hy]. intros z Hz.
        eapply R_trans; [apply before_true, E | exact Hz].
    + constructor; [apply IH, Hl |].
      eapply Permutation_Forall; [apply sort_insert_perm |].
      constructor; [apply before_false, E | exact Hy].
Qed.

Lemma stable_sort_sorted (l : list X) : StronglySorted R (stable_sort before l).
Proof.
  induction l as [| x l IH]; simpl.
  - constructor.
  - apply sort_insert_sorted, IH.
Qed.

End SortFacts.

(** ** Sums over maps *)

Section JsMapSums.
Context {K V : Type} (eqb : K -> K -> bool) (tot : V -> Q).

Lemma total_modify (k : K) (f : V -> V) (x : Q) (m : JsMap K V) :
  (forall v, tot (f v) == tot v + x) ->
  map_has eqb k m = true ->
  total_of (fun kv => tot (snd kv)) (map_modify eqb k f m)
  == total_of (fun kv => tot (snd kv)) m + x.
Proof.
  intros Hf. unfold map_has.
  induction m as [| [k' v] m IH]; simpl; [discriminate |].
  destruct (eqb k k'); simpl; intros Hhas.
  - rewrite Hf. lra.
  - rewrite IH by exact Hhas. lra.
Qed.

(** [if (!m.has(k)) m.set(k, v)] leaves [k] present, and adds [tot v] to
    the sum when it adds an entry. *)
Lemma ensure_has (k : K) (v : V) (m : JsMap K V) :
  eqb k k = true ->
  map_has eqb k
    (if negb (map_has eqb k m) then map_set eqb k v m else m) = true.
Proof.
  intros Hrefl. destruct (map_has eqb k m) eqn:Hhas; simpl; [exact Hhas |].
  unfold map_has in *.
  destruct (map_get eqb k m) eqn:Hget; [discriminate |].
  rewrite map_set_fresh by exact Hget. clear Hhas.
  induction m as [| [k' v'] m IH]; simpl in *.
  - rewrite Hrefl. reflexivity.
  - destruct (eqb k k'); [reflexivity | auto].
Qed.

Lemma ensure_total (k : K) (v : V) (m : JsMap K V) :
  tot v == 0 ->
  total_of (fun kv => tot (snd kv))
    (if negb (map_has eqb k m) then map_set eqb k v m else m)
  == total_of (fun kv => tot (snd kv)) m.
Proof.
  intros Hv. destruct (map_has eqb k m) eqn:Hhas; simpl; [reflexivity |].
  unfold map_has in Hhas.
  destruct (map_get eqb k m) eqn:Hget; [discriminate |].
  rewrite map_set_fresh by exact Hget.
  rewrite total_of_app. simpl. lra.
Qed.

End JsMapSums.

(** ** Category analysis *)

Section Categories.
Import Analytics.

(** Grouping keeps every amount: the totals of the categories add up to
    the amounts of the expenses. *)
Lemma group_by_category_total (expenses_ : list Expense) :
  total_of (fun kv => total (snd kv)) (group_by_category expenses_)
  == total_of e_amount expenses_.
Proof.
  unfold group_by_category.
  enough (Hgen : forall m,
             total_of (fun kv => total (snd kv))
               (fold_left
                  (fun catMap e =>
                     map_modify String.eqb (e_category e)
                       (add_to_category (e_amount e)
                          (getMonthLabel (e_date e)))
                       (if negb (map_has String.eqb (e_category e) catMap)
                        then map_set String.eqb (e_category e)
                               {| category := e_category e; total := 0;
                                  percentage := 0; monthlyBreakdown := [];
                                  growth := 0 |} catMap
                        else catMap))
                  expenses_ m)
             == total_of (fun kv => total (snd kv)) m
                + total_of e_amount expenses_).
  { rewrite Hgen. simpl. lra. }
  induction expenses_ as [| e es IH]; intros m; simpl.
  - lra.
  - rewrite IH.
    rewrite (total_modify String.eqb total _ _ (e_amount e)).
    + rewrite (ensure_total String.eqb total) by reflexivity. lra.
    + intros v. reflexivity.
    + apply ensure_has, String.eqb_refl.
Qed.

Variables (now : Date) (expenses_ : list Expense).

Local Abbreviation totalAll :=
  (fold_left (fun s e => s + e_amount e) expenses_ 0).
Local Abbreviation categories := (getCategorySummaries now expenses_).

(** The summaries are the grouped categories, each with its percentage and
    growth filled in, in sorted order. *)
Lemma getCategorySummaries_perm :
  exists thisMonth lastMonth,
    Permutation
      (map (fun kv => calc_percentage totalAll thisMonth lastMonth (snd kv))
         (group_by_category expenses_))
      categories.
Proof.
  unfold getCategorySummaries, map_values. rewrite map_map. cbn [snd].
  do 2 eexists. apply stable_sort_perm.
Qed.

Lemma getCategorySummaries_sorted :
  StronglySorted (fun a b => total b <= total a) categories.
Proof.
  unfold getCategorySummaries.
  apply (stable_sort_sorted by_total_desc).
  - intros x y Hxy. apply Qleb_le. exact Hxy.
  - intros x y Hxy. apply Qleb_gt in Hxy. lra.
  - intros x y z Hxy Hyz. lra.
Qed.

Lemma getCategorySummaries_percentage :
  Forall (fun c =>
            percentage c
            = if Qgtb totalAll 0 then total c / totalAll * 100 else 0)
         categories.
Proof.
  destruct getCategorySummaries_perm as (tm & lm & Hperm).
  eapply Permutation_Forall; [exact Hperm |].
  apply Forall_map, Forall_forall. intros kv _. reflexivity.
Qed.

Lemma getCategorySummaries_total :
  total_of total categories == totalAll.
Proof.
  destruct getCategorySummaries_perm as (tm & lm & Hperm).
  rewrite <- (total_of_perm total _ _ Hperm).
  rewrite total_of_map. cbn [calc_percentage total].
  rewrite group_by_category_total, reduce_total. lra.
Qed.

(** C5. When the expenses add up to a positive total, the percentages of
    the categories add up to 100, and the categories come in descending
    order of total. *)
Theorem getCategorySummaries_spec :
  expenses_ <> [] ->
  0 < totalAll ->
  Qsum (map percentage categories) == 100
  /\ StronglySorted (fun a b => total b <= total a) categories.
Proof.
  intros _ Hpos. split; [| apply getCategorySummaries_sorted].
  rewrite Qsum_total, total_of_map.
  rewrite (total_of_ext _ (fun c => total c * (100 / totalAll))).
  - rewrite total_of_scale, getCategorySummaries_total. field. lra.
  - eapply Forall_impl; [| apply getCategorySummaries_percentage].
    intros c ->. apply Qgtb_gt in Hpos. rewrite Hpos. field. 
    apply Qgtb_gt in Hpos. lra.
Qed.

(** The largest category has a non-negative percentage, whatever the signs
    of the amounts. *)
Lemma getCategorySummaries_head :
  match hd_error categories with
  | Some c => 0 <= percentage c
  | None => True
  end.
Proof.
  pose proof getCategorySummaries_sorted as Hsorted.
  pose proof getCategorySummaries_percentage as Hpct.
  pose proof getCategorySummaries_total as Htotal.
  destruct categories as [| c rest]; simpl; [exact I |].
  inversion Hpct as [| ? ? Hc _]; subst. rewrite Hc.
  case_cmp; [| lra].
  inversion Hsorted as [| ? ? _ Hmax]; subst.
  assert (Hc0 : 0 <= total c).
  { destruct (Qlt_le_dec (total c) 0) as [Hneg | Hok]; [| exact Hok].
    exfalso.
    assert (Hle : total_of total rest <= 0).
    { clear -Hmax Hneg. induction Hmax as [| x l Hx _ IH]; simpl; lra. }
    simpl in Htotal. lra. }
  apply Qmult_le_0_compat; [| lra].
  apply Qle_shift_div_l; [exact E |].
  rewrite Qmult_0_l. exact Hc0.
Qed.

End Categories.

Lemma getCategorySummaries_spec_witness :
  Sample.expenses <> []
  /\ 0 < fold_left (fun s e => s + e_amount e) Sample.expenses 0
  /\ Qsum (map Analytics.percentage
             (Analytics.getCategorySummaries Sample.now Sample.expenses))
     == 100
  /\ StronglySorted (fun a b => Analytics.total b <= Analytics.total a)
       (Analytics.getCategorySummaries Sample.now Sample.expenses).
Proof.
  assert (Hne : Sample.expenses <> []) by discriminate.
  assert (Hpos : 0 < fold_left (fun s e => s + e_amount e)
                       Sample.expenses 0) by reflexivity.
  split; [exact Hne |]. split; [exact Hpos |].
  exact (getCategorySummaries_spec Sample.now Sample.expenses Hne Hpos).
Defined.

(** ** Financial health score *)

(** A weighted sum of scores between 0 and 100, with non-negative weights
    that add up to 1, lies between 0 and 100. *)
Lemma weighted_sum_bounds (fs : list Analytics.Factor) :
  Forall (fun f => 0 <= Analytics.score f /\ Analytics.score f <= 100) fs ->
  Forall (fun f => 0 <= Analytics.weight f) fs ->
  total_of Analytics.weight fs == 1 ->
  0 <= Analytics.weighted_sum fs /\ Analytics.weighted_sum fs <= 100.
Proof.
  intros Hs Hw Hone. unfold Analytics.weighted_sum. rewrite reduce_total.
  enough (Hgen : 0 <= total_of
                        (fun f => Analytics.score f * Analytics.weight f) fs
                 /\ total_of
                      (fun f => Analytics.score f * Analytics.weight f) fs
                    <= 100 * total_of Analytics.weight fs) by lra.
  clear Hone. induction Hs as [| f fs [Hlo Hhi] _ IH]; simpl.
  - lra.
  - inversion Hw as [| ? ? Hwf Hwfs]; subst.
    destruct (IH Hwfs) as [IHlo IHhi].
    pose proof (Qmult_le_0_compat _ _ Hlo Hwf).
    pose proof (Qmult_le_compat_r _ _ _ Hhi Hwf).
    lra.
Qed.

Section HealthScore.
Context {rt : Runtime}.
Import Analytics.
Variables (now : Date) (incomes : list Income) (expenses_ : list Expense).

Local Abbreviation health :=
  (getFinancialHealthScore now incomes expenses_).

(** The five sub-scores lie between 0 and 100. *)
Lemma getFinancialHealthScore_factors :
  Forall (fun f => 0 <= score f /\ score f <= 100) (factors health).
Proof.
  unfold getFinancialHealthScore. cbv zeta. cbn [factors].
  repeat (apply Forall_cons; [cbn [score] |]); [| | | | | apply Forall_nil].
  - minmax; lra.
  - pose proof (getCategorySummaries_head now expenses_) as Hhead.
    destruct (hd_error (getCategorySummaries now expenses_)) as [c |].
    + unfold num_or. case_cmp; minmax; lra.
    + minmax; lra.
  - destruct (1 <? _)%nat; [| lra].
    minmax; lra.
  - destruct (Nat.leb_spec 3 (length (filter (fun m => Qgtb (income m) 0)
                 (getMonthlyAggregates now incomes expenses_))))
      as [_ | Hlt]; [lra |].
    set (n := length _) in *.
    assert (Hn : n = 0%nat \/ n = 1%nat \/ n = 2%nat) by lia.
    destruct Hn as [-> | [-> | ->]]; split; vm_compute; discriminate.
  - destruct (2 <=? _)%nat; [| lra].
    repeat case_cmp; lra.
Qed.

Lemma getFinancialHealthScore_weights :
  length (factors health) = 5%nat
  /\ Forall (fun f => 0 <= weight f) (factors health)
  /\ total_of weight (factors health) == 1.
Proof.
  unfold getFinancialHealthScore. cbv zeta. cbn [factors].
  split; [reflexivity |]. split.
  - repeat (apply Forall_cons; [cbn [weight]; lra |]). apply Forall_nil.
  - cbn [total_of weight]. lra.
Qed.

(** C3. The score is the rounded weighted sum of five sub-scores, each
    between 0 and 100, with weights that add up to 1; it lies between 0
    and 100, and the grade is A from 85, B from 70, C from 55, D from 40
    and F below. *)
Theorem getFinancialHealthScore_spec :
  (0 <= hs_score health /\ hs_score health <= 100)
  /\ hs_score health = inject_Z (Math_round (weighted_sum (factors health)))
  /\ weighted_sum (factors health)
     == total_of (fun f => score f * weight f) (factors health)
  /\ length (factors health) = 5%nat
  /\ Qsum (map weight (factors health)) == 1
  /\ Forall (fun f => 0 <= score f /\ score f <= 100) (factors health)
  /\ match grade health with
     | A => 85 <= hs_score health
     | B => 70 <= hs_score health /\ hs_score health < 85
     | C => 55 <= hs_score health /\ hs_score health < 70
     | D => 40 <= hs_score health /\ hs_score health < 55
     | F => hs_score health < 40
     end.
Proof.
  pose proof getFinancialHealthScore_factors as Hscores.
  destruct getFinancialHealthScore_weights as (Hlen & Hweights & Hone).
  assert (Hround : hs_score health
                   = inject_Z (Math_round (weighted_sum (factors health))))
    by reflexivity.
  split; [| split; [| split; [| split; [| split; [| split]]]]].
  - rewrite Hround.
    apply (Math_round_between 0 100); apply weighted_sum_bounds; assumption.
  - exact Hround.
  - unfold weighted_sum. rewrite reduce_total. lra.
  - exact Hlen.
  - rewrite Qsum_total, total_of_map. exact Hone.
  - exact Hscores.
  - assert (Hgrade : grade health = grade_of (hs_score health))
      by reflexivity.
    rewrite Hgrade. unfold grade_of.
    repeat case_cmp; repeat split; assumption.
Qed.

End HealthScore.

Lemma getPredictions_trend_witness :
  (2 <= length (filter Analytics.is_active
                  (Analytics.getMonthlyAggregates Sample.now Sample.incomes
                     Sample.expenses)))%nat
  /\ Analytics.trend
       (Analytics.getPredictions Sample.now Sample.incomes Sample.expenses)
     = Analytics.stable.
Proof.
  assert (Hmany : (2 <= length (filter Analytics.is_active
                                  (Analytics.getMonthlyAggregates Sample.now
                                     Sample.incomes Sample.expenses)))%nat)
    by (vm_compute; lia).
  split; [exact Hmany |].
  rewrite (getPredictions_trend Sample.now Sample.incomes Sample.expenses
             Hmany).
  reflexivity.
Defined.

(** C2 with the month three positions back does not hold: over four
    active months with savings rates 0, 50, 50 and 50 that month gives a
    rise of 50 points, and the code reports a stable trend. *)
Lemma getPredictions_trend_not_three_back :
  (2 <= length (filter Analytics.is_active
                  (Analytics.getMonthlyAggregates Sample.now Sample.incomes
                     Sample.expenses)))%nat
  /\ Spec.trend_three_back
       (filter Analytics.is_active
          (Analytics.getMonthlyAggregates Sample.now Sample.incomes
             Sample.expenses))
     = Analytics.improving
  /\ Analytics.trend
       (Analytics.getPredictions Sample.now Sample.incomes Sample.expenses)
     <> Spec.trend_three_back
          (filter Analytics.is_active
             (Analytics.getMonthlyAggregates Sample.now Sample.incomes
                Sample.expenses)).
Proof.
  split; [vm_compute; lia |]. split; [reflexivity |].
  vm_compute. discriminate.
Qed.

(** ** Determinism *)

(** The functions read the wall clock through [now]; only its year and its
    month reach the output. *)
Section Determinism.
Context {rt : Runtime}.
Import Analytics.
Variables (now1 now2 : Date).
Hypothesis same_year : getFullYear now1 = getFullYear now2.
Hypothesis same_month : getMonth now1 = getMonth now2.
Variables (incomes : list Income) (expenses_ : list Expense).

Lemma getMonthlyAggregates_clock :
  getMonthlyAggregates now1 incomes expenses_
  = getMonthlyAggregates now2 incomes expenses_.
Proof.
  unfold getMonthlyAggregates, init_months.
  rewrite same_year, same_month. reflexivity.
Qed.

Lemma getCurrentMonthStats_clock :
  getCurrentMonthStats now1 incomes expenses_
  = getCurrentMonthStats now2 incomes expenses_.
Proof.
  unfold getCurrentMonthStats. rewrite same_year, same_month. reflexivity.
Qed.

Lemma getCategorySummaries_clock :
  getCategorySummaries now1 expenses_ = getCategorySummaries now2 expenses_.
Proof.
  unfold getCategorySummaries. rewrite same_month. reflexivity.
Qed.

Lemma getYearlySummary_clock :
  getYearlySummary now1 incomes expenses_
  = getYearlySummary now2 incomes expenses_.
Proof.
  unfold getYearlySummary.
  rewrite getMonthlyAggregates_clock, getCategorySummaries_clock.
  reflexivity.
Qed.

Lemma getFinancialHealthScore_clock :
  getFinancialHealthScore now1 incomes expenses_
  = getFinancialHealthScore now2 incomes expenses_.
Proof.
  unfold getFinancialHealthScore.
  rewrite getMonthlyAggregates_clock, getCategorySummaries_clock,
    getYearlySummary_clock.
  reflexivity.
Qed.

Lemma getPredictions_clock :
  getPredictions now1 incomes expenses_
  = getPredictions now2 incomes expenses_.
Proof.
  unfold getPredictions.
  rewrite getMonthlyAggregates_clock, same_year, same_month. reflexivity.
Qed.

Lemma generateInsights_clock :
  Insights.generateInsights now1 incomes expenses_
  = Insights.generateInsights now2 incomes expenses_.
Proof.
  unfold Insights.generateInsights.
  rewrite getMonthlyAggregates_clock, getCategorySummaries_clock,
    getYearlySummary_clock, getFinancialHealthScore_clock,
    getCurrentMonthStats_clock, getPredictions_clock, same_month.
  reflexivity.
Qed.

End Determinism.

(** C9. Two calls on the same records, at instants of the same month of
    the same year, return the same output, for each of the analytics and
    insight functions. *)
Theorem analytics_deterministic {rt : Runtime} (now1 now2 : Date)
    (incomes : list Income) (expenses_ : list Expense) :
  getFullYear now1 = getFullYear now2 ->
  getMonth now1 = getMonth now2 ->
  Analytics.getMonthlyAggregates now1 incomes expenses_
  = Analytics.getMonthlyAggregates now2 incomes expenses_
  /\ Analytics.getCategorySummaries now1 expenses_
     = Analytics.getCategorySummaries now2 expenses_
  /\ Analytics.getYearlySummary now1 incomes expenses_
     = Analytics.getYearlySummary now2 incomes expenses_
  /\ Analytics.getFinancialHealthScore now1 incomes expenses_
     = Analytics.getFinancialHealthScore now2 incomes expenses_
  /\ Analytics.getPredictions now1 incomes expenses_
     = Analytics.getPredictions now2 incomes expenses_
  /\ Insights.generateInsights now1 incomes expenses_
     = Insights.generateInsights now2 incomes expenses_.
Proof.
  intros Hy Hm.
  split; [apply getMonthlyAggregates_clock; assumption |].
  split; [apply getCategorySummaries_clock; assumption |].
  split; [apply getYearlySummary_clock; assumption |].
  split; [apply getFinancialHealthScore_clock; assumption |].
  split; [apply getPredictions_clock; assumption |].
  apply generateInsights_clock; assumption.
Qed.

Lemma analytics_deterministic_witness :
  getFullYear Sample.now = getFullYear Sample.later
  /\ getMonth Sample.now = getMonth Sample.later
  /\ Analytics.getFinancialHealthScore (rt := Sample.runtime)
       Sample.now Sample.incomes Sample.expenses
     = Analytics.getFinancialHealthScore (rt := Sample.runtime)
         Sample.later Sample.incomes Sample.expenses
  /\ Insights.generateInsights (rt := Sample.runtime)
       Sample.now Sample.incomes Sample.expenses
     = Insights.generateInsights (rt := Sample.runtime)
         Sample.later Sample.incomes Sample.expenses.
Proof.
  assert (Hy : getFullYear Sample.now = getFullYear Sample.later)
    by reflexivity.
  assert (Hm : getMonth Sample.now = getMonth Sample.later) by reflexivity.
  split; [exact Hy |]. split; [exact Hm |].
  destruct (analytics_deterministic (rt := Sample.runtime)
              Sample.now Sample.later Sample.incomes Sample.expenses Hy Hm)
    as (_ & _ & _ & Hhealth & _ & Hinsights).
  split; [exact Hhealth | exact Hinsights].
Defined.

(** * Further properties *)

(** ** What each entry of a map accumulates *)

Section JsMapBuckets.
Context {K V : Type} (eqb : K -> K -> bool) (g : V -> Q).
Hypothesis eqb_eq : forall a b, eqb a b = true <-> a = b.

Lemma raised_weaken (a1 a2 : K -> Q) (m m' : JsMap K V) :
  (forall k, a1 k == a2 k) ->
  Forall2 (raised g a1) m m' -> Forall2 (raised g a2) m m'.
Proof.
  intros Ha. induction 1 as [| kv kv' m m' [Hk Hg] _ IH]; constructor; auto.
  split; [exact Hk |]. rewrite Hg, Ha. reflexivity.
Qed.

Lemma raised_compose (a1 a2 : K -> Q) (m m1 m2 : JsMap K V) :
  Forall2 (raised g a1) m m1 -> Forall2 (raised g a2) m1 m2 ->
  Forall2 (raised g (fun k => a1 k + a2 k)) m m2.
Proof.
  intros H1. revert m2.
  induction H1 as [| kv kv1 m m1 [Hk1 Hg1] _ IH]; intros m2 H2;
    inversion H2 as [| ? kv2 ? m2' [Hk2 Hg2] Hrest]; subst; constructor.
  - split; [congruence |]. rewrite Hg2, Hg1, Hk1. lra.
  - apply IH, Hrest.
Qed.

Lemma raised_keys (added : K -> Q) (m m' : JsMap K V) :
  Forall2 (raised g added) m m' -> map fst m' = map fst m.
Proof.
  induction 1 as [| kv kv' m m' [Hk _] _ IH]; simpl; congruence.
Qed.

(** One mutation raises the entry of its key, and no other. *)
Lemma map_modify_raised (k : K) (f : V -> V) (x : Q) (m : JsMap K V) :
  (forall v, g (f v) == g v + x) ->
  NoDup (map fst m) ->
  Forall2 (raised g (fun k' => if eqb k k' then x else 0))
    m (map_modify eqb k f m).
Proof.
  intros Hf. induction m as [| [k' v] m IH]; simpl; intros Hnd.
  - constructor.
  - inversion Hnd as [| ? ? Hnotin Hnd']; subst.
    destruct (eqb k k') eqn:E.
    + constructor.
      * split; [reflexivity |]. cbn [fst snd]. rewrite E. apply Hf.
      * apply eqb_eq in E. subst k'. clear IH Hnd Hnd'.
        induction m as [| [k1 v1] m IHm]; constructor.
        -- split; [reflexivity |]. cbn [fst snd].
           destruct (eqb k k1) eqn:E1; [| lra].
           apply eqb_eq in E1. subst k1. exfalso. apply Hnotin. left.
           reflexivity.
        -- apply IHm. intros Hin. apply Hnotin. right. exact Hin.
    + constructor.
      * split; [reflexivity |]. cbn [fst snd]. rewrite E. lra.
      * apply IH, Hnd'.
Qed.

(** A [forEach] of mutations raises each entry by the amounts of the
    elements that carry its key. *)
Lemma fold_modify_raised {X : Type} (key : X -> K) (f : X -> V -> V)
    (amt : X -> Q) (l : list X) (m : JsMap K V) :
  (forall x v, g (f x v) == g v + amt x) ->
  NoDup (map fst m) ->
  Forall2 (raised g (fun k => total_of amt (filter (fun x => eqb (key x) k) l)))
    m (fold_left (fun m x => map_modify eqb (key x) (f x) m) l m).
Proof.
  intros Hf. revert m. induction l as [| x l IH]; intros m Hnd; simpl.
  - clear Hnd. induction m as [| kv m IHm]; constructor; auto.
    split; [reflexivity | lra].
  - eapply raised_weaken;
      [| eapply raised_compose;
         [apply (map_modify_raised (key x) (f x) (amt x)); [apply Hf | exact Hnd]
         | apply IH; rewrite map_modify_fst; exact Hnd]].
    intros k. cbn beta. destruct (eqb (key x) k); simpl; lra.
Qed.

Lemma fold_modify_fst {X : Type} (key : X -> K) (f : X -> V -> V)
    (l : list X) (m : JsMap K V) :
  map fst (fold_left (fun m x => map_modify eqb (key x) (f x) m) l m)
  = map fst m.
Proof.
  revert m. induction l as [| x l IH]; intros m; simpl; [reflexivity |].
  rewrite IH. apply map_modify_fst.
Qed.

End JsMapBuckets.

Lemma Forall2_map_iff {X Y X' Y' : Type} (R : X' -> Y' -> Prop)
    (f : X -> X') (h : Y -> Y') (l : list X) (l' : list Y) :
  Forall2 R (map f l) (map h l') <-> Forall2 (fun x y => R (f x) (h y)) l l'.
Proof.
  revert l'. induction l as [| x l IH]; intros [| y l']; simpl; split;
    intros H; inversion H; subst; constructor; auto; apply IH; assumption.
Qed.

Lemma Forall2_and {X Y : Type} (R1 R2 : X -> Y -> Prop) (l : list X)
    (l' : list Y) :
  Forall2 R1 l l' -> Forall2 R2 l l' ->
  Forall2 (fun x y => R1 x y /\ R2 x y) l l'.
Proof.
  induction 1; intros H2; inversion H2; subst; constructor; auto.
Qed.

Lemma map_eq_Forall2 {X Y W : Type} (f : X -> W) (h : Y -> W) (l : list X)
    (l' : list Y) :
  map f l = map h l' -> Forall2 (fun x y => f x = h y) l l'.
Proof.
  revert l'. induction l as [| x l IH]; intros [| y l']; simpl; intros H;
    try discriminate; constructor; inversion H; auto.
Qed.

Lemma total_of_zero {X : Type} (l : list X) : total_of (fun _ => 0) l == 0.
Proof.
  induction l as [| x l IH]; simpl; lra.
Qed.

Lemma MonthKey_eqb_eq (a b : MonthKey) : MonthKey_eqb a b = true <-> a = b.
Proof.
  destruct a as [[y1 m1] |], b as [[y2 m2] |]; simpl;
    try (split; [discriminate | congruence]); try tauto.
  rewrite andb_true_iff, !Z.eqb_eq. split; [intros []; congruence |].
  intros H; inversion H; auto.
Qed.

(** ** Monthly aggregation: what lands in each month *)

Section MonthlyBuckets.
Import Analytics.
Variables (now : Date) (incomes : list Income) (expenses_ : list Expense).

(** The entries dated in the month of key [k]. *)
Local Abbreviation incomes_of k :=
  (filter (fun i => MonthKey_eqb (getMonthKey (i_date i)) k) incomes).
Local Abbreviation expenses_of k :=
  (filter (fun e => MonthKey_eqb (getMonthKey (e_date e)) k) expenses_).

Lemma init_months_NoDup : NoDup (map fst (init_months now)).
Proof.
  rewrite init_months_eq, map_map. cbn [fst].
  apply Finite.Injective_map_NoDup_in; [| apply last12_NoDup].
  intros i j _ _ Hij.
  assert (Heq : MonthKey_eqb
                  (Date_key (Date_ym (getFullYear now) (getMonth now - i)))
                  (Date_key (Date_ym (getFullYear now) (getMonth now - j)))
                = true) by (apply MonthKey_eqb_eq; exact Hij).
  apply Date_ym_key_inj in Heq. lia.
Qed.

(** Position by position: the aggregate initialised for a month holds the
    sums of the entries that carry the key of that month. *)
Lemma monthly_buckets :
  Forall2
    (fun i a =>
       income a
       == total_of i_amount
            (incomes_of
               (Date_key (Date_ym (getFullYear now) (getMonth now - i))))
       /\ expenses a
          == total_of e_amount
               (expenses_of
                  (Date_key (Date_ym (getFullYear now) (getMonth now - i)))))
    last12 (getMonthlyAggregates now incomes expenses_).
Proof.
  unfold getMonthlyAggregates, map_values. rewrite map_map. cbn [snd].
  set (map1 := fold_left _ incomes _).
  set (map2 := fold_left _ expenses_ _).
  pose proof init_months_NoDup as Hnd0.
  assert (Hnd1 : NoDup (map fst map1))
    by (unfold map1; rewrite fold_modify_fst; exact Hnd0).
  (* the incomes, through both passes *)
  assert (Hinc : Forall2
                   (raised income
                      (fun k => total_of i_amount (incomes_of k) + 0))
                   (init_months now) map2).
  { eapply raised_weaken;
      [| eapply raised_compose;
         [apply (fold_modify_raised MonthKey_eqb income MonthKey_eqb_eq
                   (fun i => getMonthKey (i_date i))
                   (fun i => add_income (i_amount i)) i_amount);
          [intros; reflexivity | exact Hnd0]
         | apply (fold_modify_raised MonthKey_eqb income MonthKey_eqb_eq
                    (fun e => getMonthKey (e_date e))
                    (fun e => add_expenses (e_amount e)) (fun _ => 0));
           [intros; cbn [add_expenses income]; lra | exact Hnd1]]].
    intros k. cbn beta. rewrite total_of_zero. reflexivity. }
  (* the expenses, through both passes *)
  assert (Hexp : Forall2
                   (raised expenses
                      (fun k => 0 + total_of e_amount (expenses_of k)))
                   (init_months now) map2).
  { eapply raised_weaken;
      [| eapply raised_compose;
         [apply (fold_modify_raised MonthKey_eqb expenses MonthKey_eqb_eq
                   (fun i => getMonthKey (i_date i))
                   (fun i => add_income (i_amount i)) (fun _ => 0));
          [intros; cbn [add_income expenses]; lra | exact Hnd0]
         | apply (fold_modify_raised MonthKey_eqb expenses MonthKey_eqb_eq
                    (fun e => getMonthKey (e_date e))
                    (fun e => add_expenses (e_amount e)) e_amount);
           [intros; reflexivity | exact Hnd1]]].
    intros k. cbn beta. rewrite total_of_zero. reflexivity. }
  pose proof (Forall2_and _ _ _ _ Hinc Hexp) as Hboth.
  rewrite init_months_eq in Hboth.
  rewrite <- (map_id map2) in Hboth.
  apply Forall2_map_iff in Hboth.
  rewrite <- (map_id last12).
  apply Forall2_map_iff.
  eapply Forall2_impl; [| exact Hboth].
  intros i kv [[_ Hi] [_ He]]. cbn [fst snd empty_month income expenses] in *.
  unfold calc_savings. cbn [income expenses]. split; lra.
Qed.

(** X1. Every monthly aggregate holds, as income and as expenses, the sum
    of the amounts of exactly the entries dated in its own year and month;
    an entry dated elsewhere, or with an invalid date, adds to none. *)
Theorem getMonthlyAggregates_buckets :
  Forall
    (fun a =>
       income a
       == total_of i_amount (incomes_of (Some (year a, monthIndex a)))
       /\ expenses a
          == total_of e_amount (expenses_of (Some (year a, monthIndex a))))
    (getMonthlyAggregates now incomes expenses_).
Proof.
  pose proof monthly_buckets as Hbuckets.
  pose proof (getMonthlyAggregates_labels now incomes expenses_) as Hlabels.
  apply eq_sym, map_eq_Forall2 in Hlabels.
  pose proof (Forall2_and _ _ _ _ Hlabels Hbuckets) as Hboth.
  clear Hlabels Hbuckets.
  induction Hboth as [| i a l l' [Hlab [Hi He]] _ IH]; constructor; auto.
  cbv zeta in Hlab.
  pose proof (f_equal (fun t : string * Z * Z => snd (fst t)) Hlab) as Hidx.
  pose proof (f_equal (fun t : string * Z * Z => snd t) Hlab) as Hy.
  cbn [fst snd] in Hidx, Hy.
  unfold Date_key in Hi, He. rewrite Hidx, Hy in Hi, He.
  split; assumption.
Qed.

End MonthlyBuckets.

Lemma Forall2_nth {X Y : Type} (R : X -> Y -> Prop) (l : list X)
    (l' : list Y) (n : nat) (d : X) (d' : Y) :
  Forall2 R l l' -> (n < length l)%nat -> R (nth n l d) (nth n l' d').
Proof.
  intros H. revert n. induction H as [| x y l l' Hxy _ IH]; intros n Hn.
  - simpl in Hn. lia.
  - destruct n as [| n]; simpl; [exact Hxy |]. apply IH. simpl in Hn. lia.
Qed.

(** ** Current month *)

Section CurrentMonth.
Import Analytics.
Variables (now : Date) (incomes : list Income) (expenses_ : list Expense).

Lemma in_month_key (date : option Date) :
  MonthKey_eqb (getMonthKey date) (Some (getFullYear now, getMonth now))
  = in_month (getMonth now) (getFullYear now) date.
Proof.
  destruct date as [d |]; simpl; [apply andb_comm | reflexivity].
Qed.

(** X2. The statistics of the current month are the last of the twelve
    monthly aggregates: the same income, expenses, savings and savings
    rate. *)
Theorem getCurrentMonthStats_last :
  (100 <= getFullYear now)%Z ->
  (0 <= getMonth now < 12)%Z ->
  ms_income (getCurrentMonthStats now incomes expenses_)
  == income (nth 11 (getMonthlyAggregates now incomes expenses_)
               zero_aggregate)
  /\ ms_expenses (getCurrentMonthStats now incomes expenses_)
     == expenses (nth 11 (getMonthlyAggregates now incomes expenses_)
                    zero_aggregate)
  /\ ms_savings (getCurrentMonthStats now incomes expenses_)
     == savings (nth 11 (getMonthlyAggregates now incomes expenses_)
                   zero_aggregate)
  /\ ms_savingsRate (getCurrentMonthStats now incomes expenses_)
     == savingsRate (nth 11 (getMonthlyAggregates now incomes expenses_)
                       zero_aggregate).
Proof.
  intros Hyear Hmonth.
  pose proof (Forall2_nth _ _ _ 11 0%Z zero_aggregate
                (monthly_buckets now incomes expenses_))
    as Hlast.
  cbn [last12 nth length] in Hlast. specialize (Hlast ltac:(lia)).
  assert (Hkey : Date_key (Date_ym (getFullYear now) (getMonth now - 0))
                 = Some (getFullYear now, getMonth now)).
  { unfold Date_key, Date_ym. cbn [getFullYear getMonth].
    replace ((0 <=? getFullYear now) && (getFullYear now <=? 99))%Z
      with false
      by (symmetry; apply andb_false_iff; right; apply Z.leb_gt; lia).
    rewrite Z.sub_0_r, Z.div_small, Z.mod_small by lia.
    rewrite Z.add_0_r. reflexivity. }
  rewrite Hkey in Hlast. destruct Hlast as [Hinc Hexp].
  rewrite (filter_ext _ _ (fun i => in_month_key (i_date i))) in Hinc.
  rewrite (filter_ext _ _ (fun e => in_month_key (e_date e))) in Hexp.
  pose proof (getMonthlyAggregates_each now incomes expenses_) as Heach.
  rewrite Forall_forall in Heach.
  assert (Hin : In (nth 11 (getMonthlyAggregates now incomes expenses_)
                      zero_aggregate)
                   (getMonthlyAggregates now incomes expenses_)).
  { apply nth_In. rewrite getMonthlyAggregates_length. lia. }
  destruct (Heach _ Hin) as (Hsav & Hpos & Hzero).
  set (a := nth 11 _ _) in *.
  unfold getCurrentMonthStats. cbv zeta.
  cbn [ms_income ms_expenses ms_savings ms_savingsRate].
  set (mi := fold_left _ (filter _ incomes) 0).
  set (me := fold_left _ (filter _ expenses_) 0).
  assert (Hmi : mi == income a)
    by (unfold mi; rewrite reduce_total, Hinc; lra).
  assert (Hme : me == expenses a)
    by (unfold me; rewrite reduce_total, Hexp; lra).
  split; [exact Hmi |]. split; [exact Hme |]. split; [lra |].
  case_cmp.
  - rewrite Hpos by lra. rewrite Hsav, Hmi, Hme. reflexivity.
  - rewrite Hzero by lra. reflexivity.
Qed.

End CurrentMonth.

Lemma getCurrentMonthStats_last_witness :
  (100 <= getFullYear Sample.now)%Z
  /\ (0 <= getMonth Sample.now < 12)%Z
  /\ Analytics.ms_income
       (Analytics.getCurrentMonthStats Sample.now Sample.incomes
          Sample.expenses)
     == Analytics.income
          (nth 11 (Analytics.getMonthlyAggregates Sample.now Sample.incomes
                     Sample.expenses) Analytics.zero_aggregate).
Proof.
  assert (Hy : (100 <= getFullYear Sample.now)%Z) by (vm_compute; discriminate).
  assert (Hm : (0 <= getMonth Sample.now < 12)%Z) by (vm_compute; split; [discriminate | reflexivity]).
  split; [exact Hy |]. split; [exact Hm |].
  exact (proj1 (getCurrentMonthStats_last Sample.now Sample.incomes
                  Sample.expenses Hy Hm)).
Defined.

(** ** Lookups in a map after a write *)

Section JsMapLookup.
Context {K V : Type} (eqb : K -> K -> bool).
Hypothesis eqb_eq : forall a b, eqb a b = true <-> a = b.

Lemma eqb_refl_true (a : K) : eqb a a = true.
Proof. apply eqb_eq. reflexivity. Qed.

Lemma eqb_false_neq (a b : K) : eqb a b = false <-> a <> b.
Proof.
  rewrite <- eqb_eq. destruct (eqb a b); split; congruence.
Qed.

Lemma map_get_modify (k k0 : K) (f : V -> V) (m : JsMap K V) :
  map_get eqb k0 (map_modify eqb k f m)
  = if eqb k k0 then option_map f (map_get eqb k0 m) else map_get eqb k0 m.
Proof.
  induction m as [| [k' v] m IH]; simpl.
  - destruct (eqb k k0); reflexivity.
  - destruct (eqb k k') eqn:E1; simpl.
    + apply eqb_eq in E1. subst k'.
      destruct (eqb k0 k) eqn:E2.
      * apply eqb_eq in E2. subst k0. rewrite eqb_refl_true. reflexivity.
      * destruct (eqb k k0) eqn:E3; [| reflexivity].
        apply eqb_eq in E3. subst k0. rewrite eqb_refl_true in E2.
        discriminate.
    + destruct (eqb k0 k') eqn:E2.
      * apply eqb_eq in E2. subst k'. rewrite E1. reflexivity.
      * exact IH.
Qed.

Lemma map_get_set (k k0 : K) (v : V) (m : JsMap K V) :
  map_get eqb k0 (map_set eqb k v m)
  = if eqb k0 k then Some v else map_get eqb k0 m.
Proof.
  induction m as [| [k' v'] m IH]; simpl.
  - reflexivity.
  - destruct (eqb k k') eqn:E1; simpl.
    + apply eqb_eq in E1. subst k'. destruct (eqb k0 k); reflexivity.
    + destruct (eqb k0 k') eqn:E2.
      * apply eqb_eq in E2. subst k'.
        destruct (eqb k0 k) eqn:E3; [| reflexivity].
        apply eqb_eq in E3. subst k0. rewrite eqb_refl_true in E1.
        discriminate.
      * exact IH.
Qed.

Lemma map_get_None (k : K) (m : JsMap K V) :
  map_get eqb k m = None <-> ~ In k (map fst m).
Proof.
  induction m as [| [k' v] m IH]; simpl.
  - tauto.
  - destruct (eqb k k') eqn:E.
    + apply eqb_eq in E. subst k'. split; [discriminate | tauto].
    + apply eqb_false_neq in E. rewrite IH. split.
      * intros Hnot [Heq | Hin]; [congruence | tauto].
      * tauto.
Qed.

Lemma map_get_In (k : K) (v : V) (m : JsMap K V) :
  NoDup (map fst m) -> In (k, v) m -> map_get eqb k m = Some v.
Proof.
  induction m as [| [k' v'] m IH]; simpl; intros Hnd Hin; [tauto |].
  inversion Hnd as [| ? ? Hnotin Hnd']; subst.
  destruct Hin as [Heq | Hin].
  - inversion Heq; subst. rewrite eqb_refl_true. reflexivity.
  - destruct (eqb k k') eqn:E.
    + apply eqb_eq in E. subst k'. exfalso. apply Hnotin.
      apply (in_map fst) in Hin. exact Hin.
    + apply IH; assumption.
Qed.

End JsMapLookup.

(** ** Category analysis: one summary per category *)

Section CategoryGroups.
Import Analytics.

Lemma string_eqb_eq (a b : string) : String.eqb a b = true <-> a = b.
Proof. apply String.eqb_eq. Qed.

Lemma total_of_fold_right {X : Type} (f : X -> Q) (l : list X) :
  fold_right Qplus 0 (map f l) = total_of f l.
Proof.
  induction l as [| x l IH]; simpl; congruence.
Qed.

Lemma grouped_nil : grouped [] [].
Proof.
  split; [constructor |]. intros k. simpl. tauto.
Qed.

(** One expense more keeps the map grouped. *)
Lemma grouped_step (m : JsMap string CategorySummary) (pre : list Expense)
    (e : Expense) :
  grouped m pre ->
  grouped
    (map_modify String.eqb (e_category e)
       (add_to_category (e_amount e) (getMonthLabel (e_date e)))
       (if negb (map_has String.eqb (e_category e) m)
        then map_set String.eqb (e_category e)
               {| category := e_category e; total := 0; percentage := 0;
                  monthlyBreakdown := []; growth := 0 |} m
        else m))
    (pre ++ [e]).
Proof.
  intros [Hnd Hlook]. split.
  - rewrite map_modify_fst. unfold map_has.
    destruct (map_get String.eqb (e_category e) m) eqn:Hget; simpl;
      [exact Hnd |].
    rewrite map_set_fresh by exact Hget. rewrite map_app. simpl.
    apply NoDup_app; [exact Hnd | repeat constructor; simpl; tauto |].
    intros k Hin [Heq | []]. subst k.
    apply (map_get_None String.eqb string_eqb_eq) in Hget. tauto.
  - intros k. rewrite (map_get_modify String.eqb string_eqb_eq).
    rewrite filter_app, !total_of_fold_right, !map_app.
    specialize (Hlook k). rewrite total_of_fold_right in Hlook.
    cbn [map filter].
    unfold map_has.
    destruct (String.eqb (e_category e) k) eqn:E.
    + apply String.eqb_eq in E. subst k.
      destruct (map_get String.eqb (e_category e) m) as [c |] eqn:Hget;
        cbn [negb].
      * rewrite Hget. cbn [option_map add_to_category category total].
        destruct Hlook as (Hc & Ht & Hin).
        split; [exact Hc |]. split; [| apply in_or_app; right; left; reflexivity].
        rewrite total_of_app, Ht. simpl. lra.
      * rewrite (map_get_set String.eqb string_eqb_eq), String.eqb_refl.
        cbn [option_map add_to_category category total].
        split; [reflexivity |].
        split; [| apply in_or_app; right; left; reflexivity].
        assert (Hnone : filter (fun e0 => String.eqb (e_category e0)
                                            (e_category e)) pre = []).
        { clear -Hlook. induction pre as [| x pre IH]; simpl; [reflexivity |].
          destruct (String.eqb (e_category x) (e_category e)) eqn:E.
          - apply String.eqb_eq in E. exfalso. apply Hlook. simpl. left.
            exact E.
          - apply IH. intros Hin. apply Hlook. simpl. right. exact Hin. }
        rewrite Hnone. simpl. lra.
    + apply String.eqb_neq in E.
      assert (Hsame : map_get String.eqb k
                        (if negb match map_get String.eqb (e_category e) m with
                                 | Some _ => true
                                 | None => false
                                 end
                         then map_set String.eqb (e_category e)
                                {| category := e_category e; total := 0;
                                   percentage := 0; monthlyBreakdown := [];
                                   growth := 0 |} m
                         else m)
                      = map_get String.eqb k m).
      { destruct (map_get String.eqb (e_category e) m); cbn [negb];
          [reflexivity |].
        rewrite (map_get_set String.eqb string_eqb_eq).
        destruct (String.eqb k (e_category e)) eqn:E2; [| reflexivity].
        apply String.eqb_eq in E2. congruence. }
      rewrite Hsame.
      destruct (map_get String.eqb k m) as [c |].
      * destruct Hlook as (Hc & Ht & Hin).
        split; [exact Hc |]. split; [| apply in_or_app; left; exact Hin].
        rewrite total_of_app, Ht. simpl. lra.
      * intros Hin. apply in_app_or in Hin. destruct Hin as [Hin | [Heq | []]];
          [tauto | congruence].
Qed.

Lemma group_by_category_grouped (expenses_ : list Expense) :
  grouped (group_by_category expenses_) expenses_.
Proof.
  unfold group_by_category.
  enough (Hgen : forall es m pre,
             grouped m pre ->
             grouped
               (fold_left
                  (fun catMap e =>
                     map_modify String.eqb (e_category e)
                       (add_to_category (e_amount e)
                          (getMonthLabel (e_date e)))
                       (if negb (map_has String.eqb (e_category e) catMap)
                        then map_set String.eqb (e_category e)
                               {| category := e_category e; total := 0;
                                  percentage := 0; monthlyBreakdown := [];
                                  growth := 0 |} catMap
                        else catMap))
                  es m)
               (pre ++ es))
    by exact (Hgen expenses_ [] [] grouped_nil).
  induction es as [| e es IH]; intros m pre Hg; simpl.
  - rewrite app_nil_r. exact Hg.
  - replace (pre ++ e :: es) with ((pre ++ [e]) ++ es)
      by (rewrite <- app_assoc; reflexivity).
    apply IH, grouped_step, Hg.
Qed.

Variables (now : Date) (expenses_ : list Expense).

(** X3. There is exactly one summary per category that occurs among the
    expenses, and its total is the sum of the amounts of the expenses of
    that category. *)
Theorem getCategorySummaries_groups :
  NoDup (map category (getCategorySummaries now expenses_))
  /\ (forall k, In k (map category (getCategorySummaries now expenses_))
                <-> In k (map e_category expenses_))
  /\ Forall
       (fun c =>
          total c
          == total_of e_amount
               (filter (fun e => String.eqb (e_category e) (category c))
                  expenses_))
       (getCategorySummaries now expenses_).
Proof.
  destruct (getCategorySummaries_perm now expenses_) as (tm & lm & Hperm).
  destruct (group_by_category_grouped expenses_) as [Hnd Hlook].
  set (catMap := group_by_category expenses_) in *.
  set (calc := calc_percentage _ tm lm) in *.
  (* every entry of the map is the one found under its key *)
  assert (Hentry : forall kv, In kv catMap ->
            category (snd kv) = fst kv
            /\ total (snd kv)
               == total_of e_amount
                    (filter (fun e => String.eqb (e_category e) (fst kv))
                       expenses_)).
  { intros [k c] Hin. cbn [fst snd].
    specialize (Hlook k).
    rewrite (map_get_In String.eqb string_eqb_eq k c catMap Hnd Hin)
      in Hlook.
    rewrite total_of_fold_right in Hlook. tauto. }
  assert (Hcats : map category (map (fun kv => calc (snd kv)) catMap)
                  = map fst catMap).
  { rewrite map_map. apply map_ext_in. intros kv Hin.
    apply (Hentry kv Hin). }
  split; [| split].
  - eapply Permutation_NoDup; [apply Permutation_map, Hperm |].
    rewrite Hcats. exact Hnd.
  - intros k.
    assert (Hiff : In k (map category (getCategorySummaries now expenses_))
                   <-> In k (map fst catMap)).
    { rewrite <- Hcats. split; apply Permutation_in;
        [apply Permutation_sym |]; apply Permutation_map, Hperm. }
    rewrite Hiff. specialize (Hlook k).
    pose proof (map_get_None String.eqb string_eqb_eq k catMap) as Hnone.
    destruct (map_get String.eqb k catMap) as [c |].
    + split; [tauto |]. intros _.
      destruct (in_dec string_dec k (map fst catMap)) as [Hin | Hnot];
        [exact Hin |].
      apply Hnone in Hnot. discriminate.
    + split; [| tauto]. intros Hin. exfalso.
      apply (proj1 Hnone); [reflexivity | exact Hin].
  - eapply Permutation_Forall; [exact Hperm |].
    apply Forall_map, Forall_forall. intros kv Hin.
    destruct (Hentry kv Hin) as [Hc Ht].
    unfold calc. cbn [calc_percentage total category]. rewrite Hc. exact Ht.
Qed.

End CategoryGroups.

(** ** Yearly summary *)

Section Yearly.
Import Analytics.
Variables (now : Date) (incomes : list Income) (expenses_ : list Expense).

Local Abbreviation yearly := (getYearlySummary now incomes expenses_).
Local Abbreviation monthly := (getMonthlyAggregates now incomes expenses_).
Local Abbreviation categories := (getCategorySummaries now expenses_).

Lemma num_or_zero (x : Q) : num_or x 0 == x.
Proof.
  unfold num_or. case_cmp; [symmetry; assumption | reflexivity].
Qed.

(** X4. The highest spending amount of the summary is the total of the
    first category, no category has a larger total, and without
    categories the summary reports "N/A" and 0; at most twelve months are
    tracked. *)
Theorem getYearlySummary_top_category :
  Forall (fun c => total c <= highestSpendingAmount yearly) categories
  /\ match categories with
     | [] =>
         highestSpendingCategory yearly = "N/A"%string
         /\ highestSpendingAmount yearly = 0
     | c :: _ =>
         highestSpendingCategory yearly = str_or (category c) "N/A"
         /\ highestSpendingAmount yearly == total c
     end
  /\ (monthsTracked yearly <= 12)%nat.
Proof.
  pose proof (getCategorySummaries_sorted now expenses_) as Hsorted.
  unfold getYearlySummary. cbv zeta.
  cbn [highestSpendingAmount highestSpendingCategory monthsTracked].
  split; [| split].
  - destruct categories as [| c rest]; [constructor |]. cbn [hd_error].
    inversion Hsorted as [| ? ? _ Hmax]; subst.
    apply Forall_forall. intros c' Hin. rewrite num_or_zero.
    destruct Hin as [<- | Hin]; [lra |].
    rewrite Forall_forall in Hmax. apply Hmax, Hin.
  - destruct categories as [| c rest]; cbn [hd_error].
    + split; reflexivity.
    + split; [reflexivity | apply num_or_zero].
  - rewrite <- (getMonthlyAggregates_length now incomes expenses_).
    apply filter_length_le.
Qed.

(** The name of a month is never empty. *)
Lemma month_name_nonempty (i : Z) : month_name i <> EmptyString.
Proof.
  unfold month_name. destruct (i <? 0)%Z; [discriminate |].
  unfold MONTH_NAMES. generalize (Z.to_nat i). intros n.
  do 12 (destruct n as [| n]; [discriminate |]).
  destruct n; discriminate.
Qed.

Lemma monthly_month_nonempty (a : MonthlyAggregate) :
  In a monthly -> str_or (month a) "N/A" = month a.
Proof.
  intros Hin.
  apply (in_map (fun a => (month a, monthIndex a, year a))) in Hin.
  rewrite getMonthlyAggregates_labels in Hin.
  apply in_map_iff in Hin. destruct Hin as (i & Hi & _).
  apply (f_equal (fun t : string * Z * Z => fst (fst t))) in Hi.
  cbn [fst] in Hi. rewrite <- Hi.
  pose proof (month_name_nonempty
                (getMonth (Date_ym (getFullYear now) (getMonth now - i))))
    as Hne.
  destruct (month_name _); [congruence | reflexivity].
Qed.

Lemma best_worst_step_some (b0 w0 m : MonthlyAggregate) :
  best_worst_step (Some b0, Some w0) m
  = (Some (if Qgtb (savingsRate m) (savingsRate b0) then m else b0),
     Some (if Qgtb (expenses m) (expenses w0) then m else w0)).
Proof.
  unfold best_worst_step. cbn [fst snd].
  destruct (Qgtb (savingsRate m) (savingsRate b0)),
    (Qgtb (expenses m) (expenses w0)); reflexivity.
Qed.

(** The scan for the best and the worst month ends on months that no
    visited month beats. *)
Lemma best_worst_fold (active : list MonthlyAggregate)
    (b0 w0 : MonthlyAggregate) :
  exists b w,
    fold_left best_worst_step active (Some b0, Some w0) = (Some b, Some w)
    /\ In b (b0 :: active) /\ In w (w0 :: active)
    /\ savingsRate b0 <= savingsRate b
    /\ Forall (fun a => savingsRate a <= savingsRate b) active
    /\ expenses w0 <= expenses w
    /\ Forall (fun a => expenses a <= expenses w) active.
Proof.
  revert b0 w0. induction active as [| m active IH]; intros b0 w0.
  - exists b0, w0. simpl. repeat split; auto; try lra; constructor.
  - cbn [fold_left]. rewrite best_worst_step_some.
    set (b1 := if Qgtb (savingsRate m) (savingsRate b0) then m else b0).
    set (w1 := if Qgtb (expenses m) (expenses w0) then m else w0).
    assert (Hb1 : In b1 [b0; m] /\ savingsRate b0 <= savingsRate b1
                  /\ savingsRate m <= savingsRate b1).
    { unfold b1. case_cmp; simpl; repeat split; auto; lra. }
    assert (Hw1 : In w1 [w0; m] /\ expenses w0 <= expenses w1
                  /\ expenses m <= expenses w1).
    { unfold w1. case_cmp; simpl; repeat split; auto; lra. }
    clearbody b1 w1.
    destruct (IH b1 w1) as (b & w & Hfold & Hb & Hw & Hb0 & Hball & Hw0 & Hwall).
    exists b, w. split; [exact Hfold |].
    destruct Hb1 as (Hb1in & Hb1a & Hb1b), Hw1 as (Hw1in & Hw1a & Hw1b).
    repeat split.
    + destruct Hb as [<- | Hb]; [| right; right; exact Hb].
      destruct Hb1in as [<- | [<- | []]]; simpl; auto.
    + destruct Hw as [<- | Hw]; [| right; right; exact Hw].
      destruct Hw1in as [<- | [<- | []]]; simpl; auto.
    + lra.
    + constructor; [lra | exact Hball].
    + lra.
    + constructor; [lra | exact Hwall].
Qed.

(** X5. The best month of the summary names a month of the window whose
    savings rate no active month exceeds, and the worst month one whose
    expenses no active month exceeds. *)
Theorem getYearlySummary_best_worst :
  exists b w,
    In b monthly /\ In w monthly
    /\ bestMonth yearly = month b
    /\ worstMonth yearly = month w
    /\ Forall (fun a => savingsRate a <= savingsRate b)
         (filter is_active monthly)
    /\ Forall (fun a => expenses a <= expenses w)
         (filter is_active monthly).
Proof.
  pose proof (getMonthlyAggregates_length now incomes expenses_) as Hlen.
  unfold getYearlySummary. cbv zeta. cbn [bestMonth worstMonth].
  destruct monthly as [| m0 rest] eqn:Hmonthly; [discriminate |].
  cbn [hd_error].
  destruct (best_worst_fold (filter is_active (m0 :: rest)) m0 m0)
    as (b & w & Hfold & Hb & Hw & _ & Hball & _ & Hwall).
  assert (Hbin : In b (m0 :: rest)).
  { destruct Hb as [<- | Hb]; [left; reflexivity |].
    apply filter_In in Hb. tauto. }
  assert (Hwin : In w (m0 :: rest)).
  { destruct Hw as [<- | Hw]; [left; reflexivity |].
    apply filter_In in Hw. tauto. }
  exists b, w. rewrite Hfold. cbn [fst snd month_or_na].
  rewrite <- Hmonthly in Hbin, Hwin.
  rewrite (monthly_month_nonempty b Hbin), (monthly_month_nonempty w Hwin).
  rewrite Hmonthly in Hbin, Hwin.
  repeat split; assumption.
Qed.

End Yearly.

(** ** Peak months *)

Section Peaks.
Import Analytics.

(** The reduction that keeps the larger of two months ends on a month of
    the array that none exceeds. *)
Lemma fold_keep_max (value : MonthlyAggregate -> Q)
    (rest : list MonthlyAggregate) (a : MonthlyAggregate) :
  In (fold_left (fun a b => if Qgtb (value a) (value b) then a else b)
        rest a) (a :: rest)
  /\ Forall (fun x =>
               value x
               <= value (fold_left
                           (fun a b => if Qgtb (value a) (value b) then a
                                       else b) rest a))
       (a :: rest).
Proof.
  revert a. induction rest as [| b rest IH]; intros a; cbn [fold_left].
  - split; [left; reflexivity |]. constructor; [lra | constructor].
  - destruct (IH (if Qgtb (value a) (value b) then a else b))
      as [Hin Hall].
    inversion Hall as [| ? ? Hhead Hrest]; subst.
    set (p := fold_left _ rest _) in *. split.
    + destruct Hin as [Heq | Hin]; [| right; right; exact Hin].
      rewrite <- Heq. destruct (Qgtb (value a) (value b)); simpl; auto.
    + revert Hhead. case_cmp; intros Hhead;
        (constructor; [lra |]); (constructor; [lra | exact Hrest]).
Qed.

Lemma total_of_le_max {X : Type} (f : X -> Q) (l : list X) (M : Q) :
  Forall (fun x => f x <= M) l ->
  total_of f l <= inject_Z (Z.of_nat (length l)) * M.
Proof.
  induction 1 as [| x l Hx _ IH].
  - cbn [total_of length Z.of_nat]. change (inject_Z 0) with 0. lra.
  - cbn [total_of length]. rewrite Nat2Z.inj_succ. unfold Z.succ.
    rewrite inject_Z_plus. change (inject_Z 1) with 1. lra.
Qed.

(** A peak of a non-empty array: a month of the array, no month above
    it, and a percentage above the average that is not negative. *)
Lemma peak_of_spec (value : MonthlyAggregate -> Q)
    (active : list MonthlyAggregate) :
  active <> [] ->
  exists p,
    In p active
    /\ pk_month (peak_of value active) = month p
    /\ pk_value (peak_of value active) = value p
    /\ Forall (fun a => value a <= value p) active
    /\ 0 <= percentAboveAvg (peak_of value active).
Proof.
  intros Hne. destruct active as [| a rest]; [congruence |].
  unfold peak_of. cbv zeta. cbn [pk_month pk_value percentAboveAvg].
  unfold reduce_keep.
  destruct (fold_keep_max value rest a) as [Hin Hall].
  set (p := fold_left _ rest a) in *.
  exists p. split; [exact Hin |]. split; [reflexivity |].
  split; [reflexivity |]. split; [exact Hall |].
  set (n := inject_Z (Z.of_nat (length (a :: rest)))).
  assert (Hn : 0 < n).
  { unfold n. cbn [length]. rewrite Nat2Z.inj_succ.
    change 0 with (inject_Z 0). rewrite <- Zlt_Qlt. lia. }
  set (avg := fold_left _ (a :: rest) 0 / n).
  assert (Havg : avg <= value p).
  { unfold avg. apply Qle_shift_div_r; [exact Hn |].
    rewrite reduce_total.
    pose proof (total_of_le_max value (a :: rest) (value p) Hall) as Hle.
    fold n in Hle. lra. }
  case_cmp; [| lra].
  apply Qmult_le_0_compat; [| lra].
  apply Qle_shift_div_l; [exact E | lra].
Qed.

Variables (now : Date) (incomes : list Income) (expenses_ : list Expense).

Local Abbreviation active :=
  (filter is_active (getMonthlyAggregates now incomes expenses_)).
Local Abbreviation peaks := (getPeakAnalysis now incomes expenses_).

(** X7. Without an active month the three peaks are "N/A" with value 0.
    Otherwise each peak names an active month and gives its value, no
    active month has a larger value, and the percentage above the average
    is not negative. *)
Theorem getPeakAnalysis_spec :
  match active with
  | [] =>
      peaks
      = {| peakIncome :=
             {| pk_month := "N/A"; pk_value := 0; percentAboveAvg := 0 |};
           peakExpense :=
             {| pk_month := "N/A"; pk_value := 0; percentAboveAvg := 0 |};
           peakSavings :=
             {| pk_month := "N/A"; pk_value := 0; percentAboveAvg := 0 |} |}
  | _ :: _ =>
      (exists p, In p active
                 /\ pk_month (peakIncome peaks) = month p
                 /\ pk_value (peakIncome peaks) = income p
                 /\ Forall (fun a => income a <= income p) active
                 /\ 0 <= percentAboveAvg (peakIncome peaks))
      /\ (exists p, In p active
                    /\ pk_month (peakExpense peaks) = month p
                    /\ pk_value (peakExpense peaks) = expenses p
                    /\ Forall (fun a => expenses a <= expenses p) active
                    /\ 0 <= percentAboveAvg (peakExpense peaks))
      /\ (exists p, In p active
                    /\ pk_month (peakSavings peaks) = month p
                    /\ pk_value (peakSavings peaks) = savings p
                    /\ Forall (fun a => savings a <= savings p) active
                    /\ 0 <= percentAboveAvg (peakSavings peaks))
  end.
Proof.
  unfold getPeakAnalysis. cbv zeta.
  destruct active as [| a rest] eqn:Hactive.
  - reflexivity.
  - cbn [length Nat.eqb peakIncome peakExpense peakSavings].
    assert (Hne : a :: rest <> []) by discriminate.
    split; [| split]; apply peak_of_spec; exact Hne.
Qed.

End Peaks.

(** ** Quarters *)

Section Quarters.
Import Analytics.

Lemma update_at_spec {X : Type} (f : X -> X) (j : nat) (l : list X) :
  (j < length l)%nat ->
  exists l',
    update_at f j l = Some l'
    /\ length l' = length l
    /\ forall i d,
         nth i l' d = if (i =? j)%nat then f (nth i l d) else nth i l d.
Proof.
  revert j. induction l as [| x l IH]; intros j Hj; simpl in Hj; [lia |].
  destruct j as [| j]; simpl.
  - eexists. split; [reflexivity |]. split; [reflexivity |].
    intros [| i] d; reflexivity.
  - destruct (IH j ltac:(lia)) as (l' & -> & Hlen & Hnth).
    eexists. split; [reflexivity |]. split; [simpl; congruence |].
    intros [| i] d; simpl; [reflexivity | apply Hnth].
Qed.

Lemma quarter_index_valid (d : Date) :
  (0 <= getMonth d < 12)%Z ->
  quarter_index d = Z.to_nat (getMonth d / 3) /\ (quarter_index d < 4)%nat.
Proof.
  intros Hm. unfold quarter_index.
  destruct (Z.ltb_spec (getMonth d) 0) as [Hneg | _]; [lia |].
  split; [reflexivity |].
  assert (0 <= getMonth d / 3 < 4)%Z
    by (split; [apply Z.div_pos; lia | apply Z.div_lt_upper_bound; lia]).
  lia.
Qed.

(** A [forEach] over entries with valid dates adds, to the number [g] of
    each quarter, what [counted] gives for the entries dated in that
    quarter of the year, and keeps the names. *)
Lemma quarter_fold {X : Type} (year : Z) (date : X -> option Date)
    (amt counted : X -> Q) (add : Q -> QuarterData -> QuarterData)
    (g : QuarterData -> Q) (l : list X) (qs : list QuarterData) :
  (forall x q, g (add (amt x) q) == g q + counted x) ->
  (forall x q, quarter (add x q) = quarter q) ->
  Forall (fun x => valid_date (date x)) l ->
  length qs = 4%nat ->
  exists qs',
    fold_left (fun qs x => quarter_step year add (date x) (amt x) qs) l
      (Some qs) = Some qs'
    /\ length qs' = 4%nat
    /\ map quarter qs' = map quarter qs
    /\ forall j,
         g (nth j qs' (empty_quarter EmptyString))
         == g (nth j qs (empty_quarter EmptyString))
            + total_of counted
                (filter (fun x => in_quarter year j (date x)) l).
Proof.
  intros Hg Hname Hvalid. revert qs.
  induction Hvalid as [| x l Hx _ IH]; intros qs Hlen; cbn [fold_left].
  - exists qs. repeat split; auto. intros j. simpl. lra.
  - assert (Hstep : exists qs1,
               quarter_step year add (date x) (amt x) (Some qs) = Some qs1
               /\ length qs1 = 4%nat
               /\ map quarter qs1 = map quarter qs
               /\ forall j,
                    g (nth j qs1 (empty_quarter EmptyString))
                    == g (nth j qs (empty_quarter EmptyString))
                       + (if in_quarter year j (date x) then counted x
                          else 0)).
    { unfold quarter_step, in_quarter, valid_date in *.
      destruct (date x) as [d |].
      - destruct (getFullYear d =? year)%Z; cbn [andb].
        + destruct (quarter_index_valid d Hx) as [Hidx Hlt].
          destruct (update_at_spec (add (amt x)) (quarter_index d) qs
                      ltac:(lia)) as (qs1 & Hupd & Hlen1 & Hnth).
          exists qs1. split; [exact Hupd |]. split; [lia |]. split.
          * apply nth_ext with (d := EmptyString) (d' := EmptyString);
              [rewrite !length_map; lia |].
            intros i _.
            rewrite !(map_nth quarter _ (empty_quarter EmptyString) i) .
            rewrite Hnth. destruct (i =? quarter_index d)%nat;
              [apply Hname | reflexivity].
          * intros j. rewrite Hnth, <- Hidx.
            destruct (Nat.eqb_spec j (quarter_index d)) as [-> | Hne].
            -- rewrite Nat.eqb_refl. apply Hg.
            -- replace (quarter_index d =? j)%nat with false
                 by (symmetry; apply Nat.eqb_neq; congruence).
               lra.
        + exists qs. repeat split; auto. intros j. lra.
      - exists qs. repeat split; auto. intros j. lra. }
    destruct Hstep as (qs1 & -> & Hlen1 & Hnames1 & Hsum1).
    destruct (IH qs1 Hlen1) as (qs' & Hfold & Hlen' & Hnames' & Hsum').
    exists qs'. split; [exact Hfold |]. split; [exact Hlen' |].
    split; [congruence |].
    intros j. rewrite Hsum', Hsum1. cbn [filter].
    destruct (in_quarter year j (date x)); simpl; lra.
Qed.

Variables (now : Date) (incomes : list Income) (expenses_ : list Expense).

(** X6. When every entry has an invalid date or a month from 0 to 11, the
    quarter data are the four quarters Q1 to Q4; each holds the incomes
    and the expenses dated in that quarter of the current year, and their
    difference as savings. *)
Theorem getQuarterData_spec :
  Forall (fun i => valid_date (i_date i)) incomes ->
  Forall (fun e => valid_date (e_date e)) expenses_ ->
  exists qs,
    getQuarterData now incomes expenses_ = Some qs
    /\ map quarter qs = ["Q1"; "Q2"; "Q3"; "Q4"]%string
    /\ Forall2
         (fun j q =>
            q_income q
            == total_of i_amount
                 (filter (fun i => in_quarter (getFullYear now) j (i_date i))
                    incomes)
            /\ q_expenses q
               == total_of e_amount
                    (filter
                       (fun e => in_quarter (getFullYear now) j (e_date e))
                       expenses_)
            /\ q_savings q == q_income q - q_expenses q)
         [0; 1; 2; 3]%nat qs.
Proof.
  intros Hinc Hexp. unfold getQuarterData. cbv zeta.
  set (qs0 := [empty_quarter "Q1"; empty_quarter "Q2"; empty_quarter "Q3";
               empty_quarter "Q4"]).
  (* the pass over the incomes *)
  destruct (quarter_fold (getFullYear now) i_date i_amount i_amount
              add_q_income q_income incomes qs0
              (fun x q => Qeq_refl _) (fun x q => eq_refl) Hinc eq_refl)
    as (qs1 & Hfold1 & Hlen1 & Hnames1 & Hinc1).
  destruct (quarter_fold (getFullYear now) i_date i_amount (fun _ => 0)
              add_q_income q_expenses incomes qs0
              (fun x q => Qeq_sym _ _ (Qplus_0_r _)) (fun x q => eq_refl) Hinc eq_refl)
    as (qs1' & Hfold1' & _ & _ & Hexp1).
  rewrite Hfold1 in Hfold1'. inversion Hfold1'; subst qs1'. clear Hfold1'.
  rewrite Hfold1.
  (* the pass over the expenses *)
  destruct (quarter_fold (getFullYear now) e_date e_amount e_amount
              add_q_expenses q_expenses expenses_ qs1
              (fun x q => Qeq_refl _) (fun x q => eq_refl) Hexp Hlen1)
    as (qs2 & Hfold2 & Hlen2 & Hnames2 & Hexp2).
  destruct (quarter_fold (getFullYear now) e_date e_amount (fun _ => 0)
              add_q_expenses q_income expenses_ qs1
              (fun x q => Qeq_sym _ _ (Qplus_0_r _)) (fun x q => eq_refl) Hexp Hlen1)
    as (qs2' & Hfold2' & _ & _ & Hinc2).
  rewrite Hfold2 in Hfold2'. inversion Hfold2'; subst qs2'. clear Hfold2'.
  rewrite Hfold2. cbn [option_map].
  eexists. split; [reflexivity |].
  assert (Hall : forall j,
            q_income (nth j qs2 (empty_quarter EmptyString))
            == total_of i_amount
                 (filter (fun i => in_quarter (getFullYear now) j (i_date i))
                    incomes)
               + q_income (nth j qs0 (empty_quarter EmptyString))
            /\ q_expenses (nth j qs2 (empty_quarter EmptyString))
               == total_of e_amount
                    (filter
                       (fun e => in_quarter (getFullYear now) j (e_date e))
                       expenses_)
                  + q_expenses (nth j qs0 (empty_quarter EmptyString))).
  { intros j. rewrite Hinc2, Hinc1, Hexp2, Hexp1, !total_of_zero.
    split; lra. }
  destruct qs2 as [| a [| b [| c [| d [| ? ?]]]]]; try discriminate.
  split.
  - cbn [map calc_quarter quarter]. cbn [map] in Hnames2.
    rewrite Hnames2, Hnames1. reflexivity.
  - pose proof (Hall 0%nat) as H0. pose proof (Hall 1%nat) as H1.
    pose proof (Hall 2%nat) as H2. pose proof (Hall 3%nat) as H3.
    cbn [nth qs0 empty_quarter q_income q_expenses] in H0, H1, H2, H3.
    cbn [map].
    repeat (constructor;
            [unfold calc_quarter; cbn [q_income q_expenses q_savings];
             repeat split; lra |]).
    constructor.
Qed.

End Quarters.

Lemma getQuarterData_spec_witness :
  Forall (fun i => valid_date (i_date i)) Sample.incomes
  /\ Forall (fun e => valid_date (e_date e)) Sample.expenses
  /\ exists qs,
       Analytics.getQuarterData Sample.now Sample.incomes Sample.expenses
       = Some qs
       /\ map Analytics.quarter qs = ["Q1"; "Q2"; "Q3"; "Q4"]%string.
Proof.
  assert (Hinc : Forall (fun i => valid_date (i_date i)) Sample.incomes)
    by (repeat (constructor;
                [vm_compute; split; [discriminate | reflexivity] |]);
        constructor).
  assert (Hexp : Forall (fun e => valid_date (e_date e)) Sample.expenses)
    by (repeat (constructor;
                [vm_compute; split; [discriminate | reflexivity] |]);
        constructor).
  split; [exact Hinc |]. split; [exact Hexp |].
  destruct (getQuarterData_spec Sample.now Sample.incomes Sample.expenses
              Hinc Hexp) as (qs & Hq & Hnames & _).
  exists qs. split; [exact Hq | exact Hnames].
Defined.

(** ** Predictions on a flat history *)

Lemma Math_round_comp (x y : Q) : x == y -> Math_round x = Math_round y.
Proof.
  intros Hxy. unfold Math_round. rewrite Hxy. reflexivity.
Qed.

Section FlatHistory.
Import Analytics.

Lemma recency_weights_positive (n : nat) :
  Forall (fun w => 1 <= w) (recency_weights n).
Proof.
  unfold recency_weights. apply Forall_map, Forall_forall. intros i _.
  assert (0 <= inject_Z (Z.of_nat i))
    by (change 0 with (inject_Z 0); rewrite <- Zle_Qle; lia).
  lra.
Qed.

Lemma total_of_ge_length (l : list Q) :
  Forall (fun w => 1 <= w) l ->
  inject_Z (Z.of_nat (length l)) <= total_of (fun w => w) l.
Proof.
  induction 1 as [| w l Hw _ IH].
  - cbn [total_of length Z.of_nat]. change (inject_Z 0) with 0. lra.
  - cbn [total_of length]. rewrite Nat2Z.inj_succ. unfold Z.succ.
    rewrite inject_Z_plus. change (inject_Z 1) with 1. lra.
Qed.

Lemma total_of_combine_snd {X : Type} (l : list X) (ws : list Q) :
  length l = length ws ->
  total_of (fun mw : X * Q => snd mw) (combine l ws)
  = total_of (fun w => w) ws.
Proof.
  revert ws. induction l as [| x l IH]; intros [| w ws] Hlen; simpl in *;
    try discriminate; [reflexivity |].
  rewrite IH by lia. reflexivity.
Qed.

(** The recency-weighted average of a constant is the constant. *)
Lemma weighted_average_flat (value : MonthlyAggregate -> Q)
    (active : list MonthlyAggregate) (v : Q) :
  active <> [] ->
  Forall (fun a => value a == v) active ->
  weighted_total value active (recency_weights (length active))
  / fold_left (fun s w => s + w) (recency_weights (length active)) 0
  == v.
Proof.
  intros Hne Hflat. unfold weighted_total.
  rewrite (reduce_total (fun mw => value (fst mw) * snd mw)).
  rewrite (reduce_total (fun w => w)).
  set (ws := recency_weights (length active)).
  assert (Hlen : length active = length ws)
    by (unfold ws, recency_weights; rewrite length_map, length_seq;
        reflexivity).
  assert (Hpos : 0 < total_of (fun w => w) ws).
  { pose proof (total_of_ge_length ws (recency_weights_positive _)) as Hge.
    rewrite <- Hlen in Hge.
    assert (1 <= inject_Z (Z.of_nat (length active))).
    { change 1 with (inject_Z 1). rewrite <- Zle_Qle.
      destruct active; [congruence | simpl; lia]. }
    lra. }
  rewrite (total_of_ext _ (fun mw => snd mw * v)).
  - rewrite total_of_scale, total_of_combine_snd by exact Hlen.
    field. lra.
  - generalize ws. clear -Hflat.
    induction Hflat as [| a l Ha _ IH]; intros [| w ws]; simpl;
      try constructor.
    + cbn [fst snd]. rewrite Ha. ring.
    + apply IH.
Qed.

Variables (now : Date) (incomes : list Income) (expenses_ : list Expense).
Variables (v w : Q).

Local Abbreviation active :=
  (filter is_active (getMonthlyAggregates now incomes expenses_)).
Local Abbreviation prediction := (getPredictions now incomes expenses_).

(** X8. When two or more months are active and all of them have the
    income [v] and the expenses [w], each of the three projected months
    has the income [round v] and the expenses [round w], the months are
    the three that follow the current one, and the trend is stable. *)
Theorem getPredictions_flat :
  (2 <= length active)%nat ->
  Forall (fun a => income a == v /\ expenses a == w) active ->
  map pr_income (threeMonthProjection prediction)
  = [inject_Z (Math_round v); inject_Z (Math_round v);
     inject_Z (Math_round v)]
  /\ map pr_expenses (threeMonthProjection prediction)
     = [inject_Z (Math_round w); inject_Z (Math_round w);
        inject_Z (Math_round w)]
  /\ map pr_month (threeMonthProjection prediction)
     = map (fun i => month_name ((getMonth now + i) mod 12)) [1; 2; 3]%Z
  /\ trend prediction = stable.
Proof.
  intros Hmany Hflat.
  assert (Hne : active <> []) by (destruct active; simpl in *; [lia | discriminate]).
  assert (Hinc : Forall (fun a => income a == v) active)
    by (eapply Forall_impl; [| exact Hflat]; intros a [H _]; exact H).
  assert (Hexp : Forall (fun a => expenses a == w) active)
    by (eapply Forall_impl; [| exact Hflat]; intros a [_ H]; exact H).
  pose proof (weighted_average_flat income active v Hne Hinc) as Havg_i.
  pose proof (weighted_average_flat expenses active w Hne Hexp) as Havg_e.
  (* the two ends of the last three months *)
  destruct (slice_last3_ends active zero_aggregate Hmany)
    as (Hlen3 & Hfirst & Hfinal).
  assert (Hin_first : In (nth (length active - 3) active zero_aggregate)
                        active) by (apply nth_In; lia).
  assert (Hin_final : In (nth (length active - 1) active zero_aggregate)
                        active) by (apply nth_In; lia).
  rewrite Forall_forall in Hflat.
  destruct (Hflat _ Hin_first) as [Hfi Hfe].
  destruct (Hflat _ Hin_final) as [Hli Hle].
  (* their savings rates *)
  pose proof (getMonthlyAggregates_each now incomes expenses_) as Heach.
  rewrite Forall_forall in Heach.
  assert (Hrate : savingsRate (nth (length active - 1) active zero_aggregate)
                  - savingsRate (nth (length active - 3) active
                                   zero_aggregate) == 0).
  { apply filter_In in Hin_first, Hin_final.
    destruct (Heach _ (proj1 Hin_first)) as (Hs1 & Hp1 & Hz1).
    destruct (Heach _ (proj1 Hin_final)) as (Hs2 & Hp2 & Hz2).
    destruct (Qlt_le_dec 0 v) as [Hv | Hv].
    - rewrite Hp1, Hp2 by lra. rewrite Hs1, Hs2, Hfi, Hfe, Hli, Hle. lra.
    - rewrite Hz1, Hz2 by lra. lra. }
  unfold getPredictions.
  destruct (Nat.ltb_spec (length active) 2) as [Hfew | _]; [lia |].
  cbv zeta. cbn [threeMonthProjection trend].
  rewrite Hlen3, Hfirst, Hfinal. rewrite !map_map. cbn [map pr_income pr_expenses pr_month].
  split; [| split; [| split]].
  - assert (Hpi : forall k mx n,
              Math_round
                (weighted_total income active
                   (recency_weights (length active))
                 / fold_left (fun s w0 => s + w0)
                     (recency_weights (length active)) 0
                 * (1 + (income (nth (length active - 1) active
                                   zero_aggregate)
                         - income (nth (length active - 3) active
                                     zero_aggregate)) / mx / n * k))
              = Math_round v).
    { intros k mx n. apply Math_round_comp.
      rewrite Havg_i, Hli, Hfi. unfold Qdiv. ring. }
    rewrite !Hpi. reflexivity.
  - assert (Hpe : forall k mx n,
              Math_round
                (weighted_total expenses active
                   (recency_weights (length active))
                 / fold_left (fun s w0 => s + w0)
                     (recency_weights (length active)) 0
                 * (1 + (expenses (nth (length active - 1) active
                                     zero_aggregate)
                         - expenses (nth (length active - 3) active
                                       zero_aggregate)) / mx / n * k))
              = Math_round w).
    { intros k mx n. apply Math_round_comp.
      rewrite Havg_e, Hle, Hfe. unfold Qdiv. ring. }
    rewrite !Hpe. reflexivity.
  - reflexivity.
  - unfold classify. repeat case_cmp; try reflexivity; lra.
Qed.

End FlatHistory.

Lemma getPredictions_flat_witness :
  (2 <= length (filter Analytics.is_active
                  (Analytics.getMonthlyAggregates Sample.now
                     Sample.flat_incomes Sample.flat_expenses)))%nat
  /\ Forall (fun a => Analytics.income a == 100 /\ Analytics.expenses a == 40)
       (filter Analytics.is_active
          (Analytics.getMonthlyAggregates Sample.now Sample.flat_incomes
             Sample.flat_expenses))
  /\ map Analytics.pr_income
       (Analytics.threeMonthProjection
          (Analytics.getPredictions Sample.now Sample.flat_incomes
             Sample.flat_expenses))
     = [100; 100; 100]
  /\ Analytics.trend
       (Analytics.getPredictions Sample.now Sample.flat_incomes
          Sample.flat_expenses)
     = Analytics.stable.
Proof.
  assert (Hmany : (2 <= length (filter Analytics.is_active
                                  (Analytics.getMonthlyAggregates Sample.now
                                     Sample.flat_incomes
                                     Sample.flat_expenses)))%nat)
    by (vm_compute; lia).
  assert (Hflat : Forall (fun a => Analytics.income a == 100
                                   /\ Analytics.expenses a == 40)
                    (filter Analytics.is_active
                       (Analytics.getMonthlyAggregates Sample.now
                          Sample.flat_incomes Sample.flat_expenses)))
    by (vm_compute; repeat (constructor; [split; reflexivity |]);
        constructor).
  split; [exact Hmany |]. split; [exact Hflat |].
  destruct (getPredictions_flat Sample.now Sample.flat_incomes
              Sample.flat_expenses 100 40 Hmany Hflat)
    as (Hinc & _ & _ & Htrend).
  split; [exact Hinc | exact Htrend].
Defined.

(** ** Insights: what every non-trivial report contains *)

Section InsightBounds.
Context {rt : Runtime}.
Import Analytics Insights.

Lemma when_true (c : bool) (l : list AIInsight) : c = true -> when c l = l.
Proof. intros ->. reflexivity. Qed.

(** The tiers of the savings rate leave no gap: one of them fires. *)
Lemma savings_performance_nonempty (savingsRate balance : Q)
    (yearly : YearlySummary) :
  (1 <= length (savings_performance savingsRate balance yearly))%nat.
Proof.
  unfold savings_performance.
  destruct (Qlt_le_dec savingsRate 0) as [H0 | H0].
  { rewrite (when_true (Qltb savingsRate 0)) by (apply Qltb_lt; exact H0).
    cbn [push app length]. lia. }
  rewrite !length_app.
  destruct (Qlt_le_dec savingsRate 5) as [H5 | H5].
  { rewrite (when_true (Qgeb savingsRate 0 && Qltb savingsRate 5))
      by (apply andb_true_iff; split; [apply Qgeb_ge | apply Qltb_lt];
          assumption).
    cbn [push app length]. lia. }
  destruct (Qlt_le_dec savingsRate 10) as [H10 | H10].
  { rewrite (when_true (Qgeb savingsRate 5 && Qltb savingsRate 10))
      by (apply andb_true_iff; split; [apply Qgeb_ge | apply Qltb_lt];
          assumption).
    cbn [push app length]. lia. }
  destruct (Qlt_le_dec savingsRate 20) as [H20 | H20].
  { rewrite (when_true (Qgeb savingsRate 10 && Qltb savingsRate 20))
      by (apply andb_true_iff; split; [apply Qgeb_ge | apply Qltb_lt];
          assumption).
    cbn [push app length]. lia. }
  destruct (Qlt_le_dec savingsRate 35) as [H35 | H35].
  { rewrite (when_true (Qgeb savingsRate 20 && Qltb savingsRate 35))
      by (apply andb_true_iff; split; [apply Qgeb_ge | apply Qltb_lt];
          assumption).
    cbn [push app length]. lia. }
  destruct (Qlt_le_dec savingsRate 50) as [H50 | H50].
  { rewrite (when_true (Qgeb savingsRate 35 && Qltb savingsRate 50))
      by (apply andb_true_iff; split; [apply Qgeb_ge | apply Qltb_lt];
          assumption).
    cbn [push app length]. lia. }
  rewrite (when_true (Qgeb savingsRate 50)) by (apply Qgeb_ge; exact H50).
  cbn [push app length]. lia.
Qed.

(** The health score is always reported. *)
Lemma positive_reinforcement_nonempty (savingsRate : Q)
    (health : FinancialHealthScore) (currentMonth : MonthStats)
    (active : list MonthlyAggregate) :
  (1 <= length (positive_reinforcement savingsRate health currentMonth
                  active))%nat.
Proof.
  unfold positive_reinforcement. rewrite length_app.
  destruct (Qgeb (hs_score health) 80); [cbn [push length]; lia |].
  destruct (Qgeb (hs_score health) 60); cbn [push length]; lia.
Qed.

(** X9. When the incomes or the expenses do not add up to zero, the
    report ends with the three general tips, and before them it has at
    least two insights: one on the savings rate and one on the health
    score. *)
Theorem generateInsights_with_records (now : Date) (incomes : list Income)
    (expenses_ : list Expense) :
  ~ (fold_left (fun s i => s + i_amount i) incomes 0 == 0
     /\ fold_left (fun s e => s + e_amount e) expenses_ 0 == 0) ->
  exists rules,
    generateInsights now incomes expenses_ = rules ++ general_tips
    /\ (2 <= length rules)%nat.
Proof.
  intros Hsome. unfold generateInsights. cbv zeta.
  destruct (Qeqb _ 0 && Qeqb _ 0) eqn:Hzero.
  - exfalso. apply Hsome. apply andb_true_iff in Hzero.
    destruct Hzero as [Hinc Hexp]. split; apply Qeqb_eq; assumption.
  - rewrite !app_assoc. eexists. split; [reflexivity |].
    rewrite !length_app.
    match goal with
    | |- context [length (savings_performance ?r ?b ?y)] =>
        pose proof (savings_performance_nonempty r b y)
    end.
    match goal with
    | |- context [length (positive_reinforcement ?r ?h ?c ?a)] =>
        pose proof (positive_reinforcement_nonempty r h c a)
    end.
    lia.
Qed.

End InsightBounds.

Lemma generateInsights_with_records_witness :
  ~ (fold_left (fun s i => s + i_amount i) Sample.incomes 0 == 0
     /\ fold_left (fun s e => s + e_amount e) Sample.expenses 0 == 0)
  /\ exists rules,
       Insights.generateInsights (rt := Sample.runtime) Sample.now
         Sample.incomes Sample.expenses
       = rules ++ Insights.general_tips
       /\ (2 <= length rules)%nat.
Proof.
  assert (Hsome : ~ (fold_left (fun s i => s + i_amount i) Sample.incomes 0
                     == 0
                     /\ fold_left (fun s e => s + e_amount e)
                          Sample.expenses 0 == 0))
    by (intros [Hinc _]; vm_compute in Hinc; discriminate).
  split; [exact Hsome |].
  exact (generateInsights_with_records (rt := Sample.runtime) Sample.now
           Sample.incomes Sample.expenses Hsome).
Defined.

(** ** Savings plan: months and timeline *)

Section SavingsPlan.
Context {rt : Runtime}.
Import Planner.
Variables (p : FinancialProfile) (d : PurchaseDetails).

(** The monthly saving in effect. *)
Local Abbreviation saving :=
  (opt_or (monthlySavingForPurchase d) (num_or (extraSavingPerMonth p) 1)).
Local Abbreviation plan := (analyzeSavings p d).

(** X10. With a positive monthly saving and a price above the existing
    savings, the months required are the least number of monthly savings
    that brings the savings up to the price. *)
Theorem analyzeSavings_months_minimal :
  0 < saving ->
  existingSavings p < actualPrice d ->
  (0 < monthsRequired (analyzeSavings p d))%Z
  /\ actualPrice d
     <= existingSavings p
        + saving * inject_Z (monthsRequired (analyzeSavings p d))
  /\ existingSavings p
     + saving * inject_Z (monthsRequired (analyzeSavings p d) - 1)
     < actualPrice d.
Proof.
  intros Hpos Hshort. unfold analyzeSavings. cbv zeta.
  cbn [monthsRequired].
  set (rem := Math_max 0 (actualPrice d - existingSavings p)).
  assert (Hrem : rem == actualPrice d - existingSavings p)
    by (unfold rem; minmax; lra).
  replace (Qgtb rem 0) with true by (symmetry; apply Qgtb_gt; lra).
  unfold Math_ceil.
  pose proof (Qle_ceiling (rem / saving)) as Hup.
  pose proof (Qceiling_lt (rem / saving)) as Hlow.
  set (n := Qceiling (rem / saving)) in *.
  assert (Hdiv : rem / saving * saving == rem) by (field; lra).
  assert (Hup' : rem <= inject_Z n * saving).
  { rewrite <- Hdiv. apply Qmult_le_compat_r; lra. }
  assert (Hlow' : inject_Z (n - 1) * saving < rem).
  { rewrite <- Hdiv. apply Qmult_lt_compat_r; lra. }
  split; [| split; lra].
  rewrite Zlt_Qlt. change (inject_Z 0) with 0.
  destruct (Qlt_le_dec 0 (inject_Z n)) as [Hn | Hn]; [exact Hn |].
  exfalso.
  assert (inject_Z n * saving <= 0 * saving)
    by (apply Qmult_le_compat_r; lra).
  lra.
Qed.

Lemma last_loop_upto {X : Type} (f : Z -> X) (n : Z) (dflt : X) :
  (0 <= n)%Z -> last (map f (loop_upto n)) dflt = f n.
Proof.
  intros Hn. unfold loop_upto.
  replace (Z.to_nat (n + 1)) with (S (Z.to_nat n)) by lia.
  rewrite seq_S, !map_app. cbn [map]. rewrite last_last.
  f_equal. cbn [plus]. lia.
Qed.

(** X11. With a positive monthly saving and at most 60 months required,
    the timeline ends in the month required, with the whole price
    accumulated and nothing remaining. *)
Theorem analyzeSavings_timeline_ends :
  0 < saving ->
  (monthsRequired (analyzeSavings p d) <= 60)%Z ->
  tl_month (last (savingsGrowthTimeline (analyzeSavings p d))
              {| tl_month := 0; accumulated := 0; remaining := 0 |})
  = monthsRequired (analyzeSavings p d)
  /\ accumulated (last (savingsGrowthTimeline (analyzeSavings p d))
                    {| tl_month := 0; accumulated := 0; remaining := 0 |})
     == actualPrice d
  /\ remaining (last (savingsGrowthTimeline (analyzeSavings p d))
                  {| tl_month := 0; accumulated := 0; remaining := 0 |})
     == 0.
Proof.
  intros Hpos Hfew.
  pose proof (analyzeSavings_months_nonneg p d Hpos) as Hnonneg.
  assert (Hreach : actualPrice d
                   <= existingSavings p
                      + saving * inject_Z (monthsRequired plan)).
  { destruct (Qlt_le_dec (existingSavings p) (actualPrice d)) as [Hlt | Hge].
    - revert Hpos Hlt. clear. intros Hpos Hlt.
      unfold analyzeSavings. cbv zeta. cbn [monthsRequired].
      set (rem := Math_max 0 (actualPrice d - existingSavings p)).
      assert (Hrem : rem == actualPrice d - existingSavings p)
        by (unfold rem; minmax; lra).
      replace (Qgtb rem 0) with true by (symmetry; apply Qgtb_gt; lra).
      unfold Math_ceil.
      pose proof (Qle_ceiling (rem / saving)) as Hup.
      assert (Hdiv : rem / saving * saving == rem) by (field; lra).
      assert (Hup' : rem <= inject_Z (Qceiling (rem / saving)) * saving).
      { rewrite <- Hdiv at 1. apply Qmult_le_compat_r; lra. }
      lra.
    - assert (0 <= saving * inject_Z (monthsRequired plan)).
      { apply Qmult_le_0_compat; [lra |].
        change 0 with (inject_Z 0). rewrite <- Zle_Qle. exact Hnonneg. }
      lra. }
  revert Hfew Hnonneg Hreach. unfold analyzeSavings. cbv zeta.
  cbn [monthsRequired savingsGrowthTimeline].
  set (n := if Qgtb _ 0 then _ else 0%Z). intros Hfew Hnonneg Hreach.
  rewrite Z.min_l by exact Hfew.
  rewrite last_loop_upto by exact Hnonneg.
  cbn [tl_month accumulated remaining].
  split; [reflexivity |]. split; minmax; lra.
Qed.

(** X12. When the existing savings cover the price, no month is
    required, the purchase is feasible within the year, no interest is
    counted as avoided, and the timeline is the single starting point,
    with the whole price accumulated and nothing remaining. *)
Theorem analyzeSavings_already_affordable :
  actualPrice d <= existingSavings p ->
  monthsRequired (analyzeSavings p d) = 0%Z
  /\ isFeasibleWithinYear (analyzeSavings p d) = true
  /\ delayBenefitAmount (analyzeSavings p d) == 0
  /\ length (savingsGrowthTimeline (analyzeSavings p d)) = 1%nat
  /\ Forall (fun e => tl_month e = 0%Z
                      /\ accumulated e == actualPrice d
                      /\ remaining e == 0)
       (savingsGrowthTimeline (analyzeSavings p d)).
Proof.
  intros Hcovered. unfold analyzeSavings. cbv zeta.
  cbn [monthsRequired isFeasibleWithinYear delayBenefitAmount
       savingsGrowthTimeline].
  set (rem := Math_max 0 (actualPrice d - existingSavings p)).
  assert (Hrem : rem == 0) by (unfold rem; minmax; lra).
  replace (Qgtb rem 0) with false by (symmetry; apply Qgtb_le; lra).
  split; [reflexivity |]. split; [reflexivity |].
  split.
  { unfold fmt. rewrite (Math_round_comp _ 0); [reflexivity |].
    change (inject_Z 0) with 0. unfold Qdiv. ring. }
  change (loop_upto (Z.min 0 60)) with [0%Z]. cbn [map length].
  split; [reflexivity |].
  constructor; [| constructor].
  cbn [tl_month accumulated remaining]. change (inject_Z 0) with 0.
  split; [reflexivity |]. split; minmax; lra.
Qed.

End SavingsPlan.

Lemma analyzeSavings_months_minimal_witness :
  0 < opt_or (Planner.monthlySavingForPurchase Sample.saving)
        (num_or (Planner.extraSavingPerMonth Sample.profile) 1)
  /\ Planner.existingSavings Sample.profile
     < Planner.actualPrice Sample.saving
  /\ (0 < Planner.monthsRequired
            (Planner.analyzeSavings (rt := Sample.runtime) Sample.profile
               Sample.saving))%Z.
Proof.
  assert (Hpos : 0 < opt_or (Planner.monthlySavingForPurchase Sample.saving)
                       (num_or (Planner.extraSavingPerMonth Sample.profile)
                          1))
    by reflexivity.
  assert (Hshort : Planner.existingSavings Sample.profile
                   < Planner.actualPrice Sample.saving)
    by reflexivity.
  split; [exact Hpos |]. split; [exact Hshort |].
  exact (proj1 (analyzeSavings_months_minimal (rt := Sample.runtime)
                  Sample.profile Sample.saving Hpos Hshort)).
Defined.

Lemma analyzeSavings_timeline_ends_witness :
  0 < opt_or (Planner.monthlySavingForPurchase Sample.saving)
        (num_or (Planner.extraSavingPerMonth Sample.profile) 1)
  /\ (Planner.monthsRequired
        (Planner.analyzeSavings (rt := Sample.runtime) Sample.profile
           Sample.saving) <= 60)%Z
  /\ Planner.tl_month
       (last (Planner.savingsGrowthTimeline
                (Planner.analyzeSavings (rt := Sample.runtime)
                   Sample.profile Sample.saving))
          {| Planner.tl_month := 0; Planner.accumulated := 0;
             Planner.remaining := 0 |})
     = Planner.monthsRequired
         (Planner.analyzeSavings (rt := Sample.runtime) Sample.profile
            Sample.saving).
Proof.
  assert (Hpos : 0 < opt_or (Planner.monthlySavingForPurchase Sample.saving)
                       (num_or (Planner.extraSavingPerMonth Sample.profile)
                          1))
    by reflexivity.
  assert (Hfew : (Planner.monthsRequired
                    (Planner.analyzeSavings (rt := Sample.runtime)
                       Sample.profile Sample.saving) <= 60)%Z)
    by (vm_compute; discriminate).
  split; [exact Hpos |]. split; [exact Hfew |].
  exact (proj1 (analyzeSavings_timeline_ends (rt := Sample.runtime)
                  Sample.profile Sample.saving Hpos Hfew)).
Defined.

Lemma analyzeSavings_already_affordable_witness :
  Planner.actualPrice Sample.saving <= Planner.existingSavings Sample.saver
  /\ Planner.monthsRequired
       (Planner.analyzeSavings (rt := Sample.runtime) Sample.saver
          Sample.saving) = 0%Z.
Proof.
  assert (Hcovered : Planner.actualPrice Sample.saving
                     <= Planner.existingSavings Sample.saver)
    by (vm_compute; discriminate).
  split; [exact Hcovered |].
  exact (proj1 (analyzeSavings_already_affordable (rt := Sample.runtime)
                  Sample.saver Sample.saving Hcovered)).
Defined.

(** ** Instalment plan: totals and the affordability flag *)

Section InstalmentPlan.
Context {rt : Runtime}.
Import Planner.
Variables (p : FinancialProfile) (d : PurchaseDetails).

Local Abbreviation plan := (analyzeEMI p d).

Lemma opt_or_nonzero (x : option Q) (dflt : Q) :
  ~ dflt == 0 -> ~ opt_or x dflt == 0.
Proof.
  intros Hd. destruct x as [v |]; simpl; [| exact Hd].
  unfold num_or. case_cmp; assumption.
Qed.

(** X13. Without interest (no rate given, or a rate of zero) the plan
    counts no interest, and the total paid is the rounded price. *)
Theorem analyzeEMI_zero_interest :
  opt_or (interestRate d) 0 == 0 ->
  totalInterestPaid (analyzeEMI p d) == 0
  /\ totalAmountWithInterest (analyzeEMI p d)
     == inject_Z (Math_round (actualPrice d))
  /\ emiAmount (analyzeEMI p d)
     == inject_Z (Math_round
                    ((actualPrice d - opt_or (downPayment d) 0)
                     / opt_or (emiTenureMonths d) 12)).
Proof.
  intros Hrate. unfold analyzeEMI. cbv zeta.
  cbn [totalInterestPaid totalAmountWithInterest emiAmount].
  unfold calculateEMI.
  replace (Qeqb (opt_or (interestRate d) 0) 0) with true
    by (symmetry; apply Qeqb_eq; exact Hrate).
  pose proof (opt_or_nonzero (emiTenureMonths d) 12 ltac:(discriminate))
    as Htenure.
  set (tenure := opt_or (emiTenureMonths d) 12) in *.
  set (down := opt_or (downPayment d) 0).
  assert (Htotal : (actualPrice d - down) / tenure * tenure + down
                   == actualPrice d) by (field; exact Htenure).
  unfold fmt. split; [| split].
  - rewrite (Math_round_comp _ 0); [reflexivity |]. rewrite Htotal. ring.
  - rewrite (Math_round_comp _ (actualPrice d)); [reflexivity | exact Htotal].
  - reflexivity.
Qed.

Lemma Qfloor_le_of_lt (x : Q) (z : Z) :
  x < inject_Z z + 1 -> (Qfloor x <= z)%Z.
Proof.
  intros Hx. apply Z.lt_succ_r. rewrite Zlt_Qlt.
  apply Qle_lt_trans with x; [apply Qfloor_le |].
  unfold Z.succ. rewrite inject_Z_plus. exact Hx.
Qed.

Lemma Qfloor_ge_of_le (x : Q) (z : Z) :
  inject_Z z <= x -> (z <= Qfloor x)%Z.
Proof.
  intros Hx. rewrite <- (Qfloor_Z z). apply Qfloor_resp_le. exact Hx.
Qed.

(** X14. The burden shown, rounded to one decimal, never contradicts the
    flag: an affordable plan shows at most 40 percent, a plan that is not
    affordable at least 40. *)
Theorem analyzeEMI_flag_and_burden :
  if isAffordable (analyzeEMI p d)
  then emiBurdenPercent (analyzeEMI p d) <= 40
  else 40 <= emiBurdenPercent (analyzeEMI p d).
Proof.
  unfold analyzeEMI. cbv zeta. cbn [isAffordable emiBurdenPercent].
  set (burden := if Qgtb _ 0 then _ else 100).
  case_cmp.
  - apply Qle_shift_div_r; [reflexivity |].
    change (40 * 10) with (inject_Z 400). rewrite <- Zle_Qle.
    unfold Math_round. apply Qfloor_le_of_lt.
    change (inject_Z 400) with 400. lra.
  - apply Qle_shift_div_l; [reflexivity |].
    change (40 * 10) with (inject_Z 400). rewrite <- Zle_Qle.
    unfold Math_round. apply Qfloor_ge_of_le.
    change (inject_Z 400) with 400. lra.
Qed.

End InstalmentPlan.

Lemma analyzeEMI_zero_interest_witness :
  opt_or (Planner.interestRate Sample.purchase) 0 == 0
  /\ Planner.totalInterestPaid
       (Planner.analyzeEMI (rt := Sample.runtime) Sample.profile
          Sample.purchase) == 0.
Proof.
  assert (Hrate : opt_or (Planner.interestRate Sample.purchase) 0 == 0)
    by reflexivity.
  split; [exact Hrate |].
  exact (proj1 (analyzeEMI_zero_interest (rt := Sample.runtime)
                  Sample.profile Sample.purchase Hrate)).
Defined.

(** ** Purchase score *)

Section PurchaseScoreBounds.
Import Planner.
Variables (p : FinancialProfile) (e : option EMIAnalysis)
  (s : option SavingsAnalysis).

Local Abbreviation result := (calculatePurchaseScore p e s).

(** The five sub-scores, within the range of their tiers. *)
Lemma calculatePurchaseScore_factors :
  exists afford impact cushion time debt,
    map Analytics.score (ps_factors result)
    = [afford; impact; cushion; time; debt]
    /\ (10 <= afford /\ afford <= 95)
    /\ (10 <= impact /\ impact <= 90)
    /\ (15 <= cushion /\ cushion <= 95)
    /\ (20 <= time /\ time <= 90)
    /\ (10 <= debt /\ debt <= 90).
Proof.
  unfold calculatePurchaseScore. cbv zeta.
  cbn [ps_factors map Analytics.score].
  do 5 eexists. split; [reflexivity |].
  split; [| split; [| split; [| split]]].
  - destruct e as [ea |]; [| destruct s as [sa |]].
    + repeat case_cmp; lra.
    + repeat match goal with
             | |- context [(?a <=? ?b)%Z] => destruct (a <=? b)%Z
             end; lra.
    + lra.
  - match goal with
    | |- context [Qgeb ?r 20] => generalize r
    end.
    intros r. repeat case_cmp; lra.
  - match goal with
    | |- context [Qgeb ?r 6] => generalize r
    end.
    intros r. repeat case_cmp; lra.
  - destruct s as [sa |]; [| lra].
    repeat match goal with
           | |- context [(?a <=? ?b)%Z] => destruct (a <=? b)%Z
           end; lra.
  - destruct e as [ea |]; [| lra].
    destruct (isAffordable ea); [lra |]. case_cmp; lra.
Qed.

(** X15. The purchase score is the rounded weighted sum of five
    sub-scores with weights that add up to 1; it lies between 13 and 93,
    and the feasibility is safe from 65, moderate from 40 and risky
    below. *)
Theorem calculatePurchaseScore_spec :
  (13 <= ps_score result /\ ps_score result <= 93)
  /\ ps_score result
     = inject_Z (Math_round (Analytics.weighted_sum (ps_factors result)))
  /\ length (ps_factors result) = 5%nat
  /\ Qsum (map Analytics.weight (ps_factors result)) == 1
  /\ Forall (fun f => 10 <= Analytics.score f /\ Analytics.score f <= 95)
       (ps_factors result)
  /\ match feasibility result with
     | safe => 65 <= ps_score result
     | moderate => 40 <= ps_score result /\ ps_score result < 65
     | risky => ps_score result < 40
     end.
Proof.
  destruct calculatePurchaseScore_factors
    as (a & i & c & t & db & Hscores & Ha & Hi & Hc & Ht & Hd).
  assert (Hround : ps_score result
                   = inject_Z (Math_round
                                 (Analytics.weighted_sum (ps_factors result))))
    by reflexivity.
  assert (Hweights : map Analytics.weight (ps_factors result)
                     = [3 # 10; 25 # 100; 2 # 10; 15 # 100; 1 # 10])
    by reflexivity.
  assert (Hsum : Analytics.weighted_sum (ps_factors result)
                 == a * (3 # 10) + i * (25 # 100) + c * (2 # 10)
                    + t * (15 # 100) + db * (1 # 10)).
  { unfold Analytics.weighted_sum. rewrite reduce_total.
    remember (ps_factors result) as fs eqn:Hfs. clear Hfs Hround.
    destruct fs as [| f1 [| f2 [| f3 [| f4 [| f5 [| ? ?]]]]]];
      try discriminate.
    cbn [map] in Hscores, Hweights.
    inversion Hscores; inversion Hweights; subst.
    cbn [total_of].
    repeat match goal with
           | H : Analytics.weight _ = _ |- _ => rewrite H; clear H
           end.
    ring. }
  split; [| split; [| split; [| split; [| split]]]].
  - rewrite Hround. unfold Math_round. split.
    + change 13 with (inject_Z 13). rewrite <- Zle_Qle.
      apply Qfloor_ge_of_le. change (inject_Z 13) with 13. lra.
    + change 93 with (inject_Z 93). rewrite <- Zle_Qle.
      apply Qfloor_le_of_lt. change (inject_Z 93) with 93. lra.
  - exact Hround.
  - reflexivity.
  - rewrite Hweights. reflexivity.
  - apply Forall_forall. intros f Hin.
    apply (in_map Analytics.score) in Hin. rewrite Hscores in Hin.
    simpl in Hin.
    destruct Hin as [<- | [<- | [<- | [<- | [<- | []]]]]]; lra.
  - assert (Hfeas : feasibility result = feasibility_of (ps_score result))
      by reflexivity.
    rewrite Hfeas. unfold feasibility_of.
    repeat case_cmp; repeat split; assumption.
Qed.

End PurchaseScoreBounds.

(** ** Comparison: the break-even month *)

Section BreakEven.
Import Planner.

(** After the month [start - 1] the loop holds the sums of [start - 1]
    instalments and savings; from there on the break-even month is 1 when
    the monthly saving covers the instalment, and is never set
    otherwise. *)
Lemma break_even_fold (emiAmount_ monthlySaving : Q) (len start : nat)
    (st : BreakEvenState) :
  (1 <= start)%nat ->
  cumulEMI st == inject_Z (Z.of_nat (start - 1)) * emiAmount_ ->
  cumulSave st == inject_Z (Z.of_nat (start - 1)) * monthlySaving ->
  breakEven st
  = (if (start =? 1)%nat then 0%Z
     else if Qgeb monthlySaving emiAmount_ then 1%Z else 0%Z) ->
  breakEven
    (fold_left (break_even_step emiAmount_ monthlySaving)
       (map Z.of_nat (seq start len)) st)
  = if (len =? 0)%nat then breakEven st
    else if Qgeb monthlySaving emiAmount_ then 1%Z else 0%Z.
Proof.
  revert start st. induction len as [| len IH]; intros start st Hstart He Hs Hb.
  - reflexivity.
  - cbn [seq map fold_left Nat.eqb].
    set (st1 := break_even_step emiAmount_ monthlySaving st
                  (Z.of_nat start)).
    assert (Hn : inject_Z (Z.of_nat start)
                 == inject_Z (Z.of_nat (start - 1)) + 1).
    { change 1 with (inject_Z 1). rewrite <- inject_Z_plus.
      apply inject_Z_injective. lia. }
    assert (Hpos : 0 < inject_Z (Z.of_nat start)).
    { change 0 with (inject_Z 0). rewrite <- Zlt_Qlt. lia. }
    assert (He1 : cumulEMI st1 == inject_Z (Z.of_nat start) * emiAmount_)
      by (unfold st1; cbn [break_even_step cumulEMI]; rewrite He, Hn; ring).
    assert (Hs1 : cumulSave st1 == inject_Z (Z.of_nat start) * monthlySaving)
      by (unfold st1; cbn [break_even_step cumulSave]; rewrite Hs, Hn; ring).
    assert (Hge : Qgeb (cumulSave st + monthlySaving)
                    (cumulEMI st + emiAmount_)
                  = Qgeb monthlySaving emiAmount_).
    { assert (Hiff : cumulEMI st + emiAmount_ <= cumulSave st + monthlySaving
                     <-> emiAmount_ <= monthlySaving).
      { rewrite He, Hs.
        setoid_replace
          (inject_Z (Z.of_nat (start - 1)) * emiAmount_ + emiAmount_)
          with (inject_Z (Z.of_nat start) * emiAmount_) by (rewrite Hn; ring).
        setoid_replace
          (inject_Z (Z.of_nat (start - 1)) * monthlySaving + monthlySaving)
          with (inject_Z (Z.of_nat start) * monthlySaving)
          by (rewrite Hn; ring).
        apply Qmult_le_l. exact Hpos. }
      destruct (Qgeb monthlySaving emiAmount_) eqn:E.
      - apply Qgeb_ge. apply Hiff. apply Qgeb_ge. exact E.
      - apply Qgeb_lt. apply Qgeb_lt in E.
        apply Qnot_le_lt. intros Hle. apply Hiff in Hle. lra. }
    assert (Hb1 : breakEven st1
                  = if Qgeb monthlySaving emiAmount_ then 1%Z else 0%Z).
    { unfold st1. cbn [break_even_step breakEven]. rewrite Hge, Hb.
      destruct (Nat.eqb_spec start 1) as [-> | Hne].
      - destruct (Qgeb monthlySaving emiAmount_); reflexivity.
      - destruct (Qgeb monthlySaving emiAmount_); reflexivity. }
    rewrite (IH (S start) st1).
    + rewrite Hb1. destruct (len =? 0)%nat; reflexivity.
    + lia.
    + replace (S start - 1)%nat with start by lia. exact He1.
    + replace (S start - 1)%nat with start by lia. exact Hs1.
    + rewrite Hb1. destruct (Nat.eqb_spec (S start) 1); [lia | reflexivity].
Qed.

(** X16. The break-even month of the comparison is month 1 when the
    monthly saving of the details is at least the instalment, and
    otherwise the number of months the savings plan requires. *)
Theorem generateComparison_breakEven (emi : EMIAnalysis)
    (savings_ : SavingsAnalysis) (details : PurchaseDetails) :
  breakEvenMonth (generateComparison emi savings_ details)
  = if Qgeb (opt_or (monthlySavingForPurchase details) 0) (emiAmount emi)
    then 1%Z else monthsRequired savings_.
Proof.
  unfold generateComparison. cbv zeta. cbn [breakEvenMonth].
  unfold loop_from_1.
  set (bound := Math_max _ 60).
  assert (Hbound : (60 <= Qfloor bound)%Z).
  { apply Qfloor_ge_of_le. change (inject_Z 60) with 60.
    unfold bound. minmax; lra. }
  rewrite (break_even_fold _ _ (Z.to_nat (Qfloor bound)) 1);
    [| lia | cbn; ring | cbn; ring | reflexivity].
  destruct (Nat.eqb_spec (Z.to_nat (Qfloor bound)) 0) as [Hzero | _];
    [lia |].
  destruct (Qgeb _ (emiAmount emi)); reflexivity.
Qed.

End BreakEven.

(** ** The previews of the planner page *)

Section Previews.
Context {rt : Runtime}.
Import Planner PlannerPage.
Variables (p : FinancialProfile) (d : PurchaseDetails).

Lemma monthly_rate_zero (rate : Q) : Qeqb (rate / 12 / 100) 0 = Qeqb rate 0.
Proof.
  destruct (Qeqb rate 0) eqn:E.
  - apply Qeqb_eq in E. apply Qeqb_eq. rewrite E. reflexivity.
  - apply Qeqb_neq in E. apply Qeqb_neq. intros Hzero. apply E.
    setoid_replace rate with (rate / 12 / 100 * 1200) by field.
    rewrite Hzero. reflexivity.
Qed.

(** X17. When the page shows a preview of the instalment, its amount and
    its total are those the analysis of the same details reports. *)
Theorem emiPreview_agrees (pv : EmiPreview) :
  emiPreview d = Some pv ->
  emi pv = emiAmount (analyzeEMI p d)
  /\ ep_total pv = totalAmountWithInterest (analyzeEMI p d).
Proof.
  unfold emiPreview. cbv zeta.
  destruct (mode d); try discriminate.
  destruct (Qeqb (actualPrice d) 0); [discriminate |].
  destruct (Qleb _ 0); [discriminate |].
  intros Hpv. inversion Hpv; subst pv. clear Hpv. cbn [emi ep_total].
  unfold analyzeEMI. cbv zeta.
  cbn [emiAmount totalAmountWithInterest]. unfold calculateEMI, fmt.
  cbv zeta. rewrite monthly_rate_zero. split; reflexivity.
Qed.

(** X18. When the page shows a preview of the savings plan, its months
    and years are those the analysis of the same profile and details
    reports. *)
Theorem savingsPreview_agrees (pv : SavingsPreview) :
  savingsPreview p d = Some pv ->
  months pv = monthsRequired (analyzeSavings p d)
  /\ years pv = yearsRequired (analyzeSavings p d).
Proof.
  unfold savingsPreview. cbv zeta.
  assert (Hmonths :
            Math_ceil
              (Math_max 0 (actualPrice d - existingSavings p)
               / opt_or (monthlySavingForPurchase d)
                   (num_or (extraSavingPerMonth p) 1))
            = monthsRequired (analyzeSavings p d)).
  { unfold analyzeSavings. cbv zeta. cbn [monthsRequired].
    case_cmp; [reflexivity |].
    assert (Hrem : Math_max 0 (actualPrice d - existingSavings p) == 0)
      by (revert E; minmax; intros; lra).
    unfold Math_ceil. rewrite Hrem.
    unfold Qdiv. rewrite Qmult_0_l. reflexivity. }
  assert (Hyears : forall m,
            m = monthsRequired (analyzeSavings p d) ->
            inject_Z (Math_round (inject_Z m / 12 * 10)) / 10
            = yearsRequired (analyzeSavings p d))
    by (intros m ->; reflexivity).
  destruct (mode d); try discriminate;
    (destruct (Qeqb (actualPrice d) 0); [discriminate |]);
    intros Hpv; inversion Hpv; subst pv; cbn [months years];
    (split; [exact Hmonths | apply Hyears, Hmonths]).
Qed.

End Previews.

Lemma emiPreview_agrees_witness :
  PlannerPage.emiPreview (rt := Sample.runtime) Sample.purchase
  = Some {| PlannerPage.emi := inject_Z 10000;
            PlannerPage.ep_total := inject_Z 120000 |}
  /\ inject_Z 10000
     = Planner.emiAmount
         (Planner.analyzeEMI (rt := Sample.runtime) Sample.profile
            Sample.purchase).
Proof.
  assert (Hshown :
            PlannerPage.emiPreview (rt := Sample.runtime) Sample.purchase
            = Some {| PlannerPage.emi := inject_Z 10000;
                      PlannerPage.ep_total := inject_Z 120000 |})
    by (vm_compute; reflexivity).
  split; [exact Hshown |].
  exact (proj1 (emiPreview_agrees (rt := Sample.runtime) Sample.profile
                  Sample.purchase _ Hshown)).
Defined.

Lemma savingsPreview_agrees_witness :
  PlannerPage.savingsPreview Sample.profile Sample.saving
  = Some {| PlannerPage.months := 4;
            PlannerPage.years := inject_Z 3 / 10 |}
  /\ 4%Z
     = Planner.monthsRequired
         (Planner.analyzeSavings (rt := Sample.runtime) Sample.profile
            Sample.saving).
Proof.
  assert (Hshown :
            PlannerPage.savingsPreview Sample.profile Sample.saving
            = Some {| PlannerPage.months := 4;
                      PlannerPage.years := inject_Z 3 / 10 |})
    by (vm_compute; reflexivity).
  split; [exact Hshown |].
  exact (proj1 (savingsPreview_agrees (rt := Sample.runtime) Sample.profile
                  Sample.saving _ Hshown)).
Defined.

(** ** Simulation history *)

Section History.
Import Planner.
Context {R : Type}.

Lemma append_cancel (s a b : string) :
  (s ++ a)%string = (s ++ b)%string -> a = b.
Proof.
  induction s as [| c s IH]; simpl; intros H; [exact H |].
  inversion H. auto.
Qed.

Lemma history_key_inj (u u' : string) :
  history_key u = history_key u' -> u = u'.
Proof.
  unfold history_key. intros H.
  apply append_cancel in H. apply append_cancel in H. exact H.
Qed.

Lemma storage_remove_get {V : Type} (k k0 : string) (st : JsMap string V) :
  map_get String.eqb k0 (storage_remove k st)
  = if String.eqb k0 k then None else map_get String.eqb k0 st.
Proof.
  induction st as [| [k' v] st IH]; simpl.
  - destruct (String.eqb k0 k); reflexivity.
  - destruct (String.eqb k k') eqn:E1.
    + apply String.eqb_eq in E1. subst k'. rewrite IH.
      destruct (String.eqb k0 k); reflexivity.
    + simpl. destruct (String.eqb k0 k') eqn:E2.
      * apply String.eqb_eq in E2. subst k'.
        rewrite String.eqb_sym, E1. reflexivity.
      * exact IH.
Qed.

(** What a save leaves under each user. *)
Lemma saveSimulation_get (st : JsMap string (list R)) (u u' : string)
    (r : R) :
  getSimulationHistory (saveSimulation st u r) u'
  = if String.eqb u' u
    then (if (20 <? length (r :: getSimulationHistory st u))%nat
          then removelast (r :: getSimulationHistory st u)
          else r :: getSimulationHistory st u)
    else getSimulationHistory st u'.
Proof.
  unfold saveSimulation. cbv zeta. unfold getSimulationHistory at 1.
  rewrite (map_get_set String.eqb string_eqb_eq).
  destruct (String.eqb u' u) eqn:E.
  - apply String.eqb_eq in E. subst u'. rewrite String.eqb_refl.
    reflexivity.
  - destruct (String.eqb (history_key u') (history_key u)) eqn:E2;
      [| reflexivity].
    apply String.eqb_eq, history_key_inj in E2.
    apply String.eqb_neq in E. congruence.
Qed.

Lemma capped_history (r : R) (old : list R) :
  (length old <= 20)%nat ->
  (if (20 <? length (r :: old))%nat then removelast (r :: old)
   else r :: old)
  = firstn 20 (r :: old).
Proof.
  intros Hold. destruct (Nat.ltb_spec 20 (length (r :: old))) as [Hfull | Hroom].
  - rewrite removelast_firstn_len. f_equal. simpl in *. lia.
  - symmetry. apply firstn_all2. exact Hroom.
Qed.

(** X19. Saving a result into a history of at most 20 entries puts it
    first, keeps the earlier entries in their order, and drops the oldest
    one when there would be more than 20. *)
Theorem saveSimulation_newest_first (st : JsMap string (list R))
    (u : string) (r : R) :
  (length (getSimulationHistory st u) <= 20)%nat ->
  getSimulationHistory (saveSimulation st u r) u
  = firstn 20 (r :: getSimulationHistory st u)
  /\ (length (getSimulationHistory (saveSimulation st u r) u) <= 20)%nat.
Proof.
  intros Hold. rewrite saveSimulation_get, String.eqb_refl.
  rewrite capped_history by exact Hold.
  split; [reflexivity |]. rewrite length_firstn. lia.
Qed.

(** X20. Starting from an empty storage, whatever results are saved and
    for whichever users, no history ever has more than 20 entries. *)
Theorem saveSimulation_bounded (saves : list (string * R)) (u : string) :
  (length
     (getSimulationHistory
        (fold_left (fun st op => saveSimulation st (fst op) (snd op))
           saves [])
        u)
   <= 20)%nat.
Proof.
  enough (Hgen : forall st,
             (forall u', (length (getSimulationHistory st u') <= 20)%nat) ->
             forall u',
               (length
                  (getSimulationHistory
                     (fold_left
                        (fun st op => saveSimulation st (fst op) (snd op))
                        saves st) u') <= 20)%nat).
  { apply Hgen. intros u'. simpl. lia. }
  induction saves as [| [v r] saves IH]; intros st Hst u'; cbn [fold_left].
  - apply Hst.
  - apply IH. clear u'. intros u'. cbn [fst snd].
    rewrite saveSimulation_get.
    destruct (String.eqb u' v); [| apply Hst].
    rewrite capped_history by apply Hst.
    rewrite length_firstn. lia.
Qed.

(** X21. Saving or clearing the history of one user leaves the history
    of every other user as it was, and clearing leaves the user's own
    history empty. *)
Theorem history_isolated (st : JsMap string (list R)) (u u' : string)
    (r : R) :
  u' <> u ->
  getSimulationHistory (saveSimulation st u r) u'
  = getSimulationHistory st u'
  /\ getSimulationHistory (clearSimulationHistory st u) u'
     = getSimulationHistory st u'
  /\ getSimulationHistory (clearSimulationHistory st u) u = [].
Proof.
  intros Hother. split; [| split].
  - rewrite saveSimulation_get.
    replace (String.eqb u' u) with false
      by (symmetry; apply String.eqb_neq; exact Hother).
    reflexivity.
  - unfold clearSimulationHistory, getSimulationHistory.
    rewrite storage_remove_get.
    destruct (String.eqb (history_key u') (history_key u)) eqn:E;
      [| reflexivity].
    apply String.eqb_eq, history_key_inj in E. congruence.
  - unfold clearSimulationHistory, getSimulationHistory.
    rewrite storage_remove_get, String.eqb_refl. reflexivity.
Qed.

End History.

Lemma saveSimulation_newest_first_witness :
  (length (Planner.getSimulationHistory (R := nat) [] "u1") <= 20)%nat
  /\ Planner.getSimulationHistory
       (Planner.saveSimulation (Planner.saveSimulation [] "u1" 1%nat)
          "u1" 2%nat) "u1"
     = [2%nat; 1%nat].
Proof.
  assert (Hold : (length (Planner.getSimulationHistory
                            (Planner.saveSimulation (R := nat) [] "u1"
                               1%nat) "u1") <= 20)%nat)
    by (vm_compute; lia).
  split; [vm_compute; lia |].
  rewrite (proj1 (saveSimulation_newest_first _ "u1" 2%nat Hold)).
  reflexivity.
Defined.

Lemma history_isolated_witness :
  "u2"%string <> "u1"%string
  /\ Planner.getSimulationHistory
       (Planner.saveSimulation (Planner.saveSimulation [] "u2" 7%nat)
          "u1" 1%nat) "u2"
     = [7%nat].
Proof.
  assert (Hother : "u2"%string <> "u1"%string) by discriminate.
  split; [exact Hother |].
  rewrite (proj1 (history_isolated
                    (Planner.saveSimulation [] "u2" 7%nat) "u1" "u2" 1%nat
                    Hother)).
  reflexivity.
Defined.

(** ** Stacked category data *)

Section Stacked.
Import Analytics.
Variable now : Date.

Lemma init_stacked_spec :
  init_stacked now
  = map (fun i => (month_name ((getMonth now - i) mod 12), [])) last12
  /\ NoDup (map fst (init_stacked now))
  /\ (forall name,
        In name (map fst (init_stacked now)) <-> In name MONTH_NAMES).
Proof.
  assert (Hback : forall i,
             ((getMonth now - i) mod 12 = (getMonth now mod 12 - i) mod 12)%Z)
    by (intros i; rewrite Zminus_mod_idemp_l; reflexivity).
  unfold init_stacked, last12. cbn [fold_left map]. unfold Date_ym.
  cbn [getMonth]. rewrite !Hback.
  pose proof (Z.mod_pos_bound (getMonth now) 12 ltac:(lia)) as Hk.
  set (k := (getMonth now mod 12)%Z) in *. clearbody k.
  assert (Hcases :
            (k = 0 \/ k = 1 \/ k = 2 \/ k = 3 \/ k = 4 \/ k = 5 \/ k = 6
             \/ k = 7 \/ k = 8 \/ k = 9 \/ k = 10 \/ k = 11)%Z) by lia.
  repeat (destruct Hcases as [-> | Hcases]); try subst k;
    (split; [vm_compute; reflexivity |]);
    (split;
     [ cbv; repeat (constructor; [intros Hin; simpl in Hin;
                                   repeat (destruct Hin as [Hin | Hin];
                                           [discriminate |]);
                                   exact Hin |]);
       constructor
     | intros name; cbv; tauto ]).
Qed.

Variable expenses_ : list Expense.

(** The amount a record of category sums reads under [c] in the row
    [name]. *)
Local Abbreviation cell months name c :=
  (match map_get String.eqb name months with
   | Some cats => breakdown_get c cats
   | None => 0
   end).

Local Abbreviation spent name c es :=
  (total_of e_amount
     (filter (fun e => String.eqb (getMonthLabel (e_date e)) name
                       && String.eqb (e_category e) c) es)).

Lemma map_has_In {V : Type} (k : string) (m : JsMap string V) :
  map_has String.eqb k m = true <-> In k (map fst m).
Proof.
  unfold map_has.
  pose proof (map_get_None String.eqb string_eqb_eq k m) as Hnone.
  destruct (map_get String.eqb k m).
  - split; [| reflexivity]. intros _.
    destruct (in_dec string_dec k (map fst m)) as [Hin | Hout];
      [exact Hin |].
    apply Hnone in Hout. discriminate.
  - split; [discriminate |]. intros Hin. exfalso.
    apply (proj1 Hnone); [reflexivity | exact Hin].
Qed.

Lemma breakdown_get_add (x : Q) (c c' : string) (m : JsMap string Q) :
  breakdown_get c' (add_to_row x c m)
  == breakdown_get c' m + (if String.eqb c c' then x else 0).
Proof.
  unfold add_to_row. unfold breakdown_get at 1.
  rewrite (map_get_set String.eqb string_eqb_eq).
  rewrite (String.eqb_sym c c').
  destruct (String.eqb c' c) eqn:E.
  - apply String.eqb_eq in E. subst c'. rewrite num_or_zero. reflexivity.
  - fold (breakdown_get c' m). lra.
Qed.

Lemma set_add_spec (x : string) (s : list string) :
  NoDup s ->
  NoDup (set_add x s) /\ (forall c, In c (set_add x s) <-> c = x \/ In c s).
Proof.
  intros Hnd. unfold set_add.
  destruct (existsb (String.eqb x) s) eqn:E.
  - split; [exact Hnd |]. intros c. split; [tauto |].
    intros [-> | Hin]; [| exact Hin].
    apply existsb_exists in E. destruct E as (y & Hy & Heq).
    apply String.eqb_eq in Heq. subst y. exact Hy.
  - assert (Hout : ~ In x s).
    { intros Hin. apply Bool.not_true_iff_false in E. apply E.
      apply existsb_exists. exists x. split; [exact Hin |].
      apply String.eqb_refl. }
    split.
    + apply NoDup_app; [exact Hnd | repeat constructor; simpl; tauto |].
      intros a Ha [<- | []]. exact (Hout Ha).
    + intros c. rewrite in_app_iff. simpl. intuition.
Qed.

(** What the pass over the expenses keeps. *)
Local Abbreviation stacked_inv pre st :=
  (map fst (fst st) = map fst (init_stacked now)
   /\ (forall name c,
         In name (map fst (init_stacked now)) ->
         cell (fst st) name c == spent name c pre)
   /\ NoDup (snd st)
   /\ (forall c,
         In c (snd st)
         <-> exists e, In e pre /\ e_category e = c
                       /\ In (getMonthLabel (e_date e)) MONTH_NAMES)).

Lemma stacked_inv_init :
  stacked_inv (@nil Expense) (init_stacked now, @nil string).
Proof.
  destruct init_stacked_spec as (Heq & _ & _).
  split; [reflexivity |]. split; [| split].
  - intros name c _. cbn [fst filter total_of].
    destruct (map_get String.eqb name (init_stacked now)) as [cats |] eqn:G;
      [| reflexivity].
    assert (Hcats : cats = []).
    { revert G. rewrite Heq. generalize last12. intros l.
      induction l as [| i l IH]; simpl; [discriminate |].
      destruct (String.eqb name _); [congruence | exact IH]. }
    subst cats. reflexivity.
  - constructor.
  - intros c. simpl. split; [tauto |]. intros (e & [] & _).
Qed.

Lemma stacked_inv_step (pre : list Expense) (e : Expense)
    (st : JsMap string (JsMap string Q) * list string) :
  stacked_inv pre st -> stacked_inv (pre ++ [e]) (stacked_step st e).
Proof.
  destruct st as [months all]. intros (Hkeys & Hcell & Hnd & Hall).
  cbn [fst snd] in *. unfold stacked_step.
  destruct init_stacked_spec as (_ & _ & Hnames).
  assert (Hspent : forall name c,
             spent name c (pre ++ [e])
             == spent name c pre
                + (if String.eqb (getMonthLabel (e_date e)) name
                      && String.eqb (e_category e) c
                   then e_amount e else 0)).
  { intros name c. rewrite filter_app, total_of_app. cbn [filter].
    destruct (_ && _); cbn [total_of]; lra. }
  destruct (map_has String.eqb (getMonthLabel (e_date e)) months) eqn:Hhas.
  - apply map_has_In in Hhas.
    destruct (set_add_spec (e_category e) all Hnd) as (Hnd' & Hall').
    cbn [fst snd]. split; [| split; [| split]].
    + rewrite map_modify_fst. exact Hkeys.
    + intros name c Hin. rewrite Hspent.
      rewrite (map_get_modify String.eqb string_eqb_eq).
      destruct (String.eqb (getMonthLabel (e_date e)) name) eqn:E.
      * apply String.eqb_eq in E. subst name. specialize (Hcell _ c Hin).
        destruct (map_get String.eqb (getMonthLabel (e_date e)) months)
          as [cats |] eqn:G.
        -- cbn [option_map andb]. rewrite breakdown_get_add, Hcell.
           reflexivity.
        -- exfalso.
           apply (map_get_None String.eqb string_eqb_eq) in G.
           exact (G Hhas).
      * cbn [andb]. rewrite (Hcell _ c Hin). lra.
    + exact Hnd'.
    + intros c. rewrite Hall', Hall. split.
      * intros [-> | (e' & Hin & Hcat & Hlab)].
        -- exists e. split; [apply in_or_app; right; left; reflexivity |].
           split; [reflexivity |]. apply Hnames. rewrite <- Hkeys.
           exact Hhas.
        -- exists e'. split; [apply in_or_app; left; exact Hin |].
           split; assumption.
      * intros (e' & Hin & Hcat & Hlab).
        apply in_app_or in Hin. destruct Hin as [Hin | [<- | []]].
        -- right. exists e'. repeat split; assumption.
        -- left. symmetry. exact Hcat.
  - assert (Hout : ~ In (getMonthLabel (e_date e)) (map fst months)).
    { intros Hin. apply map_has_In in Hin. congruence. }
    cbn [fst snd]. split; [exact Hkeys |]. split; [| split].
    + intros name c Hin. rewrite Hspent.
      destruct (String.eqb (getMonthLabel (e_date e)) name) eqn:E.
      * apply String.eqb_eq in E. subst name. exfalso. apply Hout.
        rewrite Hkeys. exact Hin.
      * cbn [andb]. rewrite (Hcell _ c Hin). lra.
    + exact Hnd.
    + intros c. rewrite Hall. split.
      * intros (e' & Hin & Hrest). exists e'.
        split; [apply in_or_app; left; exact Hin | exact Hrest].
      * intros (e' & Hin & Hcat & Hlab).
        apply in_app_or in Hin. destruct Hin as [Hin | [<- | []]].
        -- exists e'. repeat split; assumption.
        -- exfalso. apply Hout. rewrite Hkeys. apply Hnames. exact Hlab.
Qed.

Lemma stacked_inv_fold (es pre : list Expense)
    (st : JsMap string (JsMap string Q) * list string) :
  stacked_inv pre st ->
  stacked_inv (pre ++ es) (fold_left stacked_step es st).
Proof.
  revert pre st. induction es as [| e es IH]; intros pre st Hinv; simpl.
  - rewrite app_nil_r. exact Hinv.
  - replace (pre ++ e :: es) with ((pre ++ [e]) ++ es)
      by (rewrite <- app_assoc; reflexivity).
    apply IH. apply stacked_inv_step. exact Hinv.
Qed.

(** X22. The stacked data has one row for each of the twelve months up to
    the current one, in that order.  A row reads, under each category,
    the total of the expenses of that category whose date falls in a
    month of that name, whatever the year.  The categories are listed
    once each, and are those of the expenses with a valid date. *)
Theorem getStackedCategoryData_spec :
  let r := getStackedCategoryData now expenses_ in
  map sr_month (sc_data r)
  = map (fun i => month_name ((getMonth now - i) mod 12)) last12
  /\ Forall (fun row =>
               forall c,
                 breakdown_get c (sr_cats row)
                 == spent (sr_month row) c expenses_)
       (sc_data r)
  /\ NoDup (sc_categories r)
  /\ (forall c,
        In c (sc_categories r)
        <-> exists e, In e expenses_ /\ e_category e = c
                      /\ In (getMonthLabel (e_date e)) MONTH_NAMES).
Proof.
  cbv zeta. unfold getStackedCategoryData.
  pose proof (stacked_inv_fold expenses_ [] _ stacked_inv_init) as Hinv.
  cbn [app] in Hinv.
  destruct (fold_left stacked_step expenses_ (init_stacked now, []))
    as [months all].
  destruct Hinv as (Hkeys & Hcell & Hnd & Hall). cbn [fst snd] in *.
  destruct init_stacked_spec as (Heq & Hnd0 & _).
  cbn [sc_data sc_categories]. split; [| split; [| split]].
  - rewrite map_map.
    transitivity (map fst months).
    { apply map_ext. intros [month cats]. reflexivity. }
    rewrite Hkeys, Heq, map_map. reflexivity.
  - apply Forall_forall. intros row Hrow c.
    apply in_map_iff in Hrow. destruct Hrow as ([month cats] & <- & Hin).
    cbn [sr_month sr_cats].
    assert (Hkey : In month (map fst (init_stacked now))).
    { rewrite <- Hkeys. apply (in_map fst) in Hin. exact Hin. }
    specialize (Hcell month c Hkey).
    rewrite (map_get_In String.eqb string_eqb_eq month cats months) in Hcell;
      [exact Hcell | rewrite Hkeys; exact Hnd0 | exact Hin].
  - exact Hnd.
  - exact Hall.
Qed.

End Stacked.
